(** * Animine link resolution: a shallow embedding of [animine.py]

    The development follows the classes of the program that take part in
    link resolution: [HexDecoder], the provider table and the extractors of
    [ProviderManager], [ProviderManager.get_all_links], and the provider
    statistics of [JSONDataManager.update_provider_stats].

    Text is modelled by [string]: a Python [str] whose code points are
    below 256, one [ascii] per code point. *)

From Stdlib Require Import ZArith Ascii String Sorted PrimFloat Uint63 SpecFloat FloatOps.
From stdpp Require Import base list strings gmap.

Open Scope string_scope.

(** ** Python string operations *)

Module PyStr.

(** [s[n:]] *)
Fixpoint drop (n : nat) (s : string) : string :=
  match n, s with
  | S k, String _ r => drop k r
  | _, _ => s
  end.

(** [s[:n]] *)
Fixpoint take (n : nat) (s : string) : string :=
  match n, s with
  | S k, String c r => String c (take k r)
  | _, _ => ""
  end.

(** [s.startswith(p)] *)
Definition startswith (s p : string) : bool := String.prefix p s.

(** [s.endswith(p)] *)
Definition endswith (s p : string) : bool :=
  (String.length p <=? String.length s)%nat
  && String.eqb (drop (String.length s - String.length p) s) p.

(** [p in s] *)
Fixpoint contains (p s : string) : bool :=
  String.prefix p s ||
  match s with
  | "" => false
  | String _ r => contains p r
  end.

(** [s.replace(old, new)] for a non-empty [old]: the occurrences are
    taken from left to right and do not overlap.  [skip] counts the
    characters of the occurrence just replaced that are still to be
    passed over. *)
Fixpoint replace_from (old new : string) (skip : nat) (s : string) : string :=
  match s with
  | "" => ""
  | String c r =>
      match skip with
      | S k => replace_from old new k r
      | O =>
          if String.prefix old s
          then new +:+ replace_from old new (String.length old - 1) r
          else String c (replace_from old new 0 r)
      end
  end.

Definition replace (old new s : string) : string := replace_from old new 0 s.

(** [str.isspace] on one character, for code points below 256; the
    same set is what [\s] matches in a [str] pattern. *)
Definition isspace (c : ascii) : bool :=
  let n := nat_of_ascii c in
  (((9 <=? n) && (n <=? 13)) || ((28 <=? n) && (n <=? 32))
   || (n =? 133) || (n =? 160))%nat.

Fixpoint lstrip (s : string) : string :=
  match s with
  | String c r => if isspace c then lstrip r else s
  | "" => ""
  end.

(** [s.rstrip()] *)
Fixpoint rstrip (s : string) : string :=
  match s with
  | "" => ""
  | String c r =>
      match rstrip r with
      | "" => if isspace c then "" else String c ""
      | r' => String c r'
      end
  end.

(** [s.strip()] *)
Definition strip (s : string) : string := rstrip (lstrip s).

(** [s.split(sep)] for a one-character separator. *)
Fixpoint split (sep : ascii) (s : string) : list string :=
  match s with
  | "" => [""]
  | String c r =>
      if Ascii.eqb c sep then "" :: split sep r
      else match split sep r with
           | w :: ws => String c w :: ws
           | [] => [String c ""]
           end
  end.

(** [sep.join(l)] *)
Fixpoint join (sep : string) (l : list string) : string :=
  match l with
  | [] => ""
  | [x] => x
  | x :: r => x +:+ sep +:+ join sep r
  end.

(** ASCII lower-casing of one character. *)
Definition lower (c : ascii) : ascii :=
  let n := nat_of_ascii c in
  if ((65 <=? n) && (n <=? 90))%nat then ascii_of_nat (n + 32) else c.

End PyStr.

(** ** The fragment of Python's [re] the program uses

    A backtracking matcher in continuation-passing style: alternatives are
    tried in the order of Python's engine, a greedy repetition first tries
    one more iteration and then the rest of the pattern. *)

Module Re.

Inductive cls_item :=
| CChar (c : ascii)
| CRange (lo hi : ascii)
| CSpace.

Inductive regex :=
| Eps
| Chr (c : ascii)
| Any
| Cls (negated : bool) (items : list cls_item)
| Seq (r1 r2 : regex)
| Star (r : regex)
| Grp (i : nat) (r : regex).

Definition Plus (r : regex) : regex := Seq r (Star r).

(** a literal piece of text *)
Fixpoint Lit (s : string) : regex :=
  match s with
  | "" => Eps
  | String c r => Seq (Chr c) (Lit r)
  end.

Fixpoint seqs (l : list regex) : regex :=
  match l with
  | [] => Eps
  | [r] => r
  | r :: l' => Seq r (seqs l')
  end.

Definition item_matches (it : cls_item) (x : ascii) : bool :=
  match it with
  | CChar c => Ascii.eqb c x
  | CRange lo hi =>
      ((nat_of_ascii lo <=? nat_of_ascii x) && (nat_of_ascii x <=? nat_of_ascii hi))%nat
  | CSpace => PyStr.isspace x
  end.

Definition upper (c : ascii) : ascii :=
  let n := nat_of_ascii c in
  if ((97 <=? n) && (n <=? 122))%nat then ascii_of_nat (n - 32) else c.

(** With [re.IGNORECASE] a set item is tried on the character and on
    both of its cased forms. *)
Definition items_match (ic : bool) (items : list cls_item) (x : ascii) : bool :=
  existsb (fun it =>
             item_matches it x ||
             (ic && (item_matches it (PyStr.lower x) || item_matches it (upper x))))
          items.

Definition chr_matches (ic : bool) (c x : ascii) : bool :=
  if ic then Ascii.eqb (PyStr.lower c) (PyStr.lower x) else Ascii.eqb c x.

Definition newline : ascii := ascii_of_nat 10.

(** captured groups, most recent first *)
Definition caps := list (nat * string).

Definition group (i : nat) (cs : caps) : string :=
  match List.find (fun p => (fst p =? i)%nat) cs with
  | Some p => snd p
  | None => ""
  end.

Definition one (p : ascii -> bool) (s : string) (cs : caps)
    (k : string -> caps -> option (string * caps)) : option (string * caps) :=
  match s with
  | String x r => if p x then k r cs else None
  | "" => None
  end.

(** [rmatch ic r s cs k]: match [r] at the start of [s] and hand the
    rest of the text to [k]. *)
Fixpoint rmatch (ic : bool) (r : regex) (s : string) (cs : caps)
    (k : string -> caps -> option (string * caps)) : option (string * caps) :=
  match r with
  | Eps => k s cs
  | Chr c => one (chr_matches ic c) s cs k
  | Any => one (fun x => negb (Ascii.eqb x newline)) s cs k
  | Cls neg items => one (fun x => xorb neg (items_match ic items x)) s cs k
  | Seq r1 r2 => rmatch ic r1 s cs (fun s' cs' => rmatch ic r2 s' cs' k)
  | Star r1 =>
      (fix star (n : nat) (s : string) (cs : caps) : option (string * caps) :=
         match n with
         | O => k s cs
         | S n' =>
             match rmatch ic r1 s cs
                     (fun s' cs' =>
                        if (String.length s' <? String.length s)%nat
                        then star n' s' cs' else None) with
             | Some res => Some res
             | None => k s cs
             end
         end) (String.length s) s cs
  | Grp i r1 =>
      rmatch ic r1 s cs
        (fun s' cs' =>
           k s' ((i, PyStr.take (String.length s - String.length s') s) :: cs'))
  end.

Definition match_here (ic : bool) (r : regex) (s : string) : option (string * caps) :=
  rmatch ic r s [] (fun s' cs => Some (s', cs)).

(** [re.search]: the groups of the leftmost match. *)
Fixpoint search (ic : bool) (r : regex) (s : string) : option caps :=
  match match_here ic r s with
  | Some (_, cs) => Some cs
  | None =>
      match s with
      | "" => None
      | String _ s' => search ic r s'
      end
  end.

(** [re.finditer]: the text and the groups of every match, from left to
    right, the next search starting where the last match ended.  [skip]
    counts the characters of the last match still to be passed over.
    No pattern of the program matches the empty text. *)
Fixpoint finditer_from (ic : bool) (r : regex) (skip : nat) (s : string)
    : list (string * caps) :=
  match skip with
  | S k =>
      match s with
      | "" => []
      | String _ s' => finditer_from ic r k s'
      end
  | O =>
      match s with
      | "" => []
      | String _ s' =>
          match match_here ic r s with
          | Some (rest, cs) =>
              let n := String.length s - String.length rest in
              (PyStr.take n s, cs) :: finditer_from ic r (n - 1) s'
          | None => finditer_from ic r 0 s'
          end
      end
  end.

(** [re.findall] for a pattern without groups *)
Definition findall0 (r : regex) (s : string) : list string :=
  map fst (finditer_from false r 0 s).

(** [re.findall] for a pattern with exactly one group *)
Definition findall1 (r : regex) (s : string) : list string :=
  map (fun m => group 1 (snd m)) (finditer_from false r 0 s).

End Re.

(** ** [HexDecoder] *)

Module HexDecoder.

(** [self.translation_table], the entries in the order of the literal. *)
Definition translation_entries : list (string * string) :=
  [ ("79", "A"); ("7a", "B"); ("7b", "C"); ("7c", "D"); ("7d", "E"); ("7e", "F");
    ("7f", "G"); ("70", "H"); ("71", "I"); ("72", "J"); ("73", "K"); ("74", "L");
    ("75", "M"); ("76", "N"); ("77", "O"); ("68", "P"); ("69", "Q"); ("6a", "R");
    ("6b", "S"); ("6c", "T"); ("6d", "U"); ("6e", "V"); ("6f", "W"); ("60", "X");
    ("61", "Y"); ("62", "Z"); ("59", "a"); ("5a", "b"); ("5b", "c"); ("5c", "d");
    ("5d", "e"); ("5e", "f"); ("5f", "g"); ("50", "h"); ("51", "i"); ("52", "j");
    ("53", "k"); ("54", "l"); ("55", "m"); ("56", "n"); ("57", "o"); ("48", "p");
    ("49", "q"); ("4a", "r"); ("4b", "s"); ("4c", "t"); ("4d", "u"); ("4e", "v");
    ("4f", "w"); ("40", "x"); ("41", "y"); ("42", "z"); ("08", "0"); ("09", "1");
    ("0a", "2"); ("0b", "3"); ("0c", "4"); ("0d", "5"); ("0e", "6"); ("0f", "7");
    ("00", "8"); ("01", "9"); ("15", "-"); ("16", "."); ("67", "_"); ("46", "~");
    ("02", ":"); ("17", "/"); ("07", "?"); ("1b", "#"); ("63", "["); ("65", "]");
    ("78", "@"); ("19", "!"); ("1c", "$"); ("1e", "&"); ("10", "("); ("11", ")");
    ("12", "*"); ("13", "+"); ("14", ","); ("03", ";"); ("05", "="); ("1d", "%") ].

(** A dict literal: a later entry for the same key replaces an earlier one. *)
Definition translation_table : gmap string string :=
  foldl (fun m e => <[fst e := snd e]> m) ∅ translation_entries.

(** [re.findall(r"..", hex_blob)] *)
Definition hex_pairs (hex_blob : string) : list string :=
  Re.findall0 (Re.Seq Re.Any Re.Any) hex_blob.

(** The loop over the pairs: a pair of the table appends its character,
    any other pair is skipped. *)
Fixpoint decoded_chars (pairs : list string) : list string :=
  match pairs with
  | [] => []
  | hp :: rest =>
      match translation_table !! hp with
      | Some c => c :: decoded_chars rest
      | None => decoded_chars rest
      end
  end.

Definition strip_prefix (hex_blob : string) : string :=
  if PyStr.startswith hex_blob "--" then PyStr.drop 2 hex_blob else hex_blob.

(** [''.join(decoded_chars)] for a blob that passed the length check *)
Definition assemble (hex_blob : string) : string :=
  PyStr.join "" (decoded_chars (hex_pairs (strip_prefix hex_blob))).

(** [decode]: the [ValueError] of the empty blob is caught by the
    method's own handler, which returns the empty string. *)
Definition decode (hex_blob : string) : string :=
  match hex_blob with
  | "" => ""
  | _ =>
      if negb (String.length (strip_prefix hex_blob) mod 2 =? 0)%nat then ""
      else PyStr.replace "/clock" "/clock.json" (assemble hex_blob)
  end.

(** the characters of the table *)
Definition characters : list string := map snd (map_to_list translation_table).

Definition in_range (lo hi : nat) (s : string) : bool :=
  match s with
  | String c "" => ((lo <=? nat_of_ascii c) && (nat_of_ascii c <=? hi))%nat
  | _ => false
  end.

Definition is_upper : string -> bool := in_range 65 90.
Definition is_lower : string -> bool := in_range 97 122.
Definition is_digit : string -> bool := in_range 48 57.

(** the characters of the table that are neither letters nor digits *)
Definition punctuation : list string :=
  filter (fun c => negb (is_upper c || is_lower c || is_digit c) = true) characters.

(** The punctuation set as the specification lists it. *)
Definition spec_punctuation : list string :=
  [":"; "/"; "?"; "#"; "["; "]"; "@"; "!"; "$"; "&"; "("; ")"; "*"; "+"; ",";
   ";"; "="; "-"; "."; "_"; "~"].

(** The rewrite as the specification words it: only a trailing [/clock]
    becomes [/clock.json]. *)
Definition spec_trailing_rewrite (s : string) : string :=
  if PyStr.endswith s "/clock" then s +:+ ".json" else s.

End HexDecoder.


(** ** Python values and exceptions *)

(** The values [json.loads] and [response.json()] produce.  A dict is the
    list of its items: the keys of a parsed JSON object are distinct. *)
#[warnings="-register-all"]
Inductive pyval :=
| PNone
| PBool (b : bool)
| PInt (z : Z)
| PFloat (f : float)
| PStr (s : string)
| PList (l : list pyval)
| PDict (d : list (string * pyval)).

Inductive pyexc :=
| ValueError
| TypeError
| AttributeError
| RequestException
| OSError.

(** A computation that returns or raises. *)
Inductive result (A : Type) :=
| Ok (a : A)
| Raise (e : pyexc).
Arguments Ok {A} a.
Arguments Raise {A} e.

#[global] Instance result_ret : MRet result := fun A a => Ok a.

#[global] Instance result_bind : MBind result := fun A B f m =>
  match m with
  | Ok a => f a
  | Raise e => Raise e
  end.

(** [try: ... except Exception: return d] *)
Definition try_except {A} (m : result A) (d : A) : A :=
  match m with
  | Ok a => a
  | Raise _ => d
  end.

Fixpoint rmapM {A B} (f : A -> result B) (l : list A) : result (list B) :=
  match l with
  | [] => Ok []
  | x :: r => y ← f x; ys ← rmapM f r; Ok (y :: ys)
  end.

Module Py.

(** [bool(v)] *)
Definition truthy (v : pyval) : bool :=
  match v with
  | PNone => false
  | PBool b => b
  | PInt z => negb (z =? 0)%Z
  | PFloat f => negb (PrimFloat.eqb f 0%float)
  | PStr s => negb (String.eqb s "")
  | PList l => match l with [] => false | _ => true end
  | PDict d => match d with [] => false | _ => true end
  end.

(** [d[key]] for a key that may be absent *)
Fixpoint lookup (key : string) (d : list (string * pyval)) : option pyval :=
  match d with
  | [] => None
  | (k, v) :: r => if String.eqb k key then Some v else lookup key r
  end.

(** [v.get(key, default)]: only a dict has the method. *)
Definition get (v : pyval) (key : string) (default : pyval) : result pyval :=
  match v with
  | PDict d => Ok (match lookup key d with Some x => x | None => default end)
  | _ => Raise AttributeError
  end.

(** a value that can be a dict key *)
Definition hashable (v : pyval) : bool :=
  match v with
  | PList _ | PDict _ => false
  | _ => true
  end.

End Py.

(** ** [list.sort(key=...)]

    Python's sort is stable and compares keys with [<] only.  The keys of
    [get_all_links] are triples of integers, compared as tuples. *)

Module PySort.

Definition key : Type := (Z * Z * Z)%type.

(** [a < b] on tuples of three integers *)
Definition key_lt (a b : key) : bool :=
  let '(a1, a2, a3) := a in
  let '(b1, b2, b3) := b in
  ((a1 <? b1) || ((a1 =? b1) && ((a2 <? b2) || ((a2 =? b2) && (a3 <? b3)))))%Z.

Section Sort.
Context {A : Type} (kf : A -> key).

(** [x] goes in front of the first element whose key is not smaller. *)
Fixpoint insert_sorted (x : A) (l : list A) : list A :=
  match l with
  | [] => [x]
  | y :: r => if key_lt (kf y) (kf x) then y :: insert_sorted x r else x :: y :: r
  end.

Fixpoint stable_sort (l : list A) : list A :=
  match l with
  | [] => []
  | x :: r => insert_sorted x (stable_sort r)
  end.

(** [x] is not after [y] in the order of the keys *)
Definition key_le (x y : A) : Prop := key_lt (kf y) (kf x) = false.

End Sort.

End PySort.

(** ** Application constants *)

Definition ALLANIME_REFR : string := "https://allmanga.to".
Definition ALLANIME_BASE : string := "allanime.day".
Definition ALLANIME_API : string := "https://api." +:+ ALLANIME_BASE.

(** the double quote character, and a text between double quotes *)
Definition dq : ascii := ascii_of_nat 34.
Definition quoted (s : string) : string := String dq s +:+ String dq "".
Definition nl : string := String Re.newline "".

(** ** [ProviderManager] *)

Module ProviderManager.

Inductive provider_key := wixmp | sharepoint | youtube | hianime.

#[global] Instance provider_key_eq_dec : EqDecision provider_key.
Proof. solve_decision. Defined.

Record provider_info := {
  name : string;
  regex : Re.regex;
  priority : Z;
  supports_mp4 : bool;
  supports_m3u8 : bool;
  quality_levels : list string
}.

(** [(--[a-f0-9]+)] *)
Definition token_group : Re.regex :=
  Re.Grp 1 (Re.Seq (Re.Lit "--")
                   (Re.Plus (Re.Cls false [Re.CRange "a"%char "f"%char;
                                           Re.CRange "0"%char "9"%char]))).

(** [self.providers], in the order of the dict literal *)
Definition providers : list (provider_key * provider_info) :=
  [ (wixmp, {| name := "Wixmp";
               regex := Re.Seq (Re.Lit "Default:") token_group;
               priority := 1; supports_mp4 := true; supports_m3u8 := true;
               quality_levels := ["1080p"; "720p"; "480p"; "360p"] |});
    (sharepoint, {| name := "SharePoint";
                    regex := Re.Seq (Re.Lit "S-mp4:") token_group;
                    priority := 2; supports_mp4 := true; supports_m3u8 := false;
                    quality_levels := ["MP4"] |});
    (youtube, {| name := "YouTube";
                 regex := Re.Seq (Re.Lit "Yt-mp4:") token_group;
                 priority := 3; supports_mp4 := true; supports_m3u8 := false;
                 quality_levels := ["YouTube"] |});
    (hianime, {| name := "HiAnime";
                 regex := Re.Seq (Re.Lit "Luf-Mp4:") token_group;
                 priority := 4; supports_mp4 := false; supports_m3u8 := true;
                 quality_levels := ["HLS"] |}) ].

(** [(format, quality, url)] and [(format, quality, url, provider)].  The
    quality and the url of a SharePoint link are taken from parsed JSON as
    they are, so they are Python values. *)
Definition link3 : Type := (string * pyval * pyval)%type.
Definition link4 : Type := (string * pyval * pyval * string)%type.

(** character sets of the patterns *)
Definition not_slash : Re.regex := Re.Cls true [Re.CChar "/"%char].
Definition not_comma_slash : Re.regex := Re.Cls true [Re.CChar ","%char; Re.CChar "/"%char].
Definition not_quote : Re.regex := Re.Cls true [Re.CChar dq].
Definition not_quote_space : Re.regex := Re.Cls true [Re.CChar dq; Re.CSpace].

(** the pattern of [extract_wixmp_links] *)
Definition wixmp_pattern : Re.regex :=
  Re.seqs
    [ Re.Lit "https://repackager.wixmp.com/";
      Re.Grp 1 (Re.Seq (Re.Lit "video.wixstatic.com/video/") (Re.Plus not_slash));
      Re.Lit "/,";
      Re.Grp 2 (Re.Seq (Re.Plus not_comma_slash)
                       (Re.Star (Re.Seq (Re.Chr ","%char) (Re.Plus not_comma_slash))));
      Re.Lit ",/mp4/file.mp4.urlset/master.m3u8" ].

Definition extract_wixmp_links (repackager_url : string) : list link3 :=
  match Re.search false wixmp_pattern repackager_url with
  | None => []
  | Some cs =>
      let base_url := Re.group 1 cs in
      let qualities_str := Re.group 2 cs in
      let qualities :=
        filter (fun q => q ≠ "") (map PyStr.strip (PyStr.split ","%char qualities_str)) in
      map (fun quality =>
             ("mp4", PStr quality,
              PStr ("https://" +:+ base_url +:+ "/" +:+ quality +:+ "/mp4/file.mp4")))
          qualities
  end.

(** the pattern of the repackager URLs in [get_all_links]: the fixed
    prefix, then one or more characters that are neither a double quote, a
    single quote, [>] nor white space *)
Definition repackager_pattern : Re.regex :=
  Re.Seq (Re.Lit "https://repackager.wixmp.com/")
         (Re.Plus (Re.Cls true [Re.CChar dq; Re.CChar "'"%char; Re.CChar ">"%char;
                                Re.CSpace])).

(** A quoted field name, a colon and a quoted value whose text is group 1:
    the value has no double quote and contains the texts of [inner] in
    that order. *)
Definition quoted_field_pattern (field : string) (inner : list string) : Re.regex :=
  Re.seqs
    [ Re.Lit (quoted field +:+ ":" +:+ String dq "");
      Re.Grp 1 (Re.Seq (Re.Star not_quote)
                       (Re.seqs (map (fun w => Re.Seq (Re.Lit w) (Re.Star not_quote)) inner)));
      Re.Lit (String dq "") ].

Definition sharepoint_patterns : list Re.regex :=
  [ quoted_field_pattern "link" ["sharepoint"; "download"];
    quoted_field_pattern "src" ["sharepoint"; "download"] ].

(** The fallback of [extract_sharepoint_links]: the scan of the raw text. *)
Definition sharepoint_regex_links (response_text : string) : list link3 :=
  flat_map
    (fun pattern =>
       flat_map
         (fun m =>
            if PyStr.contains "sharepoint.com" m && PyStr.contains "download" m
            then [("mp4", PStr "SharePoint", PStr m)] else [])
         (Re.findall1 pattern response_text))
    sharepoint_patterns.

(** One element of the [links] array. *)
Definition sharepoint_link (link_obj : pyval) : list link3 :=
  match link_obj with
  | PDict d =>
      match Py.lookup "link" d with
      | Some url =>
          if Py.truthy (default (PBool false) (Py.lookup "mp4" d))
          then [("mp4", default (PStr "SharePoint") (Py.lookup "resolutionStr" d), url)]
          else []
      | None => []
      end
  | _ => []
  end.

Definition youtube_patterns : list Re.regex :=
  [ Re.Grp 1 (Re.Seq (Re.Lit "https://tools.fast4speed.rsvp") (Re.Plus not_quote_space));
    quoted_field_pattern "url" ["tools.fast4speed"] ].

Definition extract_youtube_links (response_text : string) : list link3 :=
  flat_map
    (fun pattern =>
       map (fun m =>
              let m' := if PyStr.startswith m "https://allanime.dayhttps://"
                        then PyStr.replace "https://allanime.day" "" m else m in
              ("mp4", PStr "YouTube", PStr m'))
           (Re.findall1 pattern response_text))
    youtube_patterns.

Definition hianime_patterns : list Re.regex :=
  [ quoted_field_pattern "url" [".m3u8"];
    Re.Grp 1 (Re.seqs [ Re.Lit "https://"; Re.Plus not_quote_space; Re.Lit ".m3u8";
                        Re.Star not_quote_space ]) ].

Definition extract_hianime_links (response_text : string) : list link3 :=
  flat_map
    (fun pattern =>
       map (fun m =>
              if PyStr.contains "master.m3u8" m
              then ("m3u8", PStr "HLS Master", PStr m)
              else ("m3u8", PStr "HLS Stream", PStr m))
           (Re.findall1 pattern response_text))
    hianime_patterns.

(** What the program takes from Python's library and does not define. *)
Section Library.

(** [json.loads] on a text whose first non-blank character is an opening
    brace: the items of the parsed object, [None] when it raises
    [JSONDecodeError]. *)
Variable json_loads : string -> option (list (string * pyval)).

(** [str(v)] for a value that is not a [str] *)
Variable str_of : pyval -> string.

(** The JSON branch of [extract_sharepoint_links]. *)
Definition sharepoint_json_links (response_text : string) : result (list link3) :=
  if PyStr.startswith (PyStr.strip response_text) "{" then
    match json_loads response_text with
    | None => Raise ValueError
    | Some json_data =>
        match Py.lookup "links" json_data with
        | Some (PList l) => Ok (flat_map sharepoint_link l)
        | _ => Ok []
        end
    end
  else Ok [].

(** The body of the [try] of [extract_sharepoint_links]. *)
Definition extract_sharepoint_links_body (response_text : string) : result (list link3) :=
  links ← sharepoint_json_links response_text;
  Ok (match links with
      | [] => sharepoint_regex_links response_text
      | _ => links
      end).

Definition extract_sharepoint_links (response_text : string) : list link3 :=
  try_except (extract_sharepoint_links_body response_text) [].

(** *** The network *)

(** A GET as [session.get] receives it; [req_timeout] is the [timeout]
    argument, [None] when the call passes none. *)
Record request := {
  req_url : string;
  req_timeout : option Z
}.

(** The surroundings of one call of [get_all_links]. *)
Record world := {
  (** the metadata GET for a show, an episode and a mode, followed by
      [raise_for_status] and [response.json()] *)
  meta_reply : string -> string -> string -> result pyval;
  (** a provider GET followed by [raise_for_status]: [response.text] *)
  provider_reply : request -> result string;
  (** the seconds a provider GET took *)
  elapsed : request -> float;
  (** the [timeout] option of section [NETWORK] of the configuration *)
  network_timeout : Z
}.

Inductive fetch_result :=
| Success (provider : string) (response_text : string)
| Error (provider : string).

(** [self.providers[provider_key]] *)
Definition provider_of (pk : provider_key) : provider_info :=
  default {| name := ""; regex := Re.Eps; priority := 0; supports_mp4 := false;
             supports_m3u8 := false; quality_levels := [] |}
          (snd <$> List.find (fun p => bool_decide (fst p = pk)) providers).

Definition provider_request (w : world) (decoded_url : string) : request :=
  {| req_url := "https://" +:+ ALLANIME_BASE +:+ decoded_url;
     req_timeout := Some (network_timeout w) |}.

Definition fetch_provider_data (w : world) (pk : provider_key)
    (decoded_url : string) : fetch_result :=
  let provider := provider_of pk in
  match provider_reply w (provider_request w decoded_url) with
  | Ok response_text => Success (name provider) response_text
  | Raise _ => Error (name provider)
  end.

(** The call of [update_provider_stats] that [fetch_provider_data] makes. *)
Definition fetch_record (w : world) (pk : provider_key)
    (decoded_url : string) : string * bool * float :=
  let provider := provider_of pk in
  let response_time := elapsed w (provider_request w decoded_url) in
  match provider_reply w (provider_request w decoded_url) with
  | Ok _ => (name provider, true, response_time)
  | Raise _ => (name provider, false, response_time)
  end.

(** *** [get_all_links] *)

(** The metadata GET: no [timeout] argument is passed. *)
Definition metadata_request : request :=
  {| req_url := ALLANIME_API +:+ "/api"; req_timeout := None |}.

Definition backslash : string := String (ascii_of_nat 92) "".

(** [data.get("data", {}).get("episode", {}).get("sourceUrls", [])] *)
Definition source_urls_of (data : pyval) : result pyval :=
  d ← Py.get data "data" (PDict []);
  ep ← Py.get d "episode" (PDict []);
  Py.get ep "sourceUrls" (PList []).

(** [for source in source_urls] *)
Definition iterate (v : pyval) : result (list pyval) :=
  match v with
  | PList l => Ok l
  | PDict d => Ok (map (fun kv => PStr (fst kv)) d)
  | PStr s => Ok (map (fun c => PStr (String c "")) (list_ascii_of_string s))
  | _ => Raise TypeError
  end.

Definition py_str (v : pyval) : string :=
  match v with
  | PStr s => s
  | _ => str_of v
  end.

(** One turn of the loop that builds [source_lines]. *)
Definition source_line (source : pyval) : result (list string) :=
  source_name ← Py.get source "sourceName" (PStr "");
  raw_url ← Py.get source "sourceUrl" (PStr "");
  source_url ← match raw_url with
               | PStr s => Ok (PyStr.replace backslash ""
                                 (PyStr.replace (backslash +:+ "u002F") "/" s))
               | _ => Raise AttributeError
               end;
  Ok (if Py.truthy source_name && negb (String.eqb source_url "")
      then [py_str source_name +:+ ":" +:+ source_url] else []).

(** From the parsed metadata reply to [source_response]; [None] is the
    early [return []] for no source URLs. *)
Definition source_response_of (data : pyval) : result (option string) :=
  source_urls ← source_urls_of data;
  if negb (Py.truthy source_urls) then Ok None
  else
    sources ← iterate source_urls;
    source_lines ← rmapM source_line sources;
    Ok (Some (PyStr.join nl (concat source_lines))).

(** The first loop: the providers whose tag is found and whose token
    decodes to a non-empty path, in the order of [self.providers]. *)
Definition submitted (source_response : string)
    : list (provider_key * provider_info * string) :=
  flat_map
    (fun p =>
       match Re.search true (regex (snd p)) source_response with
       | Some cs =>
           let encoded_url := Re.group 1 cs in
           let decoded_url := HexDecoder.decode encoded_url in
           if String.eqb decoded_url "" then [] else [(fst p, snd p, decoded_url)]
       | None => []
       end)
    providers.

(** A finished future with the entry [futures[future]]. *)
Definition future : Type := (provider_key * provider_info * fetch_result)%type.

(** the entries of the table for the fetches that were submitted *)
Definition infos (fs : list future) : list provider_info := map (fun f => f.1.2) fs.

(** The futures of one call: entries of the table, each at most once. *)
Definition from_registry (fs : list future) : Prop :=
  infos fs `sublist_of` map snd providers.

(** One turn of the loop over [as_completed(futures)]: the links one
    finished fetch adds to [all_links]. *)
Definition collected (f : future) : list link4 :=
  let '(provider_key, provider_info, result) := f in
  match result with
  | Error _ => []
  | Success _ response_text =>
      let links :=
        match provider_key with
        | wixmp =>
            flat_map extract_wixmp_links (Re.findall0 repackager_pattern response_text)
        | sharepoint => extract_sharepoint_links response_text
        | youtube => extract_youtube_links response_text
        | hianime => extract_hianime_links response_text
        end in
      map (fun '(fmt, quality, link_url) => (fmt, quality, link_url, name provider_info)) links
  end.

Definition provider_priority (provider : string) : Z :=
  match List.find (fun p => String.eqb (name p) provider) (map snd providers) with
  | Some p => priority p
  | None => 999
  end.

(** [{'1080p': 1, '720p': 2, '480p': 3, '360p': 4}.get(quality, 5)] for
    a quality that can be hashed *)
Definition quality_priority (quality : pyval) : Z :=
  match quality with
  | PStr s =>
      if String.eqb s "1080p" then 1
      else if String.eqb s "720p" then 2
      else if String.eqb s "480p" then 3
      else if String.eqb s "360p" then 4
      else 5
  | _ => 5
  end.

(** [{'mp4': 1, 'm3u8': 2}.get(fmt, 3)] *)
Definition format_priority (fmt : string) : Z :=
  if String.eqb fmt "mp4" then 1 else if String.eqb fmt "m3u8" then 2 else 3.

Definition key_of (link : link4) : PySort.key :=
  let '(fmt, quality, url, provider) := link in
  (provider_priority provider, format_priority fmt, quality_priority quality).

(** the quality label of a link can be looked up in a dict *)
Definition hashable_link (x : link4) : bool := Py.hashable x.1.1.2.

(** [sort_key]: the lookup of a list or a dict in the quality table
    raises [TypeError]. *)
Definition sort_key (link : link4) : result PySort.key :=
  let '(fmt, quality, url, provider) := link in
  if Py.hashable quality then Ok (key_of link) else Raise TypeError.

(** [all_links.sort(key=sort_key)]: the keys are computed first, one per
    element, then the elements are sorted by them. *)
Definition sort_links (all_links : list link4) : result (list link4) :=
  keys ← rmapM sort_key all_links;
  Ok (map snd (PySort.stable_sort fst (combine keys all_links))).





(** The metadata query and what is made of its reply. *)
Definition fetch_source_response (w : world) (show_id episode mode : string)
    : result (option string) :=
  data ← meta_reply w show_id episode mode;
  source_response_of data.

(** The body of the [try] of [get_all_links], with the GETs it issued.
    [as_completed] is the order in which the fetches finish. *)
Definition get_all_links_run (w : world) (as_completed : list future -> list future)
    (show_id episode mode : string) : list request * result (list link4) :=
  match fetch_source_response w show_id episode mode with
  | Raise e => ([metadata_request], Raise e)
  | Ok None => ([metadata_request], Ok [])
  | Ok (Some source_response) =>
      let tasks := submitted source_response in
      let futures :=
        map (fun '(provider_key, provider_info, decoded_url) =>
               (provider_key, provider_info,
                fetch_provider_data w provider_key decoded_url)) tasks in
      let all_links := flat_map collected (as_completed futures) in
      (metadata_request :: map (fun t => provider_request w (snd t)) tasks,
       sort_links all_links)
  end.

(** [get_all_links]: any exception of the body is caught and the empty
    list returned. *)
Definition get_all_links (w : world) (as_completed : list future -> list future)
    (show_id episode mode : string) : list link4 :=
  try_except (snd (get_all_links_run w as_completed show_id episode mode)) [].

Definition requests_issued (w : world) (as_completed : list future -> list future)
    (show_id episode mode : string) : list request :=
  fst (get_all_links_run w as_completed show_id episode mode).

End Library.

End ProviderManager.

(** ** [JSONDataManager]: the provider statistics

    [data["providers"]] of the statistics file, as it is loaded at the
    start of a call and saved at its end.  Times are Python floats: binary64
    numbers with their own rounding. *)

Module JSONDataManager.

Record provider_data := {
  success_count : Z;
  failure_count : Z;
  avg_response_time : float;
  last_used : string
}.

(** An [int] operand of a float operation: the float nearest to it, ties
    to even, as Python converts an [int] of any size; [None] when the
    [int] is beyond the range of the floats and Python raises
    [OverflowError]. *)
Definition float_of_int (z : Z) : option float :=
  let f := SF2Prim (binary_normalize prec emax z 0 false) in
  if PrimFloat.is_infinity f then None else Some f.

(** the entry written for a provider seen for the first time *)
Definition new_provider (now : string) : provider_data :=
  {| success_count := 0; failure_count := 0; avg_response_time := 0; last_used := now |}.

(** [data["providers"][provider]] after the initialisation: the entry of
    the loaded statistics, a fresh one when there is none *)
Definition loaded_entry (now : string) (providers : gmap string provider_data)
    (provider : string) : provider_data :=
  default (new_provider now) (providers !! provider).

(** The body of the [try] up to the save: the entry with its counters,
    its average and its time stamp updated; [None] when a conversion
    raises [OverflowError], which the [except] clause logs. *)
Definition updated_entry (now : string) (loaded : provider_data)
    (success : bool) (response_time : float) : option provider_data :=
  let success_count' :=
    if success then (success_count loaded + 1)%Z else success_count loaded in
  let failure_count' :=
    if success then failure_count loaded else (failure_count loaded + 1)%Z in
  let total_requests := (success_count' + failure_count')%Z in
  avg ← (if (total_requests >? 1)%Z then
           let current_avg := avg_response_time loaded in
           a ← float_of_int (total_requests - 1);
           b ← float_of_int total_requests;
           Some ((current_avg * a + response_time) / b)%float
         else Some response_time);
  Some {| success_count := success_count'; failure_count := failure_count';
          avg_response_time := avg; last_used := now |}.

(** One call of [update_provider_stats], from the statistics it loaded to
    the statistics in the file when it is over; [now] is the time stamp
    of the call.  [saved] tells whether [_save_json] put the data of the
    call in the place of the file; what [_save_json] returns is ignored.
    When the call raises, or the save does not go through, the file is as
    the call found it.  Nothing here orders several calls: the fetches of
    one [get_all_links] call this function from their own threads, each
    loading and replacing the one file without a lock. *)
Definition update_provider_stats (now : string) (saved : bool)
    (providers : gmap string provider_data)
    (provider : string) (success : bool) (response_time : float)
    : gmap string provider_data :=
  match updated_entry now (loaded_entry now providers provider) success response_time with
  | Some entry => if saved then <[provider := entry]> providers else providers
  | None => providers
  end.

(** The formula as the specification words it: the plain latency while the
    success counter is at most one. *)
Definition spec_new_avg (success_count' n : Z) (old_avg latency : float) : option float :=
  if (success_count' <=? 1)%Z then Some latency
  else
    a ← float_of_int (n - 1);
    b ← float_of_int n;
    Some ((old_avg * a + latency) / b)%float.

End JSONDataManager.

(** ** Scenarios

    Surroundings in which the program is run in the examples below. *)

Module Scenario.
Import ProviderManager.

(** No scenario formats a value that is not a [str]. *)
Definition str_of (v : pyval) : string := "".

(** The bodies the scenarios hand to [json.loads] are not valid JSON. *)
Definition json_loads (text : string) : option (list (string * pyval)) := None.

(** the reply [{"data": {"episode": {"sourceUrls": sources}}}] *)
Definition episode_reply (sources : list pyval) : pyval :=
  PDict [("data", PDict [("episode", PDict [("episodeString", PStr "1");
                                            ("sourceUrls", PList sources)])])].

Definition source (source_name source_url : string) : pyval :=
  PDict [("sourceName", PStr source_name); ("sourceUrl", PStr source_url)].

Definition no_provider (req : request) : result string := Raise RequestException.

(** The metadata endpoint cannot be reached. *)
Definition unreachable : world :=
  {| meta_reply := fun _ _ _ => Raise RequestException;
     provider_reply := no_provider;
     elapsed := fun _ => 0%float;
     network_timeout := 15 |}.

(** The metadata endpoint answers [{"data": null}]. *)
Definition malformed : world :=
  {| meta_reply := fun _ _ _ => Ok (PDict [("data", PNone)]);
     provider_reply := no_provider;
     elapsed := fun _ => 0%float;
     network_timeout := 15 |}.

(** The metadata endpoint answers with an empty list of sources. *)
Definition no_sources : world :=
  {| meta_reply := fun _ _ _ => Ok (episode_reply []);
     provider_reply := no_provider;
     elapsed := fun _ => 0%float;
     network_timeout := 15 |}.

Definition wixmp_body : string :=
  "<a href='https://repackager.wixmp.com/video.wixstatic.com/video/abc/,720p,1080p,/mp4/file.mp4.urlset/master.m3u8'>".

Definition stream_url : string := "https://host/stream.m3u8".

(** a body with an m3u8 URL in a quoted [url] field *)
Definition hianime_body : string := "{" +:+ quoted "url" +:+ ":" +:+ quoted stream_url +:+ "}".

(** Two sources, [Default] with path [/a] and [Luf-Mp4] with path [/b];
    both fetches succeed. *)
Definition two_providers : world :=
  {| meta_reply := fun _ _ _ =>
       Ok (episode_reply [source "Default" "--1759"; source "Luf-Mp4" "--175a"]);
     provider_reply := fun req =>
       if String.eqb (req_url req) "https://allanime.day/a" then Ok wixmp_body
       else if String.eqb (req_url req) "https://allanime.day/b" then Ok hianime_body
       else Raise RequestException;
     elapsed := fun _ => 0.5%float;
     network_timeout := 15 |}.

(** A SharePoint body cut off before the closing brace. *)
Definition truncated_sharepoint_body : string :=
  "{" +:+ quoted "link" +:+ ":" +:+ quoted "https://x.sharepoint.com/download".

End Scenario.

(** ** Further models

    The parts of the program around the link resolution: the history and
    download records, the file names of downloads and the choice of the
    media player. *)

(** the characters of a text satisfy [Q] *)
Definition chars_in (Q : ascii -> Prop) (s : string) : Prop :=
  Forall Q (list_ascii_of_string s).

(** *** Lists *)

Module PyList.

Section SortBy.
Context {A K : Type} (lt : K -> K -> bool) (kf : A -> K).

(** [x] goes in front of the first element whose key is not smaller. *)
Fixpoint insert_by (x : A) (l : list A) : list A :=
  match l with
  | [] => [x]
  | y :: r => if lt (kf y) (kf x) then y :: insert_by x r else x :: y :: r
  end.

(** [l.sort(key=kf)]: a stable sort that compares keys with [lt] only *)
Fixpoint sort_by (l : list A) : list A :=
  match l with
  | [] => []
  | x :: r => insert_by x (sort_by r)
  end.

(** [x] is not after [y] *)
Definition not_after (x y : A) : Prop := lt (kf y) (kf x) = false.

End SortBy.

(** [l.sort(key=kf, reverse=True)]: the comparisons are reversed, and
    elements of equal key keep their order. *)
Definition sort_by_reverse {A K : Type} (lt : K -> K -> bool) (kf : A -> K)
    (l : list A) : list A :=
  sort_by (fun a b => lt b a) kf l.

(** the index of the first element that satisfies [p] *)
Fixpoint find_index {A : Type} (p : A -> bool) (l : list A) : option nat :=
  match l with
  | [] => None
  | x :: r => if p x then Some 0 else S <$> find_index p r
  end.

(** [l[:n]] for an integer [n], which counts from the end when negative *)
Definition slice_to {A : Type} (n : Z) (l : list A) : list A :=
  if (0 <=? n)%Z then take (Z.to_nat n) l
  else take (length l - Z.to_nat (- n)) l.

End PyList.

(** *** [JSONDataManager]: the viewing history

    [data["history"]] of the history file, as a call loads it and saves
    it; the entries are those the program writes.  Time stamps are the
    ISO texts of [datetime.now().isoformat()], compared as strings. *)

Module JSONHistory.

Record history_entry := {
  anime_id : string;
  anime_name : string;
  episode : string;
  mode : string;
  quality : string;
  provider : string;
  duration_watched : Z;
  total_duration : Z;
  completion_percentage : float;
  last_watched : string;
  total_episodes : Z;
  rating : Z;
  notes : string
}.

(** [str(x) if x else "Unknown"] for an optional text *)
Definition or_unknown (x : option string) : string :=
  match x with
  | Some s => if String.eqb s "" then "Unknown" else s
  | None => "Unknown"
  end.

(** the entry of the same show and mode *)
Definition same_show (anime_id mode : string) (entry : history_entry) : bool :=
  String.eqb (JSONHistory.anime_id entry) anime_id
  && String.eqb (JSONHistory.mode entry) mode.

(** The entry that [add_history] writes: the fields of the call, and the
    progress, rating and notes of the entry it replaces, if any. *)
Definition new_entry (now : string) (anime_id anime_name episode mode : string)
    (total_episodes : Z) (quality provider : option string)
    (old_entry : option history_entry) : history_entry :=
  {| anime_id := anime_id; anime_name := anime_name; episode := episode;
     mode := mode; quality := or_unknown quality; provider := or_unknown provider;
     duration_watched := from_option duration_watched 0%Z old_entry;
     total_duration := from_option total_duration 0%Z old_entry;
     completion_percentage := from_option completion_percentage 0%float old_entry;
     last_watched := now; total_episodes := total_episodes;
     rating := from_option rating 0%Z old_entry;
     notes := from_option notes "" old_entry |}.

(** The history with the entry of the call: in the place of the first
    entry of the same show and mode, or at the front. *)
Definition updated_history (now : string) (history : list history_entry)
    (anime_id anime_name episode mode : string) (total_episodes : Z)
    (quality provider : option string) : list history_entry :=
  match PyList.find_index (same_show anime_id mode) history with
  | Some existing_entry =>
      match history !! existing_entry with
      | Some old_entry =>
          <[existing_entry := new_entry now anime_id anime_name episode mode
                                total_episodes quality provider (Some old_entry)]>
            history
      | None => history
      end
  | None =>
      new_entry now anime_id anime_name episode mode total_episodes quality provider None
      :: history
  end.

(** [add_history] on the loaded history: the history to be found in the
    file afterwards and the value returned.  [now] is the time stamp of the
    call and [saved] tells whether [_save_json] succeeds. *)
Definition add_history (now : string) (saved : bool) (history : list history_entry)
    (anime_id anime_name episode mode : string) (total_episodes : Z)
    (quality provider : option string) : list history_entry * bool :=
  if String.eqb anime_id "" || String.eqb anime_name "" || String.eqb episode ""
  then (history, false)
  else
    let updated :=
      updated_history now history anime_id anime_name episode mode total_episodes
        quality provider in
    let sorted := PyList.sort_by_reverse String.ltb last_watched updated in
    let kept := take 100 sorted in
    if saved then (kept, true) else (history, false).

(** the show and mode of an entry *)
Definition show_key (entry : history_entry) : string * string :=
  (JSONHistory.anime_id entry, JSONHistory.mode entry).

(** [x] was not watched before [y] *)
Definition newest_first (x y : history_entry) : Prop :=
  String.ltb (last_watched x) (last_watched y) = false.

(** [get_history]: the first [limit] entries *)
Definition get_history (history : list history_entry) (limit : Z) : list history_entry :=
  PyList.slice_to limit history.

Section Parse.

(** [int(s)] for a text: [None] when it raises [ValueError] *)
Variable py_int : string -> option Z.

(** The loop of [get_continue_options]; [found] is the length of
    [continue_list] so far. *)
Fixpoint continue_loop (limit : Z) (found : Z) (history : list history_entry)
    : list history_entry :=
  match history with
  | [] => []
  | entry :: rest =>
      match py_int (episode entry) with
      | Some current_ep =>
          let total_eps := total_episodes entry in
          if ((current_ep <? total_eps) && (total_eps >? 0))%Z then
            entry :: (if (found + 1 >=? limit)%Z then []
                      else continue_loop limit (found + 1) rest)
          else continue_loop limit found rest
      | None => continue_loop limit found rest
      end
  end.

(** [get_continue_options]: the entries that can be continued *)
Definition get_continue_options (history : list history_entry) (limit : Z)
    : list history_entry :=
  continue_loop limit 0 history.

End Parse.

(** [clear_history] *)
Definition clear_history (saved : bool) (history : list history_entry)
    : list history_entry * bool :=
  if saved then ([], true) else (history, false).

End JSONHistory.

(** a stored history of two shows *)
Module HistoryScenario.
Import JSONHistory.

Definition bleach : history_entry :=
  {| anime_id := "b2"; anime_name := "Bleach"; episode := "12"; mode := "dub";
     quality := "720p"; provider := "SharePoint";
     duration_watched := 0; total_duration := 0; completion_percentage := 0;
     last_watched := "2024-01-02T09:00:00.000000"; total_episodes := 366;
     rating := 0; notes := "" |}.

Definition naruto : history_entry :=
  {| anime_id := "a1"; anime_name := "Naruto"; episode := "3"; mode := "sub";
     quality := "1080p"; provider := "Wixmp";
     duration_watched := 0; total_duration := 0; completion_percentage := 0;
     last_watched := "2024-01-01T10:00:00.000000"; total_episodes := 220;
     rating := 5; notes := "rewatch" |}.

Definition stored : list history_entry := [bleach; naruto].

Definition later : string := "2024-01-03T08:00:00.000000".

End HistoryScenario.

(** *** More of Python's text operations *)

Module PyText.

(** [re.sub(pattern, repl, s)] for a pattern that matches no empty text,
    as the patterns of the program: the matches are taken from left to
    right and each is replaced by [repl].  [skip] counts the characters of
    the last match still to be passed over. *)
Fixpoint sub_from (r : Re.regex) (repl : string) (skip : nat) (s : string) : string :=
  match s with
  | "" => ""
  | String c s' =>
      match skip with
      | S k => sub_from r repl k s'
      | O =>
          match Re.match_here false r s with
          | Some (rest, _) =>
              let n := String.length s - String.length rest in
              if (n =? 0)%nat then String c (sub_from r repl 0 s')
              else repl +:+ sub_from r repl (n - 1) s'
          | None => String c (sub_from r repl 0 s')
          end
      end
  end.

Definition sub (r : Re.regex) (repl s : string) : string := sub_from r repl 0 s.

Fixpoint lstrip_by (p : ascii -> bool) (s : string) : string :=
  match s with
  | String c r => if p c then lstrip_by p r else s
  | "" => ""
  end.

Fixpoint rstrip_by (p : ascii -> bool) (s : string) : string :=
  match s with
  | "" => ""
  | String c r =>
      match rstrip_by p r with
      | "" => if p c then "" else String c ""
      | r' => String c r'
      end
  end.

(** [s.strip(chars)], the characters to strip given by [p] *)
Definition strip_by (p : ascii -> bool) (s : string) : string :=
  rstrip_by p (lstrip_by p s).

(** The text before the last [sep], [None] when there is no [sep]. *)
Fixpoint before_last (sep : ascii) (s : string) : option string :=
  match s with
  | "" => None
  | String c r =>
      match before_last sep r with
      | Some h => Some (String c h)
      | None => if Ascii.eqb c sep then Some "" else None
      end
  end.

(** [s.rsplit(sep, 1)[0]] *)
Definition rsplit1_head (sep : ascii) (s : string) : string :=
  default s (before_last sep s).

(** [str.lower] on one character, for code points below 256 *)
Definition lower_char (c : ascii) : ascii :=
  let n := nat_of_ascii c in
  if (((65 <=? n) && (n <=? 90)) || ((192 <=? n) && (n <=? 214))
      || ((216 <=? n) && (n <=? 222)))%nat
  then ascii_of_nat (n + 32) else c.

(** [s.lower()] *)
Fixpoint lower (s : string) : string :=
  match s with
  | "" => ""
  | String c r => String (lower_char c) (lower r)
  end.

End PyText.

(** *** [sanitize_filename] *)

Module Util.

(** the characters of the raw string of [invalid_chars]; the backslash is
    there twice *)
Definition invalid_chars : list ascii :=
  [ "<"%char; ">"%char; ":"%char; dq; "/"%char; ascii_of_nat 92; ascii_of_nat 92;
    "|"%char; "?"%char; "*"%char ].

(** the set of control characters, from 0 to 31 and from 127 to 159 *)
Definition control_items : list Re.cls_item :=
  [ Re.CRange (ascii_of_nat 0) (ascii_of_nat 31);
    Re.CRange (ascii_of_nat 127) (ascii_of_nat 159) ].

Definition underscore : ascii := "_"%char.

Definition sanitize_filename (filename : string) : string :=
  let filename :=
    foldl (fun name char => PyStr.replace (String char "") "_" name)
          filename invalid_chars in
  let filename := PyText.sub (Re.Cls false control_items) "" filename in
  let filename := PyText.sub (Re.Plus (Re.Cls false [Re.CSpace])) " " filename in
  let filename := PyText.sub (Re.Plus (Re.Chr underscore)) "_" filename in
  let filename :=
    PyStr.strip (PyText.strip_by (fun c => Ascii.eqb c underscore) filename) in
  let filename :=
    if (200 <? String.length filename)%nat
    then PyText.rsplit1_head underscore (PyStr.take 200 filename)
    else filename in
  if String.eqb filename "" then "unnamed" else filename.

(** a character that [sanitize_filename] lets through *)
Definition safe_char (c : ascii) : bool :=
  negb (bool_decide (c ∈ invalid_chars))
  && negb (Re.items_match false control_items c).

End Util.

(** *** [ConfigManager.get_player_path] *)

Module ConfigManager.

(** What the calls of [config.get] in [get_player_path] give, each one
    returning the text of the option or raising, and what [exists] gives
    for a path: it returns, or raises [OSError] (a name that is too long,
    a directory that may not be searched), which [get_player_path] does
    not catch. *)
Record player_config := {
  vlc_path : result string;
  mpv_path : result string;
  (** [config.get('PLAYER', 'preferred_player', fallback='mpv')] *)
  preferred_player : result string;
  (** [Path(p).exists()] *)
  path_exists : string -> result bool
}.

(** [p and Path(p).exists()]: [exists] is not called on the empty text *)
Definition usable (cfg : player_config) (p : string) : result bool :=
  if String.eqb p "" then Ok false else path_exists cfg p.

(** One attempt: read the option, return the player if its path is
    usable, go on with [otherwise] if not. *)
Definition try_player (cfg : player_config) (option_value : result string)
    (player_name : string) (otherwise : result (option (string * string)))
    : result (option (string * string)) :=
  p ← option_value;
  found ← usable cfg p;
  if found : bool then Ok (Some (p, player_name)) else otherwise.

(** The part of [get_player_path] after the forced player. *)
Definition preferred_path (cfg : player_config) : result (option (string * string)) :=
  preferred ← preferred_player cfg;
  if String.eqb (PyText.lower preferred) "mpv"
  then try_player cfg (mpv_path cfg) "MPV" (try_player cfg (vlc_path cfg) "VLC" (Ok None))
  else try_player cfg (vlc_path cfg) "VLC" (try_player cfg (mpv_path cfg) "MPV" (Ok None)).

(** [get_player_path]: [None] stands for the pair [(None, None)]. *)
Definition get_player_path (cfg : player_config) (force_player : option string)
    : result (option (string * string)) :=
  match force_player with
  | Some fp =>
      if String.eqb fp "" then preferred_path cfg
      else if String.eqb (PyText.lower fp) "vlc"
      then try_player cfg (vlc_path cfg) "VLC" (preferred_path cfg)
      else if String.eqb (PyText.lower fp) "mpv"
      then try_player cfg (mpv_path cfg) "MPV" (preferred_path cfg)
      else preferred_path cfg
  | None => preferred_path cfg
  end.

End ConfigManager.

(** a configuration in which mpv is preferred and only VLC is installed *)
Module PlayerScenario.

Definition only_vlc : ConfigManager.player_config :=
  {| ConfigManager.vlc_path := Ok "/usr/bin/vlc";
     ConfigManager.mpv_path := Ok "";
     ConfigManager.preferred_player := Ok "mpv";
     ConfigManager.path_exists := fun p => Ok (String.eqb p "/usr/bin/vlc") |}.

End PlayerScenario.

(** *** [JSONDataManager]: the download records *)

Module JSONDownloads.

Record download_entry := {
  anime_name : string;
  episode : string;
  quality : string;
  provider : string;
  file_path : string;
  file_size : Z;
  download_speed : float;
  download_duration : float;
  status : string;
  download_date : string;
  checksum : string
}.

(** [x or "Unknown"] for an optional text *)
Definition or_unknown (x : option string) : string :=
  match x with
  | Some s => if String.eqb s "" then "Unknown" else s
  | None => "Unknown"
  end.

(** [float(x) if x else 0.0]: a zero, also the negative one, and a missing
    value give [0.0] *)
Definition speed_or_zero (x : float) : float :=
  if PrimFloat.eqb x 0%float then 0%float else x.

(** [add_download] on the loaded records: the records to be found in the
    file afterwards.  [now] is the time stamp of the call and [saved] tells
    whether [_save_json] succeeds. *)
Definition add_download (now : string) (saved : bool) (downloads : list download_entry)
    (anime_name episode : string) (quality provider : option string)
    (file_path : string) (file_size : Z) (download_speed : float)
    : list download_entry :=
  if String.eqb anime_name "" || String.eqb episode "" then downloads
  else
    let download_entry :=
      {| anime_name := anime_name; episode := episode;
         quality := or_unknown quality; provider := or_unknown provider;
         file_path := file_path; file_size := file_size;
         download_speed := speed_or_zero download_speed;
         download_duration := 0; status := "completed";
         download_date := now; checksum := "" |} in
    let sorted :=
      PyList.sort_by_reverse String.ltb download_date (download_entry :: downloads) in
    let kept := take 200 sorted in
    if saved then kept else downloads.

(** [x] was not downloaded before [y] *)
Definition newest_first (x y : download_entry) : Prop :=
  String.ltb (download_date x) (download_date y) = false.

(** [get_downloads]: the first [limit] records *)
Definition get_downloads (downloads : list download_entry) (limit : Z)
    : list download_entry :=
  PyList.slice_to limit downloads.

End JSONDownloads.

(** a stored download of the same date as a later call *)
Module DownloadScenario.

Definition earlier : JSONDownloads.download_entry :=
  {| JSONDownloads.anime_name := "Bleach"; JSONDownloads.episode := "12";
     JSONDownloads.quality := "720p"; JSONDownloads.provider := "SharePoint";
     JSONDownloads.file_path := "downloads/Bleach_EP12_720p.mp4";
     JSONDownloads.file_size := 1000; JSONDownloads.download_speed := 10;
     JSONDownloads.download_duration := 0; JSONDownloads.status := "completed";
     JSONDownloads.download_date := "2024-01-03T08:00:00.000000";
     JSONDownloads.checksum := "" |}.

End DownloadScenario.

(** *** What a pattern matches

    The texts a pattern matches, with the groups captured on the way,
    stated without reference to the order in which the matcher tries
    them. *)

Module ReSpec.

Inductive matches (ic : bool) : Re.regex -> string -> Re.caps -> Re.caps -> Prop :=
| m_eps cs : matches ic Re.Eps "" cs cs
| m_chr c x cs :
    Re.chr_matches ic c x = true -> matches ic (Re.Chr c) (String x "") cs cs
| m_any x cs :
    Ascii.eqb x Re.newline = false -> matches ic Re.Any (String x "") cs cs
| m_cls neg items x cs :
    xorb neg (Re.items_match ic items x) = true ->
    matches ic (Re.Cls neg items) (String x "") cs cs
| m_seq r1 r2 m1 m2 cs cs1 cs2 :
    matches ic r1 m1 cs cs1 -> matches ic r2 m2 cs1 cs2 ->
    matches ic (Re.Seq r1 r2) (m1 +:+ m2) cs cs2
| m_star_nil r cs : matches ic (Re.Star r) "" cs cs
| m_star_cons r m1 m2 cs cs1 cs2 :
    matches ic r m1 cs cs1 -> matches ic (Re.Star r) m2 cs1 cs2 ->
    matches ic (Re.Star r) (m1 +:+ m2) cs cs2
| m_grp i r m cs cs1 :
    matches ic r m cs cs1 -> matches ic (Re.Grp i r) m cs ((i, m) :: cs1).

(** a pattern without groups *)
Fixpoint no_groups (r : Re.regex) : bool :=
  match r with
  | Re.Seq r1 r2 => no_groups r1 && no_groups r2
  | Re.Star r1 => no_groups r1
  | Re.Grp _ _ => false
  | _ => true
  end.

(** every character a piece of the pattern can consume satisfies [Q] *)
Fixpoint accepts_only (ic : bool) (Q : ascii -> Prop) (r : Re.regex) : Prop :=
  match r with
  | Re.Eps => True
  | Re.Chr c => forall x, Re.chr_matches ic c x = true -> Q x
  | Re.Any => forall x, Ascii.eqb x Re.newline = false -> Q x
  | Re.Cls neg items => forall x, xorb neg (Re.items_match ic items x) = true -> Q x
  | Re.Seq r1 r2 => accepts_only ic Q r1 /\ accepts_only ic Q r2
  | Re.Star r1 => accepts_only ic Q r1
  | Re.Grp _ r1 => accepts_only ic Q r1
  end.

End ReSpec.

(** a body that is no JSON object, with a quoted [link] field *)
Module ScanScenario.

Definition share_url : string := "https://x.sharepoint.com/download?id=1".

Definition fragment : string := quoted "link" +:+ ":" +:+ quoted share_url.

End ScanScenario.

(** *** [UserInterface]: the menus of links *)

Module UserInterface.

(** [(i, fmt, quality, url)], an entry of [providers[provider]] *)
Definition row : Type := (nat * string * pyval * pyval)%type.

(** the dict [providers], its keys in the order of their insertion *)
Definition groups : Type := list (string * list row).

(** [if provider not in providers: providers[provider] = []] followed by
    [providers[provider].append(r)] *)
Fixpoint append_to (provider : string) (r : row) (providers : groups) : groups :=
  match providers with
  | [] => [(provider, [r])]
  | (p, rows) :: rest =>
      if String.eqb p provider then (p, (rows ++ [r])%list) :: rest
      else (p, rows) :: append_to provider r rest
  end.

(** [for i, (fmt, quality, url, provider) in enumerate(links)], from
    index [i] on *)
Fixpoint group_from (i : nat) (links : list ProviderManager.link4) (providers : groups)
    : groups :=
  match links with
  | [] => providers
  | (fmt, quality, url, provider) :: rest =>
      group_from (S i) rest (append_to provider (i, fmt, quality, url) providers)
  end.

Definition group_by_provider (links : list ProviderManager.link4) : groups :=
  group_from 0 links [].

(** The options [show_quality_selection] prints, in the order of their
    numbers: the option numbered [n + 1] is the element at index [n],
    with the provider whose heading it is printed under. *)
Definition quality_menu (links : list ProviderManager.link4) : list (string * row) :=
  flat_map (fun '(provider, provider_links) => map (fun r => (provider, r)) provider_links)
           (group_by_provider links).

(** [show_quality_selection].  [choice] is the number typed, [None] when
    [int(input(...))] raises [ValueError] or the input is interrupted. *)
Definition show_quality_selection (links : list ProviderManager.link4)
    (choice : option Z) : option ProviderManager.link4 :=
  match links with
  | [] => None
  | _ =>
      match choice with
      | Some c =>
          if ((1 <=? c) && (c <=? Z.of_nat (length links)))%Z
          then links !! Z.to_nat (c - 1) else None
      | None => None
      end
  end.

(** [providers[provider]] for a provider that is a key *)
Definition rows_of (provider : string) (providers : groups) : option (list row) :=
  snd <$> List.find (fun g => String.eqb (fst g) provider) providers.

(** [download_options] of [show_download_quality_selection]: HiAnime is
    left out. *)
Definition download_options (mp4_links : list ProviderManager.link4)
    : list ProviderManager.link4 :=
  let providers := group_by_provider mp4_links in
  flat_map
    (fun provider =>
       match rows_of provider providers with
       | Some provider_links =>
           map (fun '(_, fmt, quality, url) => (fmt, quality, url, provider)) provider_links
       | None => []
       end)
    ["Wixmp"; "SharePoint"; "YouTube"].

Definition show_download_quality_selection (mp4_links : list ProviderManager.link4)
    (choice : option Z) : option ProviderManager.link4 :=
  match mp4_links with
  | [] => None
  | _ =>
      match download_options mp4_links with
      | [] => None
      | options =>
          match choice with
          | Some c =>
              if ((1 <=? c) && (c <=? Z.of_nat (length options)))%Z
              then options !! Z.to_nat (c - 1) else None
          | None => None
          end
      end
  end.

(** [[link for link in links if link[0] == 'mp4']] *)
Definition mp4_only (links : list ProviderManager.link4) : list ProviderManager.link4 :=
  filter (fun link : ProviderManager.link4 => link.1.1.1 = "mp4") links.

(** the link an option of the menu stands for *)
Definition link_of (o : string * row) : ProviderManager.link4 :=
  let '(provider, (_, fmt, quality, url)) := o in (fmt, quality, url, provider).

End UserInterface.

(** *** [MediaPlayer]: the command of the player *)

Module MediaPlayer.

(** [str.upper] on one character with a code point below 256: the sharp s
    becomes two letters, and the micro sign and the y with diaeresis get
    capitals above 255, for which [None] stands. *)
Definition upper_char (c : ascii) : option string :=
  let n := nat_of_ascii c in
  if (((97 <=? n) && (n <=? 122)) || ((224 <=? n) && (n <=? 246))
      || ((248 <=? n) && (n <=? 254)))%nat
  then Some (String (ascii_of_nat (n - 32)) "")
  else if (n =? 223)%nat then Some "SS"
  else if ((n =? 181) || (n =? 255))%nat then None
  else Some (String c "").

(** [s.upper()], [None] when it has a character above 255 *)
Fixpoint upper (s : string) : option string :=
  match s with
  | "" => Some ""
  | String c r =>
      match upper_char c, upper r with
      | Some u, Some v => Some (u +:+ v)
      | _, _ => None
      end
  end.

(** [s.upper() == w] for a text [w] with code points below 256 *)
Definition upper_is (s w : string) : bool :=
  match upper s with
  | Some u => String.eqb u w
  | None => false
  end.

(** The words of the options [player_args_vlc] and [player_args_mpv] of
    section [PLAYER], their defaults when they are not set: what
    [config.get(...).split()] gives. *)
Record player_args := {
  player_args_vlc : list string;
  player_args_mpv : list string
}.

Definition get_player_command (args : player_args)
    (url title player_path player_name mode : string) : list string :=
  if upper_is player_name "VLC" then
    let cmd :=
      ([player_path; url] ++ player_args_vlc args
       ++ ["--http-referrer"; ALLANIME_REFR; "--meta-title"; title])%list in
    if String.eqb mode "dub"
    then (cmd ++ ["--no-sub-autodetect-file"; "--sub-track"; "-1"; "--no-spu"])%list
    else cmd
  else if upper_is player_name "MPV" then
    let cmd :=
      ([player_path] ++ player_args_mpv args
       ++ ["--http-header-fields=Referer: " +:+ ALLANIME_REFR; "--title=" +:+ title])%list in
    let cmd :=
      if String.eqb mode "dub"
      then (cmd ++ ["--no-sub"; "--sid=no"; "--sub-visibility=no"])%list
      else cmd in
    (cmd ++ [url])%list
  else [player_path; url].

(** The command [launch_player] hands to [subprocess.Popen]; [mode] is
    [None] when the caller passes none, and is then ['sub']. *)
Definition launch_player_command (args : player_args)
    (url anime_name episode player_path player_name : string) (mode : option string)
    : list string :=
  let title := anime_name +:+ " - Episode " +:+ episode in
  get_player_command args url title player_path player_name (default "sub" mode).

(** The calls of [launch_player] in a watching session, whose mode is
    [mode]: they pass the url, the name, the episode and the player. *)
Definition session_command (args : player_args) (mode : string)
    (url anime_name episode player_path player_name : string) : list string :=
  launch_player_command args url anime_name episode player_path player_name None.

End MediaPlayer.

(** a configuration with the default arguments of both players *)
Module CommandScenario.

Definition default_args : MediaPlayer.player_args :=
  {| MediaPlayer.player_args_vlc :=
       ["--play-and-exit"; "--no-video-deco"; "--vout"; "directx"; "--avcodec-hw"; "none"];
     MediaPlayer.player_args_mpv := ["--keep-open=no"; "--vo=gpu"; "--hwdec=no"] |}.

End CommandScenario.

(** a SharePoint reply whose quality label is a JSON array *)
Module LabelScenario.
Import ProviderManager.

Definition share_body : string := "{" +:+ quoted "links" +:+ ":[...]}".

(** [json.loads] of [share_body]: one link, its [resolutionStr] a list *)
Definition json_loads (text : string) : option (list (string * pyval)) :=
  if String.eqb text share_body
  then Some [("links",
              PList [PDict [("link", PStr "https://x.sharepoint.com/download");
                            ("mp4", PBool true);
                            ("resolutionStr", PList [PStr "1080p"])]])]
  else None.

(** Two sources, [Default] with path [/a] and [S-mp4] with path [/b];
    both fetches succeed. *)
Definition list_label : world :=
  {| meta_reply := fun _ _ _ =>
       Ok (Scenario.episode_reply
             [Scenario.source "Default" "--1759"; Scenario.source "S-mp4" "--175a"]);
     provider_reply := fun req =>
       if String.eqb (req_url req) "https://allanime.day/a" then Ok Scenario.wixmp_body
       else if String.eqb (req_url req) "https://allanime.day/b" then Ok share_body
       else Raise RequestException;
     elapsed := fun _ => 0.5%float;
     network_timeout := 15 |}.

(** the source lines of the metadata reply *)
Definition source_response : string := "Default:--1759" +:+ nl +:+ "S-mp4:--175a".

End LabelScenario.

(** statistics with one failed fetch of ten seconds *)
Module StatsScenario.

Definition failed_once : JSONDataManager.provider_data :=
  {| JSONDataManager.success_count := 0; JSONDataManager.failure_count := 1;
     JSONDataManager.avg_response_time := 10; JSONDataManager.last_used := "t1" |}.

Definition one_failure : gmap string JSONDataManager.provider_data :=
  {[ "Wixmp" := failed_once ]}.

End StatsScenario.

(** Two sources, [Default] with path [/a] and [Luf-Mp4] with path [/b];
    the first fetch succeeds, the second fails. *)
Module MixedScenario.

Definition source_response : string := "Default:--1759" +:+ nl +:+ "Luf-Mp4:--175a".

Definition hianime_down : ProviderManager.world :=
  {| ProviderManager.meta_reply := fun _ _ _ =>
       Ok (Scenario.episode_reply
             [Scenario.source "Default" "--1759"; Scenario.source "Luf-Mp4" "--175a"]);
     ProviderManager.provider_reply := fun req =>
       if String.eqb (ProviderManager.req_url req) "https://allanime.day/a"
       then Ok Scenario.wixmp_body
       else Raise RequestException;
     ProviderManager.elapsed := fun _ => 0.5%float;
     ProviderManager.network_timeout := 15 |}.

End MixedScenario.

(** *** Vocabulary of the statements *)
(** the finished fetches of one call, in the order of their submission *)
Definition finished (w : ProviderManager.world) (source_response : string)
    : list ProviderManager.future :=
  map (fun '(provider_key, provider_info, decoded_url) =>
         (provider_key, provider_info,
          ProviderManager.fetch_provider_data w provider_key decoded_url))
      (ProviderManager.submitted source_response).

(** the fetch of the future returned a body: its status is [success] *)
Definition succeeded (f : ProviderManager.future) : bool :=
  match f.2 with
  | ProviderManager.Success _ _ => true
  | ProviderManager.Error _ => false
  end.


(** a code of the table: two characters, neither a line feed, the first
    not a hyphen *)
Definition code_shape (hp : string) : bool :=
  match hp with
  | String a (String b "") =>
      negb (Ascii.eqb a Re.newline) && negb (Ascii.eqb b Re.newline)
      && negb (Ascii.eqb a "-"%char)
  | _ => false
  end.

(** the four providers with the format of the links their extractor gives *)
Definition provider_formats : list (string * string) :=
  [("Wixmp", "mp4"); ("SharePoint", "mp4"); ("YouTube", "mp4"); ("HiAnime", "m3u8")].

(** a player path and name as [get_player_path] may return them: the
    path is usable and is the configured path of the named player *)
Definition chosen (cfg : ConfigManager.player_config) (r : string * string) : Prop :=
  ConfigManager.usable cfg r.1 = Ok true
  /\ ((r.2 = "VLC" /\ ConfigManager.vlc_path cfg = Ok r.1)
      \/ (r.2 = "MPV" /\ ConfigManager.mpv_path cfg = Ok r.1)).

(** the keys of the dict [providers] and the options it gives, in the
    order of the loop over [providers.items()] *)
Definition group_keys (g : UserInterface.groups) : list string := map fst g.

Definition menu_of (g : UserInterface.groups) : list (string * UserInterface.row) :=
  flat_map (fun '(provider, provider_links) => map (fun r => (provider, r)) provider_links) g.

(** the links of one provider stand together *)
Definition grouped (l : list ProviderManager.link4) : Prop :=
  forall l1 x l2, l = (l1 ++ x :: l2)%list ->
    x.2 ∈ map snd l1 -> last (map snd l1) = Some x.2.

(** the option printed for the link at index [i] *)
Definition option_at (i : nat) (x : ProviderManager.link4) : string * UserInterface.row :=
  let '(fmt, quality, url, provider) := x in (provider, (i, fmt, quality, url)).

Definition registry_names : list string := ["Wixmp"; "SharePoint"; "YouTube"; "HiAnime"].

(** a list as [get_all_links] returns it: in ranking order, every link of
    one of the four providers and of that provider's format *)
Definition ranked (l : list ProviderManager.link4) : Prop :=
  StronglySorted (PySort.key_le ProviderManager.key_of) l
  /\ Forall (fun x : ProviderManager.link4 => (x.2, x.1.1.1) ∈ provider_formats) l.

(** the links of one provider among the rows of the dict *)
Definition provider_rows (provider : string) (g : UserInterface.groups)
    : list ProviderManager.link4 :=
  match UserInterface.rows_of provider g with
  | Some provider_links =>
      map (fun '(_, fmt, quality, url) => (fmt, quality, url, provider)) provider_links
  | None => []
  end.

Definition of_provider (provider : string) (l : list ProviderManager.link4)
    : list ProviderManager.link4 :=
  filter (fun x : ProviderManager.link4 => x.2 = provider) l.

(** three links that are not in ranking order *)
Definition unranked_links : list ProviderManager.link4 :=
  [ ("mp4", PStr "720p", PStr "https://a/720p.mp4", "Wixmp");
    ("m3u8", PStr "HLS Stream", PStr "https://b/stream.m3u8", "HiAnime");
    ("mp4", PStr "1080p", PStr "https://a/1080p.mp4", "Wixmp") ].

(** [all_links] of [get_all_links] when the loop over the finished
    fetches is over, before the sort *)
Definition gathered (json_loads : string -> option (list (string * pyval)))
    (w : ProviderManager.world)
    (as_completed : list ProviderManager.future -> list ProviderManager.future)
    (source_response : string) : list ProviderManager.link4 :=
  flat_map (ProviderManager.collected json_loads)
    (as_completed
       (map (fun '(provider_key, provider_info, decoded_url) =>
               (provider_key, provider_info,
                ProviderManager.fetch_provider_data w provider_key decoded_url))
            (ProviderManager.submitted source_response))).

(** * Properties *)

(** ** The decoder *)

(** C2, as stated, fails: the decoded text of [7968] is not [AX]. *)
Lemma decode_7968_is_not_AX : HexDecoder.decode "7968" <> "AX".
Proof. vm_compute. discriminate. Qed.

(** C2, amended: [decode] maps the token [7968] to [AP], because the
    table sends [79] to [A] and [68] to [P]; the code of [X] is [60], and
    it is the token [7960] that decodes to [AX]. *)
Theorem decode_7968_is_AP :
  HexDecoder.decode "7968" = "AP"
  /\ HexDecoder.translation_table !! "79" = Some "A"
  /\ HexDecoder.translation_table !! "68" = Some "P"
  /\ HexDecoder.translation_table !! "60" = Some "X"
  /\ HexDecoder.decode "7960" = "AX".
Proof. repeat split; vm_compute; reflexivity. Qed.

(** C8, as stated, fails on both counts: the table does not have 64
    entries, and its punctuation is not within the listed set. *)
Lemma translation_table_not_64_entries :
  size HexDecoder.translation_table <> 64
  /\ ~ (forall c, c ∈ HexDecoder.punctuation -> c ∈ HexDecoder.spec_punctuation).
Proof.
  split.
  - vm_compute. discriminate.
  - intros H. specialize (H "%").
    assert (Hin : "%" ∈ HexDecoder.punctuation).
    { apply (bool_decide_unpack _). vm_compute. exact I. }
    apply H in Hin.
    assert (Hb : bool_decide ("%" ∈ HexDecoder.spec_punctuation))
      by (apply (bool_decide_pack _); exact Hin).
    vm_compute in Hb. exact Hb.
Qed.

(** Closes a decidable goal by evaluating its decision procedure. *)
Ltac by_evaluation := apply (bool_decide_unpack _); vm_compute; exact I.

(** C8, amended: the table has exactly 84 entries, each from a
    two-character code to one character, with distinct characters: the 26
    uppercase letters, the 26 lowercase letters, the 10 digits and 22
    punctuation characters, which are the 21 listed ones and the percent
    sign. *)
Theorem translation_table_has_84_entries :
  size HexDecoder.translation_table = 84
  /\ Forall (fun e : string * string => String.length e.1 = 2 /\ String.length e.2 = 1)
            (map_to_list HexDecoder.translation_table)
  /\ NoDup HexDecoder.characters
  /\ length (filter (fun c => HexDecoder.is_upper c = true) HexDecoder.characters) = 26
  /\ length (filter (fun c => HexDecoder.is_lower c = true) HexDecoder.characters) = 26
  /\ length (filter (fun c => HexDecoder.is_digit c = true) HexDecoder.characters) = 10
  /\ length HexDecoder.punctuation = 22
  /\ (forall c, c ∈ HexDecoder.punctuation <-> c ∈ HexDecoder.spec_punctuation \/ c = "%").
Proof.
  split; [vm_compute; reflexivity|].
  split; [by_evaluation|].
  split; [by_evaluation|].
  do 4 (split; [vm_compute; reflexivity|]).
  assert (H1 : Forall (fun c => c ∈ (HexDecoder.spec_punctuation ++ ["%"])%list)
                 HexDecoder.punctuation) by by_evaluation.
  assert (H2 : Forall (fun c => c ∈ HexDecoder.punctuation)
                 (HexDecoder.spec_punctuation ++ ["%"])%list) by by_evaluation.
  intros c. rewrite Forall_forall in H1, H2. split.
  - intros Hc. apply H1 in Hc. apply elem_of_app in Hc as [Hc|Hc]; [by left|].
    right. by apply list_elem_of_singleton in Hc.
  - intros [Hc| ->]; apply H2; apply elem_of_app; [by left|].
    right. by apply list_elem_of_singleton.
Qed.

(** *** [str.replace] with the pattern [/clock] *)

Lemma replace_from_step old new c r :
  PyStr.replace_from old new 0 (String c r) =
  if String.prefix old (String c r)
  then new +:+ PyStr.replace_from old new (String.length old - 1) r
  else String c (PyStr.replace_from old new 0 r).
Proof. reflexivity. Qed.

Lemma contains_cons p c s :
  PyStr.contains p (String c s) = false ->
  String.prefix p (String c s) = false /\ PyStr.contains p s = false.
Proof. simpl PyStr.contains. intros H. by apply orb_false_elim in H. Qed.

Lemma prefix_cons a p b s :
  String.prefix (String a p) (String b s) = Ascii.eqb a b && String.prefix p s.
Proof.
  cbn [String.prefix]. destruct (ascii_dec a b) as [->|Hne].
  - by rewrite Ascii.eqb_refl.
  - apply Ascii.eqb_neq in Hne. by rewrite Hne.
Qed.

Lemma prefix_empty s : String.prefix "" s = true.
Proof. destruct s; reflexivity. Qed.

Lemma app_cons c s t : String c s +:+ t = String c (s +:+ t).
Proof. reflexivity. Qed.

Lemma app_empty t : "" +:+ t = t.
Proof. reflexivity. Qed.

Lemma prefix_app p b : String.prefix p (p +:+ b) = true.
Proof.
  induction p as [|c p IH]; [apply prefix_empty|].
  by rewrite app_cons, prefix_cons, Ascii.eqb_refl, IH.
Qed.

(** An occurrence of [/clock] cannot start inside [a] and end in a
    following [/clock]: the slash is the first character only. *)
Lemma prefix_clock_straddle c a b :
  String.prefix "/clock" (String c a) = false ->
  String.prefix "/clock" (String c a +:+ "/clock" +:+ b) = false.
Proof.
  destruct a as [|c2 [|c3 [|c4 [|c5 [|c6 a]]]]];
    rewrite ?app_cons, ?app_empty, ?prefix_cons, ?prefix_empty;
    repeat match goal with
      | |- context [Ascii.eqb ?x ?y] => is_var y; generalize (Ascii.eqb x y); intro
      end;
    vm_compute;
    repeat match goal with b : bool |- _ => destruct b end; done.
Qed.

Lemma replace_clock_absent new s :
  PyStr.contains "/clock" s = false -> PyStr.replace "/clock" new s = s.
Proof.
  unfold PyStr.replace. induction s as [|c s IH]; [reflexivity|].
  intros [Hp Hc]%contains_cons.
  rewrite replace_from_step, Hp, IH; done.
Qed.

Lemma replace_clock_first new a b :
  PyStr.contains "/clock" a = false ->
  PyStr.replace "/clock" new (a +:+ "/clock" +:+ b) =
  a +:+ new +:+ PyStr.replace "/clock" new b.
Proof.
  unfold PyStr.replace. induction a as [|c a IH].
  - intros _. change ("" +:+ "/clock" +:+ b) with (String "/" ("clock" +:+ b)).
    rewrite replace_from_step.
    change (String "/" ("clock" +:+ b)) with ("/clock" +:+ b).
    rewrite prefix_app. reflexivity.
  - intros [Hp Hc]%contains_cons.
    change (String c a +:+ "/clock" +:+ b) with (String c (a +:+ "/clock" +:+ b)).
    rewrite replace_from_step.
    change (String c (a +:+ "/clock" +:+ b)) with (String c a +:+ "/clock" +:+ b) at 1.
    rewrite (prefix_clock_straddle _ _ _ Hp), IH by done. reflexivity.
Qed.

(** C9, as stated, fails: a token whose text has [/clock] before a last
    slash is rewritten although the occurrence is not trailing. *)
Lemma decode_rewrites_non_trailing_clock :
  HexDecoder.assemble "--175b54575b5317" = "/clock/"
  /\ HexDecoder.spec_trailing_rewrite (HexDecoder.assemble "--175b54575b5317") = "/clock/"
  /\ HexDecoder.decode "--175b54575b5317" = "/clock.json/"
  /\ HexDecoder.decode "--175b54575b5317"
     <> HexDecoder.spec_trailing_rewrite (HexDecoder.assemble "--175b54575b5317").
Proof. repeat split; vm_compute; (reflexivity || discriminate). Qed.

(** C9, amended: after assembly [decode] replaces every occurrence of
    [/clock], trailing or not, by [/clock.json], from left to right: a text
    without [/clock] is returned as it is, and in a text whose first
    occurrence follows [a] that occurrence is rewritten and the rest [b] is
    rewritten in the same way. *)
Theorem decode_rewrites_every_clock (token : string) :
  token <> "" ->
  String.length (HexDecoder.strip_prefix token) mod 2 = 0 ->
  (PyStr.contains "/clock" (HexDecoder.assemble token) = false ->
   HexDecoder.decode token = HexDecoder.assemble token)
  /\ (forall a b,
        HexDecoder.assemble token = a +:+ "/clock" +:+ b ->
        PyStr.contains "/clock" a = false ->
        HexDecoder.decode token =
        a +:+ "/clock.json" +:+ PyStr.replace "/clock" "/clock.json" b).
Proof.
  intros Hne Heven.
  assert (Hd : HexDecoder.decode token =
               PyStr.replace "/clock" "/clock.json" (HexDecoder.assemble token)).
  { unfold HexDecoder.decode. destruct token as [|c t]; [done|].
    rewrite Heven. reflexivity. }
  rewrite Hd. split.
  - apply replace_clock_absent.
  - intros a b -> Ha. by apply replace_clock_first.
Qed.

Lemma decode_rewrites_every_clock_witness :
  "--175b54575b5317" <> ""
  /\ String.length (HexDecoder.strip_prefix "--175b54575b5317") mod 2 = 0
  /\ HexDecoder.decode "--175b54575b5317" =
     "" +:+ "/clock.json" +:+ PyStr.replace "/clock" "/clock.json" "/".
Proof.
  split; [discriminate|]. split; [reflexivity|].
  apply (proj2 (decode_rewrites_every_clock "--175b54575b5317"
                  ltac:(discriminate) ltac:(reflexivity)) "" "/");
    vm_compute; reflexivity.
Defined.

(** ** Sorting by key *)

Section SortFacts.
Import PySort.

Lemma key_lt_irrefl (a : key) : key_lt a a = false.
Proof.
  destruct a as [[a1 a2] a3]. unfold key_lt.
  rewrite !Z.ltb_irrefl, !Z.eqb_refl. reflexivity.
Qed.

Lemma key_lt_spec (a b : key) :
  key_lt a b = true <->
  (a.1.1 < b.1.1 \/ (a.1.1 = b.1.1 /\ (a.1.2 < b.1.2 \/ (a.1.2 = b.1.2 /\ a.2 < b.2))))%Z.
Proof.
  destruct a as [[a1 a2] a3], b as [[b1 b2] b3]. unfold key_lt. simpl.
  rewrite !orb_true_iff, !andb_true_iff, !orb_true_iff, !andb_true_iff,
    !Z.ltb_lt, !Z.eqb_eq. reflexivity.
Qed.

Lemma key_lt_false_spec (a b : key) :
  key_lt a b = false <->
  (b.1.1 < a.1.1 \/ (a.1.1 = b.1.1 /\ (b.1.2 < a.1.2 \/ (a.1.2 = b.1.2 /\ b.2 <= a.2))))%Z.
Proof.
  rewrite <- not_true_iff_false, key_lt_spec.
  destruct a as [[a1 a2] a3], b as [[b1 b2] b3]. simpl. lia.
Qed.

(** Two keys neither of which is smaller are the same key. *)
Lemma key_lt_connex (a b : key) : key_lt a b = false -> key_lt b a = false -> a = b.
Proof.
  rewrite !key_lt_false_spec.
  destruct a as [[a1 a2] a3], b as [[b1 b2] b3]. simpl.
  intros H1 H2. assert (a1 = b1 /\ a2 = b2 /\ a3 = b3) as (-> & -> & ->) by lia.
  reflexivity.
Qed.

Lemma key_lt_asym (a b : key) : key_lt a b = true -> key_lt b a = false.
Proof.
  rewrite key_lt_spec, key_lt_false_spec.
  destruct a as [[a1 a2] a3], b as [[b1 b2] b3]. simpl. lia.
Qed.

Lemma key_le_trans (a b c : key) :
  key_lt b a = false -> key_lt c b = false -> key_lt c a = false.
Proof.
  rewrite !key_lt_false_spec.
  destruct a as [[a1 a2] a3], b as [[b1 b2] b3], c as [[c1 c2] c3]. simpl. lia.
Qed.

Context {A : Type} (kf : A -> key).

Lemma insert_sorted_perm x l : insert_sorted kf x l ≡ₚ x :: l.
Proof.
  induction l as [|y r IH]; simpl; [done|].
  destruct (key_lt (kf y) (kf x)); [|done].
  rewrite IH. apply Permutation_swap.
Qed.

Lemma stable_sort_perm l : stable_sort kf l ≡ₚ l.
Proof.
  induction l as [|x r IH]; simpl; [done|].
  by rewrite insert_sorted_perm, IH.
Qed.

Lemma insert_sorted_sorted x l :
  StronglySorted (key_le kf) l -> StronglySorted (key_le kf) (insert_sorted kf x l).
Proof.
  induction 1 as [|y r Hr IH Hy]; simpl.
  - repeat constructor.
  - destruct (key_lt (kf y) (kf x)) eqn:Hlt.
    + constructor; [exact IH|].
      rewrite insert_sorted_perm. constructor; [|exact Hy].
      by apply key_lt_asym.
    + constructor; [by constructor|].
      constructor; [exact Hlt|].
      eapply Forall_impl; [exact Hy|].
      intros z Hz. unfold key_le in *. by eapply key_le_trans.
Qed.

Lemma stable_sort_sorted l : StronglySorted (key_le kf) (stable_sort kf l).
Proof.
  induction l as [|x r IH]; simpl; [constructor|].
  by apply insert_sorted_sorted.
Qed.

(** Insertion keeps the elements of every key in their order, the new
    element first among those of its own key. *)
Lemma insert_sorted_filter k x l :
  filter (fun y => kf y = k) (insert_sorted kf x l) =
  filter (fun y => kf y = k) (x :: l).
Proof.
  induction l as [|y r IH]; simpl; [done|].
  destruct (key_lt (kf y) (kf x)) eqn:Hlt; [|done].
  rewrite (filter_cons _ y), IH, !filter_cons.
  destruct (decide (kf y = k)) as [Hy|Hy], (decide (kf x = k)) as [Hx|Hx]; try done.
  rewrite Hy, Hx, key_lt_irrefl in Hlt. done.
Qed.

(** Stability: the elements of one key come out in the order they had. *)
Lemma stable_sort_filter k l :
  filter (fun y => kf y = k) (stable_sort kf l) = filter (fun y => kf y = k) l.
Proof.
  induction l as [|x r IH]; simpl; [done|].
  by rewrite insert_sorted_filter, !filter_cons, IH.
Qed.

(** A sorted list is determined by its elements of each key. *)
Lemma sorted_unique l1 l2 :
  StronglySorted (key_le kf) l1 -> StronglySorted (key_le kf) l2 ->
  (forall k, filter (fun y => kf y = k) l1 = filter (fun y => kf y = k) l2) ->
  l1 = l2.
Proof.
  intros H1. revert l2. induction H1 as [|x t1 Ht1 IH Hx]; intros l2 H2 Hf.
  - destruct l2 as [|y t2]; [done|].
    specialize (Hf (kf y)). rewrite filter_cons, decide_True in Hf by done. done.
  - destruct H2 as [|y t2 Ht2 Hy].
    { specialize (Hf (kf x)). rewrite filter_cons, decide_True in Hf by done. done. }
    assert (Hxy : kf x = kf y).
    { apply key_lt_connex.
      - assert (Hin : x ∈ filter (fun z => kf z = kf x) (y :: t2)).
        { rewrite <- Hf, filter_cons, decide_True by done. left. }
        apply list_elem_of_filter in Hin as [_ Hin].
        apply elem_of_cons in Hin as [->|Hin]; [apply key_lt_irrefl|].
        rewrite Forall_forall in Hy. by apply Hy.
      - assert (Hin : y ∈ filter (fun z => kf z = kf y) (x :: t1)).
        { rewrite Hf, filter_cons, decide_True by done. left. }
        apply list_elem_of_filter in Hin as [_ Hin].
        apply elem_of_cons in Hin as [->|Hin]; [apply key_lt_irrefl|].
        rewrite Forall_forall in Hx. by apply Hx. }
    assert (Hhead := Hf (kf x)).
    rewrite !filter_cons, decide_True in Hhead by done.
    rewrite (decide_True (P := kf y = kf x)) in Hhead by done.
    injection Hhead as -> Htail. f_equal. apply IH; [done|].
    intros k. specialize (Hf k). rewrite !filter_cons in Hf.
    destruct (decide (kf y = k)) as [<-|Hk]; [done|exact Hf].
Qed.

Lemma stable_sort_unique l1 l2 :
  (forall k, filter (fun y => kf y = k) l1 = filter (fun y => kf y = k) l2) ->
  stable_sort kf l1 = stable_sort kf l2.
Proof.
  intros Hf. apply sorted_unique; [apply stable_sort_sorted..|].
  intros k. by rewrite !stable_sort_filter.
Qed.

(** Sorting decorated elements is decorating the sorted elements. *)
Lemma stable_sort_map {B : Type} (g : B -> A) (kg : B -> key) l :
  (forall b, kf (g b) = kg b) ->
  stable_sort kf (map g l) = map g (stable_sort kg l).
Proof.
  intros Hk. induction l as [|x r IH]; simpl; [done|].
  rewrite IH. generalize (stable_sort kg r). intros l'.
  induction l' as [|y t IHt]; simpl; [done|].
  rewrite !Hk. destruct (key_lt (kg y) (kg x)); simpl; [by rewrite IHt|done].
Qed.

End SortFacts.

(** ** The ranking of [get_all_links] *)

Section Ranking.
Import ProviderManager.

Lemma sort_keys_spec (l : list link4) :
  rmapM sort_key l =
  if forallb hashable_link l then Ok (map key_of l) else Raise TypeError.
Proof.
  induction l as [|x r IH]; [reflexivity|].
  cbn [rmapM forallb map]. rewrite IH.
  destruct x as [[[fmt quality] url] provider].
  unfold sort_key, hashable_link. cbn [fst snd].
  destruct (Py.hashable quality); [|reflexivity].
  destruct (forallb _ r); reflexivity.
Qed.

Lemma combine_decorate {A B : Type} (f : A -> B) (l : list A) :
  combine (map f l) l = map (fun x => (f x, x)) l.
Proof. induction l as [|x r IH]; simpl; [done|]. by rewrite IH. Qed.

(** The sort raises when some quality cannot be hashed, and is the stable
    sort by [key_of] otherwise. *)
Lemma sort_links_spec (l : list link4) :
  sort_links l =
  if forallb hashable_link l then Ok (PySort.stable_sort key_of l) else Raise TypeError.
Proof.
  unfold sort_links. rewrite sort_keys_spec.
  destruct (forallb hashable_link l); [|reflexivity].
  cbn. f_equal. rewrite combine_decorate.
  rewrite (stable_sort_map fst (fun x => (key_of x, x)) key_of) by done.
  rewrite map_map. cbn. apply map_id.
Qed.

End Ranking.




(** ** The order of completion *)

Lemma filter_flat_map {A B : Type} (P : B -> Prop) `{!forall x, Decision (P x)}
    (g : A -> list B) (l : list A) :
  filter P (flat_map g l) = flat_map (fun a => filter P (g a)) l.
Proof.
  induction l as [|a r IH]; simpl; [done|]. by rewrite filter_app, IH.
Qed.

Lemma filter_none {B : Type} (P : B -> Prop) `{!forall x, Decision (P x)} (l : list B) :
  (forall x, x ∈ l -> ~ P x) -> filter P l = [].
Proof.
  induction l as [|x r IH]; intros Hn; [done|].
  rewrite filter_cons, decide_False by (apply Hn; left).
  apply IH. intros y Hy. apply Hn. by right.
Qed.

(** Blocks of which no two with different marks are both non-empty can be
    concatenated in any order. *)
Lemma flat_map_perm_exclusive {A B : Type} (p : A -> Z) (g : A -> list B) (l l' : list A) :
  l ≡ₚ l' ->
  NoDup (map p l) ->
  (forall a b, a ∈ l -> b ∈ l -> p a <> p b -> g a = [] \/ g b = []) ->
  flat_map g l = flat_map g l'.
Proof.
  induction 1 as [|x l l' Hp IH|x y l|l l' l'' Hp1 IH1 Hp2 IH2]; intros Hnd Hex.
  - done.
  - simpl. f_equal. apply IH.
    + by inversion Hnd.
    + intros a b Ha Hb. apply Hex; by right.
  - simpl. rewrite !app_assoc. f_equal.
    assert (Hne : p y <> p x).
    { simpl in Hnd. inversion Hnd as [|? ? Hnotin _]. intros Heq. apply Hnotin.
      rewrite Heq. left. }
    destruct (Hex y x) as [->| ->]; [left|right; left|done|..];
      by rewrite ?app_nil_r.
  - rewrite IH1 by done. apply IH2.
    + by rewrite <- Hp1.
    + intros a b Ha Hb. apply Hex; by rewrite Hp1.
Qed.

Lemma forallb_perm {A : Type} (f : A -> bool) (l l' : list A) :
  l ≡ₚ l' -> forallb f l = forallb f l'.
Proof.
  induction 1 as [|x l l' Hp IH|x y l|l l' l'' Hp1 IH1 Hp2 IH2]; simpl.
  - done.
  - by rewrite IH.
  - by rewrite !andb_assoc, (andb_comm (f y)).
  - congruence.
Qed.

(** A loop that appends at most one item per element visits a sublist. *)
Lemma flat_map_sublist {A B C : Type} (g : A -> list C) (h : C -> B) (sel : A -> B)
    (l : list A) :
  (forall a, g a = [] \/ exists c, g a = [c] /\ h c = sel a) ->
  map h (flat_map g l) `sublist_of` map sel l.
Proof.
  intros Hg. induction l as [|a r IH]; simpl; [done|].
  destruct (Hg a) as [->|(c & -> & <-)]; simpl.
  - by apply sublist_cons.
  - by apply sublist_skip.
Qed.

Lemma sublist_map {A B : Type} (f : A -> B) (l1 l2 : list A) :
  l1 `sublist_of` l2 -> map f l1 `sublist_of` map f l2.
Proof. induction 1; simpl; by constructor. Qed.

Section Completion.
Import ProviderManager.

Variable json_loads : string -> option (list (string * pyval)).
Variable str_of : pyval -> string.

(** Every link of a finished fetch carries the name of its provider. *)
Lemma collected_provider (f : future) (x : link4) :
  x ∈ collected json_loads f -> x.2 = name f.1.2.
Proof.
  destruct f as [[k info] [p text|p]]; simpl; [|by intros ?%elem_of_nil].
  intros Hx%list_elem_of_In. apply in_map_iff in Hx as ([[fmt q] u] & <- & _).
  reflexivity.
Qed.

(** The names of the table identify the providers. *)
Lemma registry_priority (info : provider_info) :
  info ∈ map snd providers -> provider_priority (name info) = priority info.
Proof.
  unfold providers. cbn [map snd]. intros H.
  repeat (apply elem_of_cons in H as [->|H]; [reflexivity|]).
  by apply elem_of_nil in H.
Qed.

Lemma registry_priorities_distinct : NoDup (map priority (map snd providers)).
Proof. by_evaluation. Qed.

Lemma key_of_collected (f : future) (x : link4) :
  f.1.2 ∈ map snd providers ->
  x ∈ collected json_loads f -> (key_of x).1.1 = priority f.1.2.
Proof.
  intros Hf Hx. apply collected_provider in Hx.
  destruct x as [[[fmt q] u] p]. simpl in *. subst p. by apply registry_priority.
Qed.

Lemma from_registry_elem fs f : from_registry fs -> f ∈ fs -> f.1.2 ∈ map snd providers.
Proof.
  intros Hs Hf. eapply sublist_subseteq; [exact Hs|].
  unfold infos. apply list_elem_of_In.
  apply (in_map (fun f : future => f.1.2)). by apply list_elem_of_In.
Qed.

Lemma from_registry_distinct fs :
  from_registry fs -> NoDup (map (fun f => priority f.1.2) fs).
Proof.
  intros Hs. eapply sublist_NoDup; [apply registry_priorities_distinct|].
  change (map (fun f => priority f.1.2) fs) with (map (fun f : future => priority f.1.2) fs).
  rewrite <- (map_map (fun f : future => f.1.2) priority).
  by apply sublist_map.
Qed.

Lemma submitted_from_registry (w : world) (source_response : string) :
  from_registry
    (map (fun '(provider_key, provider_info, decoded_url) =>
            (provider_key, provider_info,
             fetch_provider_data w provider_key decoded_url))
         (submitted source_response)).
Proof.
  unfold from_registry, infos. rewrite map_map.
  erewrite map_ext; [apply (flat_map_sublist _ (fun t => t.1.2) snd)|].
  - intros [k info]. cbn [fst snd].
    destruct (Re.search _ _ _) as [cs|]; [|by left].
    destruct (String.eqb _ _); [by left|]. right. eexists. split; reflexivity.
  - intros [[k info] url]. reflexivity.
Qed.

(** Sorting the links collected from the futures in any two orders of
    completion gives the same list. *)
Lemma sort_collected_perm (fs fs1 fs2 : list future) :
  from_registry fs -> fs1 ≡ₚ fs -> fs2 ≡ₚ fs ->
  sort_links (flat_map (collected json_loads) fs1) =
  sort_links (flat_map (collected json_loads) fs2).
Proof.
  intros Hreg H1 H2. rewrite !sort_links_spec.
  assert (H12 : fs1 ≡ₚ fs2) by (by rewrite H1, H2).
  rewrite (forallb_perm _ _ (flat_map (collected json_loads) fs2))
    by (by apply Permutation_flat_map).
  destruct (forallb _ _); [|reflexivity]. f_equal.
  apply stable_sort_unique. intros k. rewrite !filter_flat_map.
  apply (flat_map_perm_exclusive (fun f => priority f.1.2)); [done|..].
  - rewrite H1. by apply from_registry_distinct.
  - intros a b Ha Hb Hne. rewrite H1 in Ha, Hb.
    destruct (decide (k.1.1 = priority a.1.2)) as [Hk|Hk].
    + right. apply filter_none. intros x Hx Hkx.
      apply key_of_collected in Hx; [|by eapply from_registry_elem].
      congruence.
    + left. apply filter_none. intros x Hx Hkx.
      apply key_of_collected in Hx; [|by eapply from_registry_elem].
      congruence.
Qed.

End Completion.

(** C4: for two runs of [get_all_links] in the same surroundings, in which
    every fetch has the same reply and the fetches finish in different
    orders, the returned list is the same. *)
Theorem completion_order_does_not_matter
    (json_loads : string -> option (list (string * pyval))) (str_of : pyval -> string)
    (w : ProviderManager.world)
    (order1 order2 : list ProviderManager.future -> list ProviderManager.future)
    (show_id episode mode : string) :
  (forall fs, order1 fs ≡ₚ fs) ->
  (forall fs, order2 fs ≡ₚ fs) ->
  ProviderManager.get_all_links json_loads str_of w order1 show_id episode mode =
  ProviderManager.get_all_links json_loads str_of w order2 show_id episode mode.
Proof.
  intros H1 H2. unfold ProviderManager.get_all_links, ProviderManager.get_all_links_run.
  destruct (ProviderManager.fetch_source_response _ _ _ _ _) as [[source_response|]|e];
    [|reflexivity..].
  cbn [snd]. f_equal.
  eapply sort_collected_perm; [apply submitted_from_registry|apply H1|apply H2].
Qed.

Lemma completion_order_does_not_matter_witness :
  (forall fs : list ProviderManager.future, id fs ≡ₚ fs)
  /\ (forall fs : list ProviderManager.future, rev fs ≡ₚ fs)
  /\ ProviderManager.get_all_links Scenario.json_loads Scenario.str_of
       Scenario.two_providers id "show" "1" "sub" =
     ProviderManager.get_all_links Scenario.json_loads Scenario.str_of
       Scenario.two_providers (@rev _) "show" "1" "sub".
Proof.
  split; [intros fs; reflexivity|].
  split; [intros fs; symmetry; apply Permutation_rev|].
  apply completion_order_does_not_matter.
  - intros fs. reflexivity.
  - intros fs. symmetry. apply Permutation_rev.
Defined.

(** ** Failures *)

(** C1, as stated, fails: when the metadata endpoint cannot be reached,
    and when its reply is malformed, [get_all_links] returns the empty
    list, which is also what it returns when there are no sources. *)
Lemma metadata_failure_looks_like_no_links :
  ProviderManager.fetch_source_response Scenario.str_of Scenario.unreachable
    "show" "1" "sub" = Raise RequestException
  /\ ProviderManager.fetch_source_response Scenario.str_of Scenario.malformed
       "show" "1" "sub" = Raise AttributeError
  /\ ProviderManager.fetch_source_response Scenario.str_of Scenario.no_sources
       "show" "1" "sub" = Ok None
  /\ ProviderManager.get_all_links Scenario.json_loads Scenario.str_of
       Scenario.unreachable id "show" "1" "sub" = []
  /\ ProviderManager.get_all_links Scenario.json_loads Scenario.str_of
       Scenario.malformed id "show" "1" "sub" = []
  /\ ProviderManager.get_all_links Scenario.json_loads Scenario.str_of
       Scenario.no_sources id "show" "1" "sub" = [].
Proof. repeat split; vm_compute; reflexivity. Qed.

Lemma collected_failed (json_loads : string -> option (list (string * pyval)))
    (fs : list ProviderManager.future) :
  Forall (fun f => exists p, f.2 = ProviderManager.Error p) fs ->
  flat_map (ProviderManager.collected json_loads) fs = [].
Proof.
  induction 1 as [|[[k info] res] r [p Hp] Hr IH]; [done|].
  simpl in *. subst res. exact IH.
Qed.

Lemma collected_succeeded (json_loads : string -> option (list (string * pyval)))
    (fs : list ProviderManager.future) :
  flat_map (ProviderManager.collected json_loads) fs =
  flat_map (ProviderManager.collected json_loads)
    (filter (fun f => succeeded f = true) fs).
Proof.
  induction fs as [|[[k info] res] r IH]; [done|].
  destruct res as [p text|p].
  - rewrite filter_cons_True by done. cbn [flat_map]. by rewrite IH.
  - rewrite filter_cons_False by done. exact IH.
Qed.

(** C1, amended: a failure of the metadata query, be it a transport or
    HTTP error or a malformed reply, is caught in [get_all_links] and comes
    back as the empty list, the value of the no-links outcome; no error is
    surfaced.  Per-provider failures are absorbed: a fetch fails exactly
    when its GET raises, a failed fetch adds no link, and the body of the
    call returns what the fetches that succeeded give, sorted, as if the
    failed ones had not been made; when every fetch fails this is the
    empty list. *)
Theorem failures_yield_empty_list
    (json_loads : string -> option (list (string * pyval))) (str_of : pyval -> string)
    (w : ProviderManager.world)
    (order : list ProviderManager.future -> list ProviderManager.future)
    (show_id episode mode : string) :
  (forall fs, order fs ≡ₚ fs) ->
  (forall e,
     ProviderManager.fetch_source_response str_of w show_id episode mode = Raise e ->
     ProviderManager.get_all_links json_loads str_of w order show_id episode mode = [])
  /\ (forall k info url,
        succeeded (k, info, ProviderManager.fetch_provider_data w k url) = false
        <-> exists e,
              ProviderManager.provider_reply w (ProviderManager.provider_request w url)
              = Raise e)
  /\ (forall source_response,
        ProviderManager.fetch_source_response str_of w show_id episode mode
          = Ok (Some source_response) ->
        (forall f, f ∈ order (finished w source_response) -> succeeded f = false ->
                   ProviderManager.collected json_loads f = [])
        /\ snd (ProviderManager.get_all_links_run json_loads str_of w order
                  show_id episode mode)
           = ProviderManager.sort_links
               (flat_map (ProviderManager.collected json_loads)
                  (filter (fun f => succeeded f = true)
                     (order (finished w source_response))))
        /\ ((forall req, exists e, ProviderManager.provider_reply w req = Raise e) ->
            snd (ProviderManager.get_all_links_run json_loads str_of w order
                   show_id episode mode) = Ok [])).
Proof.
  intros Hperm. split; [|split].
  - intros e He.
    unfold ProviderManager.get_all_links, ProviderManager.get_all_links_run.
    rewrite He. reflexivity.
  - intros k info url. unfold succeeded, ProviderManager.fetch_provider_data. cbn [snd].
    destruct (ProviderManager.provider_reply w _) as [text|e]; split; try done.
    + by intros [e He].
    + intros _. by exists e.
  - intros sr Hsr. split; [|split].
    + intros [[k info] [p text|p]] _ Hf; [done|reflexivity].
    + unfold ProviderManager.get_all_links_run. rewrite Hsr. cbn [snd].
      fold (finished w sr). by rewrite <- collected_succeeded.
    + intros Hfail. unfold ProviderManager.get_all_links_run. rewrite Hsr.
      cbn [snd]. rewrite collected_failed; [reflexivity|].
      rewrite Forall_forall. intros f Hf. rewrite Hperm in Hf.
      apply list_elem_of_In, in_map_iff in Hf as ([[k info] url] & <- & _).
      cbn [snd]. unfold ProviderManager.fetch_provider_data.
      destruct (Hfail (ProviderManager.provider_request w url)) as [e ->]. eauto.
Qed.

Lemma failures_yield_empty_list_witness :
  (forall fs : list ProviderManager.future, id fs ≡ₚ fs)
  /\ ProviderManager.fetch_source_response Scenario.str_of Scenario.unreachable
       "show" "1" "sub" = Raise RequestException
  /\ ProviderManager.get_all_links Scenario.json_loads Scenario.str_of
       Scenario.unreachable id "show" "1" "sub" = []
  /\ ProviderManager.fetch_source_response Scenario.str_of MixedScenario.hianime_down
       "show" "1" "sub" = Ok (Some MixedScenario.source_response)
  /\ map succeeded (finished MixedScenario.hianime_down MixedScenario.source_response)
     = [true; false]
  /\ snd (ProviderManager.get_all_links_run Scenario.json_loads Scenario.str_of
            MixedScenario.hianime_down id "show" "1" "sub")
     = Ok [("mp4", PStr "1080p",
            PStr "https://video.wixstatic.com/video/abc/1080p/mp4/file.mp4", "Wixmp");
           ("mp4", PStr "720p",
            PStr "https://video.wixstatic.com/video/abc/720p/mp4/file.mp4", "Wixmp")].
Proof.
  split; [intros fs; reflexivity|]. split; [reflexivity|].
  split.
  { apply (proj1 (failures_yield_empty_list Scenario.json_loads Scenario.str_of
                    Scenario.unreachable id "show" "1" "sub"
                    (fun fs => Permutation_refl fs)) RequestException).
    reflexivity. }
  assert (Hsr : ProviderManager.fetch_source_response Scenario.str_of
                  MixedScenario.hianime_down "show" "1" "sub"
                = Ok (Some MixedScenario.source_response))
    by (vm_compute; reflexivity).
  split; [exact Hsr|]. split; [vm_compute; reflexivity|].
  destruct (proj2 (proj2 (failures_yield_empty_list Scenario.json_loads Scenario.str_of
                            MixedScenario.hianime_down id "show" "1" "sub"
                            (fun fs => Permutation_refl fs)))
              MixedScenario.source_response Hsr) as (_ & Heq & _).
  rewrite Heq. vm_compute. reflexivity.
Defined.

(** C7: the metadata GET of [get_all_links] is issued without a timeout,
    whatever the call; only the provider GETs that follow carry the
    configured one. *)
Theorem metadata_request_has_no_timeout
    (json_loads : string -> option (list (string * pyval))) (str_of : pyval -> string)
    (w : ProviderManager.world)
    (order : list ProviderManager.future -> list ProviderManager.future)
    (show_id episode mode : string) :
  exists rest,
    ProviderManager.requests_issued json_loads str_of w order show_id episode mode
      = ProviderManager.metadata_request :: rest
    /\ ProviderManager.req_timeout ProviderManager.metadata_request = None
    /\ Forall (fun r => ProviderManager.req_timeout r
                        = Some (ProviderManager.network_timeout w)) rest.
Proof.
  unfold ProviderManager.requests_issued, ProviderManager.get_all_links_run.
  destruct (ProviderManager.fetch_source_response _ _ _ _ _) as [[sr|]|e];
    eexists; (split; [reflexivity|]); (split; [reflexivity|]); [|constructor..].
  apply Forall_forall. intros r Hr.
  apply list_elem_of_In, in_map_iff in Hr as (t & <- & _). reflexivity.
Qed.

(** ** The extractors *)

(** C5: a body that starts with an opening brace and is not valid JSON
    makes [extract_sharepoint_links] return no link at all: the exception
    of the parser leaves the function before the scan of the raw text. *)
Theorem sharepoint_invalid_json_skips_fallback
    (json_loads : string -> option (list (string * pyval))) (response_text : string) :
  PyStr.startswith (PyStr.strip response_text) "{" = true ->
  json_loads response_text = None ->
  ProviderManager.extract_sharepoint_links json_loads response_text = [].
Proof.
  intros Hbrace Hjson.
  unfold ProviderManager.extract_sharepoint_links,
    ProviderManager.extract_sharepoint_links_body,
    ProviderManager.sharepoint_json_links.
  rewrite Hbrace, Hjson. reflexivity.
Qed.

Lemma sharepoint_invalid_json_skips_fallback_witness :
  PyStr.startswith (PyStr.strip Scenario.truncated_sharepoint_body) "{" = true
  /\ Scenario.json_loads Scenario.truncated_sharepoint_body = None
  /\ ProviderManager.sharepoint_regex_links Scenario.truncated_sharepoint_body
     = [("mp4", PStr "SharePoint", PStr "https://x.sharepoint.com/download")]
  /\ ProviderManager.extract_sharepoint_links Scenario.json_loads
       Scenario.truncated_sharepoint_body = [].
Proof.
  split; [reflexivity|]. split; [reflexivity|]. split; [vm_compute; reflexivity|].
  apply sharepoint_invalid_json_skips_fallback; reflexivity.
Defined.

(** The scan of the raw text is what the extractor returns when no JSON
    is attempted, and when the parsed object gives no link. *)
Lemma sharepoint_fallback_reached
    (json_loads : string -> option (list (string * pyval))) (response_text : string) :
  (PyStr.startswith (PyStr.strip response_text) "{" = false
   \/ exists json_data, json_loads response_text = Some json_data
        /\ (forall l, Py.lookup "links" json_data = Some (PList l) ->
                      flat_map ProviderManager.sharepoint_link l = [])) ->
  ProviderManager.extract_sharepoint_links json_loads response_text
  = ProviderManager.sharepoint_regex_links response_text.
Proof.
  unfold ProviderManager.extract_sharepoint_links,
    ProviderManager.extract_sharepoint_links_body,
    ProviderManager.sharepoint_json_links.
  intros [->|(json_data & -> & Hl)]; [reflexivity|].
  destruct (PyStr.startswith _ _); [|reflexivity].
  destruct (Py.lookup "links" json_data) as [[| | | | |l|]|]; try reflexivity.
  cbn. rewrite (Hl l eq_refl). reflexivity.
Qed.

(** C10: there is a body with an m3u8 URL in a quoted [url] field for which
    the HiAnime extractor gives the same link twice, once per pattern, and
    a call of [get_all_links] that returns both copies. *)
Theorem hianime_duplicate_links :
  exists body url,
    PyStr.contains (quoted "url" +:+ ":" +:+ quoted url) body = true
    /\ ProviderManager.extract_hianime_links body
       = [("m3u8", PStr "HLS Stream", PStr url); ("m3u8", PStr "HLS Stream", PStr url)]
    /\ exists w links,
         ProviderManager.get_all_links Scenario.json_loads Scenario.str_of w id
           "show" "1" "sub"
         = (links ++ [("m3u8", PStr "HLS Stream", PStr url, "HiAnime");
                      ("m3u8", PStr "HLS Stream", PStr url, "HiAnime")])%list.
Proof.
  exists Scenario.hianime_body, Scenario.stream_url.
  split; [vm_compute; reflexivity|]. split; [vm_compute; reflexivity|].
  exists Scenario.two_providers.
  exists [("mp4", PStr "1080p",
           PStr "https://video.wixstatic.com/video/abc/1080p/mp4/file.mp4", "Wixmp");
          ("mp4", PStr "720p",
           PStr "https://video.wixstatic.com/video/abc/720p/mp4/file.mp4", "Wixmp")].
  vm_compute. reflexivity.
Qed.

(** ** The provider statistics *)

(** C6, as stated, fails: after one failure and then one success, each
    call loading what the one before saved, the success counter is 1, so
    the formula of the claim gives the last latency, 20, while the stored
    average is 15. *)
Lemma running_average_not_by_success_count :
  exists pd,
    JSONDataManager.update_provider_stats "t2" true
      (JSONDataManager.update_provider_stats "t1" true ∅ "Wixmp" false 10%float)
      "Wixmp" true 20%float !! "Wixmp"
    = Some pd
    /\ JSONDataManager.success_count pd = 1%Z
    /\ JSONDataManager.avg_response_time pd = 15%float
    /\ JSONDataManager.spec_new_avg 1 2 10 20 = Some 20%float
    /\ Some (JSONDataManager.avg_response_time pd) <> JSONDataManager.spec_new_avg 1 2 10 20.
Proof.
  eexists. split; [vm_compute; reflexivity|].
  cbn [JSONDataManager.success_count JSONDataManager.avg_response_time].
  do 3 (split; [vm_compute; reflexivity|]).
  intros H. apply (f_equal (fun x => PrimFloat.eqb (default 0%float x) 20)) in H.
  vm_compute in H. discriminate.
Qed.

(** The conversion does not wrap: [2^63] and [2^63 + 1] give the float
    [2^63], an [int] past the largest float gives none. *)
Lemma float_of_int_large :
  JSONDataManager.float_of_int (2 ^ 63) = Some 9223372036854775808%float
  /\ JSONDataManager.float_of_int (2 ^ 63 + 1) = Some 9223372036854775808%float
  /\ JSONDataManager.float_of_int (2 ^ 1024) = None.
Proof. repeat split; vm_compute; reflexivity. Qed.

(** The two counters of the entry a call builds add up to the attempts
    the loaded entry counts, and one for the call. *)
Lemma updated_entry_total now old success latency pd :
  JSONDataManager.updated_entry now old success latency = Some pd ->
  (JSONDataManager.success_count pd + JSONDataManager.failure_count pd
   = JSONDataManager.success_count old + JSONDataManager.failure_count old + 1)%Z
  /\ JSONDataManager.success_count pd
     = (JSONDataManager.success_count old + if success then 1 else 0)%Z
  /\ JSONDataManager.failure_count pd
     = (JSONDataManager.failure_count old + if success then 0 else 1)%Z
  /\ JSONDataManager.last_used pd = now.
Proof.
  unfold JSONDataManager.updated_entry.
  destruct (if (_ >? 1)%Z then _ else _) as [avg|]; [|done].
  cbn. intros [= <-]. cbn. destruct success; repeat split; lia.
Qed.

(** C6, amended: a call whose save goes through stores for the provider
    the latency itself when n is at most 1, whatever the success counter,
    and otherwise (oldAvg * (n - 1) + latency) / n, where oldAvg is the
    average of the entry the call loaded and n the attempts this entry
    counts, successful or not, and one for the call; [a] and [b] are
    n - 1 and n as floats. *)
Theorem running_average_by_total_attempts
    (providers : gmap string JSONDataManager.provider_data)
    (provider : string) (success : bool) (latency : float) (now : string)
    (old : JSONDataManager.provider_data) (n : Z) (a b : float) :
  old = JSONDataManager.loaded_entry now providers provider ->
  n = (JSONDataManager.success_count old + JSONDataManager.failure_count old + 1)%Z ->
  ((1 < n)%Z ->
   JSONDataManager.float_of_int (n - 1) = Some a
   /\ JSONDataManager.float_of_int n = Some b) ->
  exists pd,
    JSONDataManager.update_provider_stats now true providers provider success latency
      !! provider = Some pd
    /\ (JSONDataManager.success_count pd + JSONDataManager.failure_count pd = n)%Z
    /\ JSONDataManager.avg_response_time pd =
       if (n <=? 1)%Z then latency
       else ((JSONDataManager.avg_response_time old * a + latency) / b)%float.
Proof.
  intros Hold Hn Hab.
  unfold JSONDataManager.update_provider_stats. rewrite <- Hold.
  unfold JSONDataManager.updated_entry.
  assert (Htot : ((if success then JSONDataManager.success_count old + 1
                   else JSONDataManager.success_count old)
                  + (if success then JSONDataManager.failure_count old
                     else JSONDataManager.failure_count old + 1) = n)%Z)
    by (subst n; destruct success; lia).
  rewrite Htot.
  destruct (Z.gtb_spec n 1) as [Hgt|Hle], (Z.leb_spec n 1); try lia.
  - destruct (Hab Hgt) as [-> ->]. cbn. rewrite lookup_insert_eq.
    eexists. split; [reflexivity|]. cbn. split; [exact Htot|reflexivity].
  - cbn. rewrite lookup_insert_eq.
    eexists. split; [reflexivity|]. cbn. split; [exact Htot|reflexivity].
Qed.

Lemma running_average_by_total_attempts_witness :
  exists pd,
    JSONDataManager.update_provider_stats "t2" true StatsScenario.one_failure
      "Wixmp" true 20%float !! "Wixmp" = Some pd
    /\ (JSONDataManager.success_count pd + JSONDataManager.failure_count pd = 2)%Z
    /\ JSONDataManager.avg_response_time pd = ((10 * 1 + 20) / 2)%float.
Proof.
  apply (running_average_by_total_attempts StatsScenario.one_failure "Wixmp" true
           20%float "t2" StatsScenario.failed_once 2 1%float 2%float).
  - vm_compute. reflexivity.
  - reflexivity.
  - intros _. split; vm_compute; reflexivity.
Defined.

(** * Further properties *)

(** ** The decoder on whole tokens *)

Lemma chars_in_app Q a b : chars_in Q a -> chars_in Q b -> chars_in Q (a +:+ b).
Proof.
  unfold chars_in. induction a as [|c a IH]; [done|].
  rewrite app_cons. cbn [list_ascii_of_string]. intros Ha Hb.
  inversion Ha; subst. constructor; [done|]. by apply IH.
Qed.

Lemma chars_in_join Q l : Forall (chars_in Q) l -> chars_in Q (PyStr.join "" l).
Proof.
  induction 1 as [|x r Hx Hr IH]; [constructor|].
  cbn [PyStr.join]. destruct r as [|y r']; [done|].
  apply chars_in_app; [done|]. by rewrite app_empty.
Qed.

(** A replacement brings in characters of the new text only. *)
Lemma chars_in_replace Q old new skip s :
  chars_in Q new -> chars_in Q s -> chars_in Q (PyStr.replace_from old new skip s).
Proof.
  intros Hnew. revert skip. induction s as [|c s IH]; intros skip Hs; [done|].
  assert (Hc : Q c) by (by inversion Hs).
  assert (Hs' : chars_in Q s) by (by inversion Hs).
  cbn [PyStr.replace_from]. destruct skip as [|k]; [|by apply IH].
  destruct (String.prefix old (String c s)).
  - apply chars_in_app; [done|]. by apply IH.
  - constructor; [done|]. by apply IH.
Qed.

Lemma table_lookup_character hp c :
  HexDecoder.translation_table !! hp = Some c -> c ∈ HexDecoder.characters.
Proof.
  intros H. apply elem_of_map_to_list in H.
  unfold HexDecoder.characters.
  apply (proj2 (list_elem_of_In _ c)).
  apply (in_map snd _ (hp, c)).
  exact (proj1 (list_elem_of_In _ (hp, c)) H).
Qed.

Lemma decoded_chars_characters pairs :
  Forall (fun c => c ∈ HexDecoder.characters) (HexDecoder.decoded_chars pairs).
Proof.
  induction pairs as [|hp r IH]; cbn [HexDecoder.decoded_chars]; [constructor|].
  destruct (HexDecoder.translation_table !! hp) as [c|] eqn:Hc; [|done].
  constructor; [|done]. by eapply table_lookup_character.
Qed.

(** [decode] never gives a character that is not a character of the
    table, whatever the token: unknown pairs add nothing and the rewrite
    adds [.json], which the table has. *)
Theorem decode_stays_in_alphabet (token : string) :
  chars_in (fun c => String c "" ∈ HexDecoder.characters) (HexDecoder.decode token).
Proof.
  set (Q := fun c => String c "" ∈ HexDecoder.characters).
  assert (Hone : Forall (chars_in Q) HexDecoder.characters) by by_evaluation.
  unfold HexDecoder.decode. destruct token as [|c t]; [constructor|].
  destruct (negb _); [constructor|].
  apply chars_in_replace; [by_evaluation|].
  apply chars_in_join. rewrite Forall_forall. intros x Hx.
  rewrite Forall_forall in Hone. apply Hone.
  pose proof (decoded_chars_characters
                (HexDecoder.hex_pairs (HexDecoder.strip_prefix (String c t)))) as Hd.
  rewrite Forall_forall in Hd. by apply Hd.
Qed.

Lemma app_empty_r s : s +:+ "" = s.
Proof. induction s as [|c s IH]; [done|]. by rewrite app_cons, IH. Qed.

Lemma join_empty_cons x r : PyStr.join "" (x :: r) = x +:+ PyStr.join "" r.
Proof.
  cbn [PyStr.join]. destruct r as [|y r]; [by rewrite app_empty_r|].
  by rewrite app_empty.
Qed.

Lemma string_length_app a b :
  String.length (a +:+ b) = String.length a + String.length b.
Proof. induction a as [|c a IH]; [done|]. rewrite app_cons. simpl. by rewrite IH. Qed.

Lemma table_code_shape hp :
  is_Some (HexDecoder.translation_table !! hp) -> code_shape hp = true.
Proof.
  intros [c Hc].
  assert (Hall : Forall (fun e : string * string => code_shape e.1 = true)
                   (map_to_list HexDecoder.translation_table)) by by_evaluation.
  rewrite Forall_forall in Hall.
  exact (Hall (hp, c) (proj2 (elem_of_map_to_list _ _ _) Hc)).
Qed.

(** [re.findall] with two dots takes the text two characters at a time as
    long as there is no line feed. *)
Lemma hex_pairs_cons a b rest :
  Ascii.eqb a Re.newline = false -> Ascii.eqb b Re.newline = false ->
  HexDecoder.hex_pairs (String a (String b rest)) =
  String a (String b "") :: HexDecoder.hex_pairs rest.
Proof.
  intros Ha Hb. unfold HexDecoder.hex_pairs, Re.findall0.
  cbn [Re.finditer_from]. unfold Re.match_here. cbn [Re.rmatch Re.one].
  rewrite Ha, Hb. cbn [negb String.length].
  replace (S (S (String.length rest)) - String.length rest) with 2 by lia.
  cbn [PyStr.take Nat.sub map fst]. reflexivity.
Qed.

Lemma hex_pairs_join codes :
  Forall (fun hp => code_shape hp = true) codes ->
  HexDecoder.hex_pairs (PyStr.join "" codes) = codes.
Proof.
  induction 1 as [|hp r Hhp Hr IH]; [reflexivity|].
  rewrite join_empty_cons.
  destruct hp as [|a [|b [|? ?]]]; try discriminate Hhp.
  cbn in Hhp. apply andb_true_iff in Hhp as [[Ha Hb]%andb_true_iff _].
  apply negb_true_iff in Ha, Hb.
  rewrite !app_cons, app_empty, hex_pairs_cons, IH by done. reflexivity.
Qed.

Lemma length_join_codes codes :
  Forall (fun hp => code_shape hp = true) codes ->
  String.length (PyStr.join "" codes) = 2 * length codes.
Proof.
  induction 1 as [|hp r Hhp Hr IH]; [reflexivity|].
  rewrite join_empty_cons, string_length_app, IH.
  destruct hp as [|a [|b [|? ?]]]; try discriminate Hhp. simpl. lia.
Qed.

Lemma strip_prefix_codes codes :
  Forall (fun hp => code_shape hp = true) codes ->
  HexDecoder.strip_prefix (PyStr.join "" codes) = PyStr.join "" codes.
Proof.
  intros H. unfold HexDecoder.strip_prefix, PyStr.startswith.
  destruct H as [|hp r Hhp Hr]; [reflexivity|].
  rewrite join_empty_cons.
  destruct hp as [|a [|b [|? ?]]]; try discriminate Hhp.
  cbn in Hhp. apply andb_true_iff in Hhp as [_ Ha]. apply negb_true_iff in Ha.
  rewrite !app_cons, prefix_cons. rewrite Ascii.eqb_sym in Ha. by rewrite Ha.
Qed.

Lemma strip_prefix_dashes s : HexDecoder.strip_prefix ("--" +:+ s) = s.
Proof.
  unfold HexDecoder.strip_prefix, PyStr.startswith. by rewrite prefix_app.
Qed.

Lemma decoded_chars_known codes :
  Forall (fun hp => is_Some (HexDecoder.translation_table !! hp)) codes ->
  HexDecoder.decoded_chars codes =
  map (fun hp => default "" (HexDecoder.translation_table !! hp)) codes.
Proof.
  induction 1 as [|hp r [c Hc] Hr IH]; [reflexivity|].
  cbn [HexDecoder.decoded_chars map]. rewrite Hc, IH. reflexivity.
Qed.

Lemma decode_nonempty token :
  token <> "" ->
  HexDecoder.decode token =
  if negb (String.length (HexDecoder.strip_prefix token) mod 2 =? 0)%nat then ""
  else PyStr.replace "/clock" "/clock.json" (HexDecoder.assemble token).
Proof. destruct token; [done|reflexivity]. Qed.

(** [decode] undoes the encoding: a token that is a sequence of codes of
    the table, with or without the two hyphens in front, decodes to the
    characters of the codes in their order, rewritten by the [/clock]
    rule. *)
Theorem decode_known_codes (codes : list string) :
  codes <> [] ->
  Forall (fun hp => is_Some (HexDecoder.translation_table !! hp)) codes ->
  let text :=
    PyStr.join "" (map (fun hp => default "" (HexDecoder.translation_table !! hp)) codes) in
  HexDecoder.decode (PyStr.join "" codes) = PyStr.replace "/clock" "/clock.json" text
  /\ HexDecoder.decode ("--" +:+ PyStr.join "" codes)
     = PyStr.replace "/clock" "/clock.json" text.
Proof.
  intros Hne Hknown text.
  assert (Hshape : Forall (fun hp => code_shape hp = true) codes).
  { eapply Forall_impl; [exact Hknown|]. intros hp. apply table_code_shape. }
  assert (Hasm : HexDecoder.decoded_chars (HexDecoder.hex_pairs (PyStr.join "" codes))
                 = map (fun hp => default "" (HexDecoder.translation_table !! hp)) codes)
    by (by rewrite hex_pairs_join, decoded_chars_known).
  assert (Heven : String.length (PyStr.join "" codes) mod 2 = 0).
  { rewrite length_join_codes by done. by rewrite Nat.mul_comm, Nat.Div0.mod_mul. }
  assert (Hpos : PyStr.join "" codes <> "").
  { intros Hj. apply (f_equal String.length) in Hj.
    rewrite length_join_codes in Hj by done. destruct codes; [done|]. simpl in Hj. lia. }
  split.
  - rewrite decode_nonempty by done. unfold HexDecoder.assemble.
    rewrite strip_prefix_codes, Heven, Hasm by done. reflexivity.
  - rewrite decode_nonempty by done. unfold HexDecoder.assemble.
    rewrite strip_prefix_dashes, Heven, Hasm. reflexivity.
Qed.

Lemma decode_known_codes_witness :
  ["17"; "59"] <> []
  /\ Forall (fun hp => is_Some (HexDecoder.translation_table !! hp)) ["17"; "59"]
  /\ HexDecoder.decode "--1759" = "/a".
Proof.
  assert (Hk : Forall (fun hp => is_Some (HexDecoder.translation_table !! hp))
                 ["17"; "59"]) by (repeat constructor; by eexists).
  split; [discriminate|]. split; [exact Hk|].
  exact (proj2 (decode_known_codes ["17"; "59"] ltac:(discriminate) Hk)).
Defined.

(** ** What [get_all_links] returns and fetches *)

Section Resolution.
Import ProviderManager.

Variable json_loads : string -> option (list (string * pyval)).
Variable str_of : pyval -> string.

Lemma wixmp_links_mp4 url : Forall (fun l : link3 => l.1.1 = "mp4") (extract_wixmp_links url).
Proof.
  unfold extract_wixmp_links. destruct (Re.search _ _ _); [|constructor].
  apply Forall_forall. intros l Hl.
  apply list_elem_of_In, in_map_iff in Hl as (q & <- & _). reflexivity.
Qed.

Lemma sharepoint_links_mp4 text :
  Forall (fun l : link3 => l.1.1 = "mp4") (extract_sharepoint_links json_loads text).
Proof.
  assert (Hre : Forall (fun l : link3 => l.1.1 = "mp4") (sharepoint_regex_links text)).
  { apply Forall_forall. intros l Hl. unfold sharepoint_regex_links in Hl.
    apply list_elem_of_In, in_flat_map in Hl as (pat & _ & Hl).
    apply in_flat_map in Hl as (m & _ & Hl).
    destruct (_ && _); [|done]. by destruct Hl as [<-|[]]. }
  assert (Hjs : forall l, Forall (fun l : link3 => l.1.1 = "mp4")
                             (flat_map sharepoint_link l)).
  { intros l. apply Forall_forall. intros x Hx.
    apply list_elem_of_In, in_flat_map in Hx as (o & _ & Hx).
    unfold sharepoint_link in Hx. destruct o as [| | | | | |d]; try done.
    destruct (Py.lookup "link" d); [|done].
    destruct (Py.truthy _); [|done]. by destruct Hx as [<-|[]]. }
  unfold extract_sharepoint_links, extract_sharepoint_links_body, sharepoint_json_links.
  destruct (PyStr.startswith _ _); [|exact Hre].
  destruct (json_loads text) as [json_data|]; [|constructor].
  destruct (Py.lookup "links" json_data) as [[| | | | |l|]|]; try exact Hre.
  cbn. pose proof (Hjs l) as Hl. destruct (flat_map sharepoint_link l); [exact Hre|exact Hl].
Qed.

Lemma youtube_links_mp4 text :
  Forall (fun l : link3 => l.1.1 = "mp4") (extract_youtube_links text).
Proof.
  apply Forall_forall. intros l Hl. unfold extract_youtube_links in Hl.
  apply list_elem_of_In, in_flat_map in Hl as (pat & _ & Hl).
  apply in_map_iff in Hl as (m & <- & _). reflexivity.
Qed.

Lemma hianime_links_m3u8 text :
  Forall (fun l : link3 => l.1.1 = "m3u8") (extract_hianime_links text).
Proof.
  apply Forall_forall. intros l Hl. unfold extract_hianime_links in Hl.
  apply list_elem_of_In, in_flat_map in Hl as (pat & _ & Hl).
  apply in_map_iff in Hl as (m & <- & _). by destruct (PyStr.contains _ _).
Qed.

Lemma collected_formats (f : future) (x : link4) :
  (f.1.1, f.1.2) ∈ providers -> x ∈ collected json_loads f ->
  (x.2, x.1.1.1) ∈ provider_formats.
Proof.
  destruct f as [[k info] [p text|p]]; cbn [fst snd collected];
    [|by intros _ ?%elem_of_nil].
  intros Hreg Hx. apply list_elem_of_In, in_map_iff in Hx as ([[fmt q] u] & <- & Hl).
  cbn [fst snd]. apply list_elem_of_In in Hl.
  unfold providers in Hreg.
  repeat (apply elem_of_cons in Hreg as [Hreg|Hreg];
          [injection Hreg as -> ->; cbn [name]|]);
    [| | | |by apply elem_of_nil in Hreg].
  - apply list_elem_of_In, in_flat_map in Hl as (url & _ & Hl).
    pose proof (wixmp_links_mp4 url) as Hf. rewrite Forall_forall in Hf.
    apply list_elem_of_In, Hf in Hl. cbn in Hl. subst. by_evaluation.
  - pose proof (sharepoint_links_mp4 text) as Hf. rewrite Forall_forall in Hf.
    apply Hf in Hl. cbn in Hl. subst. by_evaluation.
  - pose proof (youtube_links_mp4 text) as Hf. rewrite Forall_forall in Hf.
    apply Hf in Hl. cbn in Hl. subst. by_evaluation.
  - pose proof (hianime_links_m3u8 text) as Hf. rewrite Forall_forall in Hf.
    apply Hf in Hl. cbn in Hl. subst. by_evaluation.
Qed.

Lemma submitted_in_registry source_response t :
  t ∈ submitted source_response -> (t.1.1, t.1.2) ∈ providers.
Proof.
  intros Ht. apply list_elem_of_In, in_flat_map in Ht as ([k info] & Hp & Ht).
  cbn [fst snd] in Ht. destruct (Re.search _ _ _); [|done].
  destruct (String.eqb _ _); [done|]. destruct Ht as [<-|[]].
  by apply list_elem_of_In.
Qed.

Lemma submitted_at_most_four source_response : length (submitted source_response) <= 4.
Proof.
  pose proof (flat_map_sublist
                (fun p : provider_key * provider_info =>
                   match Re.search true (regex p.2) source_response with
                   | Some cs =>
                       if String.eqb (HexDecoder.decode (Re.group 1 cs)) "" then []
                       else [(p.1, p.2, HexDecoder.decode (Re.group 1 cs))]
                   | None => []
                   end)
                (fun t : provider_key * provider_info * string => t.1.2) snd providers) as H.
  apply sublist_length in H.
  - rewrite !length_map in H. exact H.
  - intros [k info]. cbn [fst snd].
    destruct (Re.search _ _ _); [|by left].
    destruct (String.eqb _ _); [by left|]. right. eexists. split; reflexivity.
Qed.

End Resolution.

(** Whatever the replies and the order of completion, the list that
    [get_all_links] returns is in ranking order: no link is followed by one
    of a smaller key (provider priority, format, quality). *)
Theorem get_all_links_is_ranked
    (json_loads : string -> option (list (string * pyval))) (str_of : pyval -> string)
    (w : ProviderManager.world)
    (order : list ProviderManager.future -> list ProviderManager.future)
    (show_id episode mode : string) :
  StronglySorted (PySort.key_le ProviderManager.key_of)
    (ProviderManager.get_all_links json_loads str_of w order show_id episode mode).
Proof.
  unfold ProviderManager.get_all_links, ProviderManager.get_all_links_run.
  destruct (ProviderManager.fetch_source_response _ _ _ _ _) as [[sr|]|e];
    cbn [snd try_except]; [|constructor..].
  rewrite sort_links_spec. destruct (forallb _ _); [|constructor].
  apply stable_sort_sorted.
Qed.

(** Every link that [get_all_links] returns carries the name of one of the
    four providers and the one format of that provider's extractor: mp4 for
    Wixmp, SharePoint and YouTube, m3u8 for HiAnime. *)
Theorem get_all_links_provider_formats
    (json_loads : string -> option (list (string * pyval))) (str_of : pyval -> string)
    (w : ProviderManager.world)
    (order : list ProviderManager.future -> list ProviderManager.future)
    (show_id episode mode : string) :
  (forall fs, order fs ≡ₚ fs) ->
  Forall (fun x : ProviderManager.link4 => (x.2, x.1.1.1) ∈ provider_formats)
    (ProviderManager.get_all_links json_loads str_of w order show_id episode mode).
Proof.
  intros Hperm.
  unfold ProviderManager.get_all_links, ProviderManager.get_all_links_run.
  destruct (ProviderManager.fetch_source_response _ _ _ _ _) as [[sr|]|e];
    cbn [snd try_except]; [|constructor..].
  rewrite sort_links_spec. destruct (forallb _ _); [|constructor].
  cbn [try_except]. rewrite stable_sort_perm. apply Forall_forall. intros x Hx.
  apply list_elem_of_In, in_flat_map in Hx as (f & Hf & Hx).
  apply list_elem_of_In in Hf, Hx. rewrite Hperm in Hf.
  apply (collected_formats json_loads f x); [|exact Hx].
  apply list_elem_of_In, in_map_iff in Hf as ([[k info] url] & <- & Ht).
  cbn [fst snd]. apply list_elem_of_In in Ht.
  exact (submitted_in_registry sr _ Ht).
Qed.

Lemma get_all_links_provider_formats_witness :
  (forall fs : list ProviderManager.future, rev fs ≡ₚ fs)
  /\ Forall (fun x : ProviderManager.link4 => (x.2, x.1.1.1) ∈ provider_formats)
       (ProviderManager.get_all_links Scenario.json_loads Scenario.str_of
          Scenario.two_providers (@rev _) "show" "1" "sub").
Proof.
  split; [intros fs; symmetry; apply Permutation_rev|].
  apply get_all_links_provider_formats.
  intros fs. symmetry. apply Permutation_rev.
Defined.

(** One call of [get_all_links] issues the metadata GET and at most four
    provider GETs, one per provider whose tag was found; every provider GET
    goes to a URL that starts with the fixed host, and none is issued when
    the metadata query fails or brings no sources. *)
Theorem get_all_links_requests_bounded
    (json_loads : string -> option (list (string * pyval))) (str_of : pyval -> string)
    (w : ProviderManager.world)
    (order : list ProviderManager.future -> list ProviderManager.future)
    (show_id episode mode : string) :
  exists rest,
    ProviderManager.requests_issued json_loads str_of w order show_id episode mode
      = ProviderManager.metadata_request :: rest
    /\ length rest <= 4
    /\ Forall (fun r => PyStr.startswith (ProviderManager.req_url r)
                          "https://allanime.day" = true) rest
    /\ ((forall sr, ProviderManager.fetch_source_response str_of w show_id episode mode
                    <> Ok (Some sr)) -> rest = []).
Proof.
  unfold ProviderManager.requests_issued, ProviderManager.get_all_links_run.
  destruct (ProviderManager.fetch_source_response _ _ _ _ _) as [[sr|]|e];
    eexists; (split; [reflexivity|]); cbn [length];
    try (split; [lia|]; split; [constructor|]; intros _; reflexivity).
  rewrite length_map. split; [apply submitted_at_most_four|]. split.
  - apply Forall_forall. intros r Hr.
    apply list_elem_of_In, in_map_iff in Hr as (t & <- & _).
    unfold ProviderManager.provider_request, PyStr.startswith.
    cbn [ProviderManager.req_url].
    change ("https://" +:+ ALLANIME_BASE +:+ t.2)
      with ("https://allanime.day" +:+ t.2).
    apply prefix_app.
  - intros Hno. by destruct (Hno sr).
Qed.

(** ** What one call does to the statistics *)

(** One call of [update_provider_stats] on the statistics it loaded.  The
    entries of the other providers are written back as they were loaded.
    When the save does not go through, and when the attempt count does
    not convert to a float, the statistics are what they were.  When the
    save goes through, one counter of the provider, the one of the
    outcome reported, is one more than in the loaded entry, the other is
    as loaded, and the time stamp is that of the call. *)
Theorem saved_call_updates_one_entry
    (providers : gmap string JSONDataManager.provider_data)
    (provider : string) (success : bool) (latency : float) (now : string)
    (saved : bool) :
  let old := JSONDataManager.loaded_entry now providers provider in
  let n := (JSONDataManager.success_count old + JSONDataManager.failure_count old + 1)%Z in
  let stored :=
    JSONDataManager.update_provider_stats now saved providers provider success latency in
  (forall q, q <> provider -> stored !! q = providers !! q)
  /\ (saved = false -> stored = providers)
  /\ ((1 < n)%Z ->
      JSONDataManager.float_of_int (n - 1) = None
      \/ JSONDataManager.float_of_int n = None ->
      stored = providers)
  /\ (saved = true ->
      ((n <= 1)%Z
       \/ (JSONDataManager.float_of_int (n - 1) <> None
           /\ JSONDataManager.float_of_int n <> None)) ->
      exists pd,
        stored !! provider = Some pd
        /\ JSONDataManager.success_count pd
           = (JSONDataManager.success_count old + if success then 1 else 0)%Z
        /\ JSONDataManager.failure_count pd
           = (JSONDataManager.failure_count old + if success then 0 else 1)%Z
        /\ JSONDataManager.last_used pd = now).
Proof.
  intros old n stored. subst stored.
  unfold JSONDataManager.update_provider_stats. fold old.
  assert (Htot : ((if success then JSONDataManager.success_count old + 1
                   else JSONDataManager.success_count old)
                  + (if success then JSONDataManager.failure_count old
                     else JSONDataManager.failure_count old + 1) = n)%Z)
    by (subst n; destruct success; lia).
  destruct (JSONDataManager.updated_entry now old success latency) as [pd|] eqn:Hpd.
  - split; [|split; [|split]].
    + intros q Hq. destruct saved; [by rewrite lookup_insert_ne|done].
    + by intros ->.
    + intros Hgt Hnone. exfalso. revert Hpd.
      unfold JSONDataManager.updated_entry. rewrite Htot.
      destruct (Z.gtb_spec n 1); [|lia].
      destruct Hnone as [-> | Hb]; [done|].
      destruct (JSONDataManager.float_of_int (n - 1)); [|done]. by rewrite Hb.
    + intros -> _. rewrite lookup_insert_eq. exists pd. split; [reflexivity|].
      apply updated_entry_total in Hpd as (_ & ? & ? & ?). done.
  - split; [done|]. split; [by destruct saved|]. split; [done|].
    intros _ Hok. exfalso. revert Hpd.
    unfold JSONDataManager.updated_entry. rewrite Htot.
    destruct (Z.gtb_spec n 1) as [Hgt|Hle]; [|done].
    destruct Hok as [?|[Ha Hb]]; [lia|].
    destruct (JSONDataManager.float_of_int (n - 1)); [|done].
    destruct (JSONDataManager.float_of_int n); done.
Qed.

(** ** Sorting by any key *)

Section SortByFacts.
Context {A K : Type} (lt : K -> K -> bool) (kf : A -> K).
Hypothesis lt_asym : forall a b, lt a b = true -> lt b a = false.
Hypothesis ge_trans : forall a b c, lt b a = false -> lt c b = false -> lt c a = false.

Lemma insert_by_perm x l : PyList.insert_by lt kf x l ≡ₚ x :: l.
Proof.
  induction l as [|y r IH]; simpl; [done|].
  destruct (lt (kf y) (kf x)); [|done].
  rewrite IH. apply Permutation_swap.
Qed.

Lemma sort_by_perm l : PyList.sort_by lt kf l ≡ₚ l.
Proof.
  induction l as [|x r IH]; simpl; [done|].
  by rewrite insert_by_perm, IH.
Qed.

Lemma insert_by_sorted x l :
  StronglySorted (PyList.not_after lt kf) l ->
  StronglySorted (PyList.not_after lt kf) (PyList.insert_by lt kf x l).
Proof.
  induction 1 as [|y r Hr IH Hy]; simpl.
  - repeat constructor.
  - destruct (lt (kf y) (kf x)) eqn:Hlt.
    + constructor; [exact IH|].
      rewrite insert_by_perm. constructor; [|exact Hy].
      by apply lt_asym.
    + constructor; [by constructor|].
      constructor; [exact Hlt|].
      eapply Forall_impl; [exact Hy|].
      intros z Hz. unfold PyList.not_after in *. by eapply ge_trans.
Qed.

Lemma sort_by_sorted l : StronglySorted (PyList.not_after lt kf) (PyList.sort_by lt kf l).
Proof.
  induction l as [|x r IH]; simpl; [constructor|].
  by apply insert_by_sorted.
Qed.

End SortByFacts.

Lemma sorted_take {A : Type} (R : A -> A -> Prop) (n : nat) (l : list A) :
  StronglySorted R l -> StronglySorted R (take n l).
Proof.
  intros H. revert n. induction H as [|x r Hr IH Hx]; intros [|n]; simpl;
    try constructor; [apply IH|].
  eapply Forall_forall. intros y Hy. rewrite Forall_forall in Hx. apply Hx.
  exact (sublist_subseteq _ _ (sublist_take r n) y Hy).
Qed.

(** *** The order of texts *)

Lemma ltb_cons c1 s1 c2 s2 :
  String.ltb (String c1 s1) (String c2 s2) =
  match Ascii.compare c1 c2 with
  | Eq => String.ltb s1 s2
  | Lt => true
  | Gt => false
  end.
Proof. unfold String.ltb. simpl. by destruct (Ascii.compare c1 c2). Qed.

Lemma string_ltb_asym a b : String.ltb a b = true -> String.ltb b a = false.
Proof.
  unfold String.ltb. rewrite (String.compare_antisym a b).
  by destruct (String.compare b a).
Qed.

Lemma string_ge_trans a b c :
  String.ltb a b = false -> String.ltb b c = false -> String.ltb a c = false.
Proof.
  revert b c. induction a as [|x a IH]; intros [|y b] [|z c]; try done.
  rewrite !ltb_cons. unfold Ascii.compare.
  destruct (N.compare_spec (N_of_ascii x) (N_of_ascii y)),
           (N.compare_spec (N_of_ascii y) (N_of_ascii z)),
           (N.compare_spec (N_of_ascii x) (N_of_ascii z));
    try done; try lia.
  apply IH.
Qed.

(** ** The viewing history *)

Section HistoryFacts.
Import JSONHistory.

Lemma same_show_key id m e : same_show id m e = true <-> show_key e = (id, m).
Proof.
  unfold same_show, show_key. rewrite andb_true_iff, !String.eqb_eq.
  split; [by intros [-> ->]|by intros [= -> ->]].
Qed.

Lemma find_index_some {A : Type} (p : A -> bool) (l : list A) (i : nat) :
  PyList.find_index p l = Some i -> exists x, l !! i = Some x /\ p x = true.
Proof.
  revert i. induction l as [|y r IH]; intros i; [done|]. cbn [PyList.find_index].
  destruct (p y) eqn:Hy.
  - intros [= <-]. by exists y.
  - destruct (PyList.find_index p r) as [j|]; [|done].
    intros [= <-]. destruct (IH j eq_refl) as (x & Hx & Hp). by exists x.
Qed.

Lemma find_index_none {A : Type} (p : A -> bool) (l : list A) :
  PyList.find_index p l = None -> Forall (fun x => p x = false) l.
Proof.
  induction l as [|y r IH]; [constructor|]. cbn [PyList.find_index].
  destruct (p y) eqn:Hy; [done|].
  destruct (PyList.find_index p r); [done|]. intros _. constructor; [done|by apply IH].
Qed.

Lemma newest_first_sorted l :
  StronglySorted newest_first (PyList.sort_by_reverse String.ltb last_watched l).
Proof.
  apply (sort_by_sorted (fun a b => String.ltb b a) last_watched).
  - intros a b. apply string_ltb_asym.
  - intros a b c H1 H2. by eapply string_ge_trans.
Qed.

Lemma newest_first_perm l : PyList.sort_by_reverse String.ltb last_watched l ≡ₚ l.
Proof. apply sort_by_perm. Qed.

Variables (now : string) (history : list history_entry).
Variables (id name ep md : string) (total : Z) (q pr : option string).

#[local] Abbreviation updated := (updated_history now history id name ep md total q pr).
#[local] Abbreviation added saved :=
  (add_history now saved history id name ep md total q pr).

Lemma add_history_true saved :
  (added saved).2 = true ->
  (added saved).1 = take 100 (PyList.sort_by_reverse String.ltb last_watched updated).
Proof.
  unfold add_history. destruct (_ || _); [done|]. by destruct saved.
Qed.

Lemma add_history_false saved : (added saved).2 = false -> (added saved).1 = history.
Proof.
  unfold add_history. destruct (_ || _); [done|]. by destruct saved.
Qed.

(** The keys of the updated history, when no two entries had one key. *)
Lemma updated_history_keys :
  NoDup (show_key <$> history) -> NoDup (show_key <$> updated).
Proof.
  intros Hnd. unfold updated_history.
  destruct (PyList.find_index _ history) as [i|] eqn:Hfind.
  - destruct (find_index_some _ _ _ Hfind) as (old & Hold & Hsame).
    rewrite Hold, list_fmap_insert.
    apply same_show_key in Hsame.
    rewrite list_insert_id; [done|].
    rewrite list_lookup_fmap, Hold. cbn. by rewrite Hsame.
  - apply find_index_none in Hfind. rewrite fmap_cons. constructor; [|done].
    intros Hin. apply list_elem_of_fmap in Hin as (e & He & Hin).
    rewrite Forall_forall in Hfind. specialize (Hfind e Hin).
    assert (same_show id md e = true) by (by apply same_show_key).
    congruence.
Qed.

End HistoryFacts.

(** A successful [add_history] leaves at most 100 entries, newest first:
    no entry is followed by one with a later time stamp. *)
Theorem add_history_bounded_and_sorted
    (now : string) (saved : bool) (history : list JSONHistory.history_entry)
    (anime_id anime_name episode mode : string) (total_episodes : Z)
    (quality provider : option string) :
  let r := JSONHistory.add_history now saved history anime_id anime_name episode mode
             total_episodes quality provider in
  r.2 = true ->
  length r.1 <= 100 /\ StronglySorted JSONHistory.newest_first r.1.
Proof.
  intros r Hr. subst r. rewrite add_history_true by done. split.
  - rewrite length_take. lia.
  - apply sorted_take, newest_first_sorted.
Qed.

(** [add_history] keeps one entry per show and mode: if no two entries of
    the stored history are for the same show and mode, the same holds
    afterwards, whether the call succeeds or not. *)
Theorem add_history_one_entry_per_show
    (now : string) (saved : bool) (history : list JSONHistory.history_entry)
    (anime_id anime_name episode mode : string) (total_episodes : Z)
    (quality provider : option string) :
  NoDup (JSONHistory.show_key <$> history) ->
  NoDup (JSONHistory.show_key <$>
           (JSONHistory.add_history now saved history anime_id anime_name episode mode
              total_episodes quality provider).1).
Proof.
  intros Hnd.
  destruct (JSONHistory.add_history now saved history anime_id anime_name episode mode
              total_episodes quality provider).2 eqn:Hr.
  - rewrite add_history_true by done. rewrite fmap_take.
    eapply sublist_NoDup; [|apply sublist_take].
    rewrite newest_first_perm. by apply updated_history_keys.
  - by rewrite add_history_false.
Qed.

Lemma find_index_find {A : Type} (p : A -> bool) (l : list A) :
  List.find p l = PyList.find_index p l ≫= fun i => l !! i.
Proof.
  induction l as [|y r IH]; [done|]. cbn [List.find PyList.find_index].
  destruct (p y); [done|]. rewrite IH.
  by destruct (PyList.find_index p r).
Qed.

(** If one element is later than all the others, sorting puts it first. *)
Lemma newest_comes_first (l others : list JSONHistory.history_entry)
    (e : JSONHistory.history_entry) :
  l ≡ₚ e :: others ->
  Forall (fun o => String.ltb (JSONHistory.last_watched o)
                     (JSONHistory.last_watched e) = true) others ->
  exists rest,
    PyList.sort_by_reverse String.ltb JSONHistory.last_watched l = e :: rest.
Proof.
  intros Hl Hold.
  pose proof (newest_first_sorted l) as Hs. pose proof (newest_first_perm l) as Hp.
  destruct (PyList.sort_by_reverse String.ltb JSONHistory.last_watched l) as [|x t].
  { rewrite Hl in Hp. by apply Permutation_nil_cons in Hp. }
  inversion Hs as [|? ? _ Hx]; subst.
  assert (He : e ∈ x :: t) by (rewrite Hp, Hl; left).
  assert (Hxl : x ∈ e :: others) by (rewrite <- Hl, <- Hp; left).
  apply elem_of_cons in He as [->|He]; [by exists t|].
  apply elem_of_cons in Hxl as [->|Hxl]; [by exists t|].
  rewrite Forall_forall in Hx, Hold.
  specialize (Hx e He). specialize (Hold x Hxl).
  unfold JSONHistory.newest_first in Hx. congruence.
Qed.

(** When the call is valid and saved, no two stored entries are for one
    show and mode, and every entry for another show or mode has an earlier
    time stamp than the call, the entry of the call is the first of the
    history afterwards; it has the fields of the call and the progress,
    rating and notes of the entry it replaces, if there was one. *)
Theorem add_history_puts_entry_first
    (now : string) (history : list JSONHistory.history_entry)
    (anime_id anime_name episode mode : string) (total_episodes : Z)
    (quality provider : option string) :
  anime_id <> "" -> anime_name <> "" -> episode <> "" ->
  NoDup (JSONHistory.show_key <$> history) ->
  (forall e, e ∈ history -> JSONHistory.show_key e <> (anime_id, mode) ->
             String.ltb (JSONHistory.last_watched e) now = true) ->
  exists rest,
    JSONHistory.add_history now true history anime_id anime_name episode mode
      total_episodes quality provider
    = (JSONHistory.new_entry now anime_id anime_name episode mode total_episodes
         quality provider
         (List.find (JSONHistory.same_show anime_id mode) history) :: rest,
       true).
Proof.
  intros Hid Hname Hep Hnd Holder.
  set (e := JSONHistory.new_entry now anime_id anime_name episode mode total_episodes
              quality provider
              (List.find (JSONHistory.same_show anime_id mode) history)).
  assert (Hsplit : exists others,
             JSONHistory.updated_history now history anime_id anime_name episode mode
               total_episodes quality provider ≡ₚ e :: others
             /\ Forall (fun o => String.ltb (JSONHistory.last_watched o)
                                   (JSONHistory.last_watched e) = true) others).
  { subst e. rewrite find_index_find. unfold JSONHistory.updated_history.
    destruct (PyList.find_index _ history) as [i|] eqn:Hfind; cbn [mbind option_bind].
    - destruct (find_index_some _ _ _ Hfind) as (old & Hold & Hsame).
      rewrite Hold. apply same_show_key in Hsame.
      exists (take i history ++ drop (S i) history)%list. split.
      + rewrite insert_take_drop by (by eapply lookup_lt_Some).
        symmetry. apply Permutation_middle.
      + apply Forall_forall. intros o Ho. cbn [JSONHistory.last_watched].
        assert (Hj : exists j, history !! j = Some o /\ j <> i).
        { apply elem_of_app in Ho as [Ho|Ho].
          - apply elem_of_take in Ho as (j & Hj & Hlt). exists j. split; [done|lia].
          - apply list_elem_of_lookup in Ho as (j & Hj). rewrite lookup_drop in Hj.
            exists (S i + j). split; [done|lia]. }
        destruct Hj as (j & Hj & Hne).
        apply Holder; [by eapply list_elem_of_lookup_2|].
        intros Hkey. apply Hne.
        eapply (NoDup_lookup _ j i (anime_id, mode) Hnd);
          rewrite list_lookup_fmap; [rewrite Hj|rewrite Hold]; cbn; congruence.
    - exists history. split; [done|].
      apply find_index_none in Hfind. rewrite Forall_forall in Hfind.
      apply Forall_forall. intros o Ho. cbn [JSONHistory.last_watched].
      apply Holder; [exact Ho|].
      intros Hkey. apply same_show_key in Hkey. specialize (Hfind o Ho). congruence. }
  destruct Hsplit as (others & Hperm & Hothers).
  destruct (newest_comes_first _ _ _ Hperm Hothers) as (rest & Hsorted).
  exists (take 99 rest). unfold JSONHistory.add_history.
  apply String.eqb_neq in Hid, Hname, Hep. rewrite Hid, Hname, Hep. cbn [orb].
  rewrite Hsorted. reflexivity.
Qed.

Lemma add_history_bounded_and_sorted_witness :
  let r := JSONHistory.add_history HistoryScenario.later true HistoryScenario.stored
             "a1" "Naruto" "4" "sub" 220 (Some "720p") None in
  r.2 = true /\ length r.1 <= 100 /\ StronglySorted JSONHistory.newest_first r.1.
Proof.
  intros r. split; [reflexivity|].
  exact (add_history_bounded_and_sorted HistoryScenario.later true HistoryScenario.stored
           "a1" "Naruto" "4" "sub" 220 (Some "720p") None eq_refl).
Defined.

Lemma add_history_one_entry_per_show_witness :
  NoDup (JSONHistory.show_key <$> HistoryScenario.stored)
  /\ NoDup (JSONHistory.show_key <$>
              (JSONHistory.add_history HistoryScenario.later true HistoryScenario.stored
                 "a1" "Naruto" "4" "sub" 220 (Some "720p") None).1).
Proof.
  assert (H : NoDup (JSONHistory.show_key <$> HistoryScenario.stored)) by by_evaluation.
  split; [exact H|]. by apply add_history_one_entry_per_show.
Defined.

Lemma add_history_puts_entry_first_witness :
  "a1" <> "" /\ "Naruto" <> "" /\ "4" <> ""
  /\ NoDup (JSONHistory.show_key <$> HistoryScenario.stored)
  /\ (forall e, e ∈ HistoryScenario.stored ->
        JSONHistory.show_key e <> ("a1", "sub") ->
        String.ltb (JSONHistory.last_watched e) HistoryScenario.later = true)
  /\ exists rest,
       JSONHistory.add_history HistoryScenario.later true HistoryScenario.stored
         "a1" "Naruto" "4" "sub" 220 (Some "720p") None
       = (JSONHistory.new_entry HistoryScenario.later "a1" "Naruto" "4" "sub" 220
            (Some "720p") None (Some HistoryScenario.naruto) :: rest, true).
Proof.
  assert (Hnd : NoDup (JSONHistory.show_key <$> HistoryScenario.stored)) by by_evaluation.
  assert (Hold : forall e, e ∈ HistoryScenario.stored ->
            JSONHistory.show_key e <> ("a1", "sub") ->
            String.ltb (JSONHistory.last_watched e) HistoryScenario.later = true).
  { intros e He Hk. unfold HistoryScenario.stored in He.
    apply elem_of_cons in He as [->|He]; [reflexivity|].
    apply elem_of_cons in He as [->|He]; [by destruct Hk|].
    by apply elem_of_nil in He. }
  split; [discriminate|]. split; [discriminate|]. split; [discriminate|].
  split; [exact Hnd|]. split; [exact Hold|].
  exact (add_history_puts_entry_first HistoryScenario.later HistoryScenario.stored
           "a1" "Naruto" "4" "sub" 220 (Some "720p") None
           ltac:(discriminate) ltac:(discriminate) ltac:(discriminate) Hnd Hold).
Defined.

Lemma continue_loop_spec (py_int : string -> option Z) (limit found : Z)
    (history : list JSONHistory.history_entry) :
  let r := JSONHistory.continue_loop py_int limit found history in
  r `sublist_of` history
  /\ Forall (fun e => exists current,
               py_int (JSONHistory.episode e) = Some current
               /\ (current < JSONHistory.total_episodes e)%Z) r
  /\ (Z.of_nat (length r) <= Z.max (limit - found) 1)%Z.
Proof.
  revert found. induction history as [|entry rest IH]; intros found.
  { cbn. split; [constructor|]. split; [constructor|lia]. }
  cbn [JSONHistory.continue_loop].
  destruct (py_int (JSONHistory.episode entry)) as [current|] eqn:Hint.
  - destruct (_ && _) eqn:Hcond.
    + apply andb_true_iff in Hcond as [Hlt%Z.ltb_lt _].
      destruct (found + 1 >=? limit)%Z eqn:Hlim.
      * cbn. repeat split.
        -- apply sublist_skip, sublist_nil_l.
        -- constructor; [by exists current|constructor].
        -- lia.
      * destruct (IH (found + 1)%Z) as (Hs & Hf & Hl). cbn. repeat split.
        -- by apply sublist_skip.
        -- constructor; [by exists current|done].
        -- lia.
    + destruct (IH found) as (Hs & Hf & Hl). repeat split; [by apply sublist_cons|done..].
  - destruct (IH found) as (Hs & Hf & Hl). repeat split; [by apply sublist_cons|done..].
Qed.

(** [get_continue_options] returns entries of the history in their order,
    each with an episode number that parses and is below the total number
    of episodes, so that a next episode exists; it returns at most [limit]
    of them, and at most one when [limit] is below one. *)
Theorem continue_options_have_a_next_episode (py_int : string -> option Z)
    (history : list JSONHistory.history_entry) (limit : Z) :
  let r := JSONHistory.get_continue_options py_int history limit in
  r `sublist_of` history
  /\ Forall (fun e => exists current,
               py_int (JSONHistory.episode e) = Some current
               /\ (current + 1 <= JSONHistory.total_episodes e)%Z) r
  /\ (Z.of_nat (length r) <= Z.max limit 1)%Z.
Proof.
  destruct (continue_loop_spec py_int limit 0 history) as (Hs & Hf & Hl).
  unfold JSONHistory.get_continue_options. repeat split; [done| |lia].
  eapply Forall_impl; [exact Hf|]. intros e (c & Hc & Hlt). exists c. split; [done|lia].
Qed.

(** ** File names *)

Lemma chars_in_cons Q c s : chars_in Q (String c s) <-> Q c /\ chars_in Q s.
Proof. unfold chars_in. cbn [list_ascii_of_string]. apply Forall_cons. Qed.

Lemma chars_in_nil Q : chars_in Q "".
Proof. constructor. Qed.

Lemma chars_in_and (Q1 Q2 : ascii -> Prop) s :
  chars_in Q1 s -> chars_in Q2 s -> chars_in (fun c => Q1 c /\ Q2 c) s.
Proof.
  induction s as [|c s IH]; [intros; apply chars_in_nil|].
  rewrite !chars_in_cons. intros [? ?] [? ?]. split; [done|by apply IH].
Qed.

Lemma chars_in_impl (Q1 Q2 : ascii -> Prop) s :
  (forall c, Q1 c -> Q2 c) -> chars_in Q1 s -> chars_in Q2 s.
Proof. intros H Hs. eapply Forall_impl; [exact Hs|exact H]. Qed.

(** Replacing a character leaves no occurrence of it. *)
Lemma replace_char_removes (c : ascii) (s : string) :
  c <> Util.underscore ->
  chars_in (fun x => x <> c) (PyStr.replace (String c "") "_" s).
Proof.
  intros Hc. unfold PyStr.replace. induction s as [|x s IH]; [apply chars_in_nil|].
  rewrite replace_from_step, prefix_cons, prefix_empty, andb_true_r.
  destruct (Ascii.eqb_spec c x) as [->|Hne].
  - cbn [String.length Nat.sub]. rewrite app_cons, app_empty.
    apply chars_in_cons. split; [|exact IH]. intros Heq. by apply Hc.
  - apply chars_in_cons. split; [by intros ->|exact IH].
Qed.

Lemma replace_chars_remove (cs : list ascii) (s : string) (d : ascii) :
  d <> Util.underscore ->
  d ∈ cs \/ chars_in (fun x => x <> d) s ->
  chars_in (fun x => x <> d)
    (foldl (fun name char => PyStr.replace (String char "") "_" name) s cs).
Proof.
  intros Hd. revert s. induction cs as [|c cs IH]; intros s H; cbn [foldl].
  - destruct H as [H|H]; [by apply elem_of_nil in H|done].
  - apply IH. destruct (decide (d = c)) as [->|Hne].
    + right. by apply replace_char_removes.
    + destruct H as [H|H].
      * left. apply elem_of_cons in H as [H|H]; [done|exact H].
      * right. apply chars_in_replace; [|exact H].
        apply chars_in_cons. split; [|apply chars_in_nil].
        intros Heq. apply Hd. by rewrite <- Heq.
Qed.

(** A substitution brings in characters of the replacement only. *)
Lemma sub_chars Q r repl skip s :
  chars_in Q repl -> chars_in Q s -> chars_in Q (PyText.sub_from r repl skip s).
Proof.
  intros Hrepl. revert skip. induction s as [|c s IH]; intros skip Hs;
    [apply chars_in_nil|].
  apply chars_in_cons in Hs as [Hc Hs]. cbn [PyText.sub_from].
  destruct skip as [|k]; [|by apply IH].
  destruct (Re.match_here false r (String c s)) as [[rest cs]|].
  - destruct (_ =? 0)%nat.
    + apply chars_in_cons. split; [done|by apply IH].
    + apply chars_in_app; [done|by apply IH].
  - apply chars_in_cons. split; [done|by apply IH].
Qed.

(** Substituting nothing for the characters of a set removes them all. *)
Lemma sub_class_removes items s :
  chars_in (fun c => Re.items_match false items c = false)
    (PyText.sub (Re.Cls false items) "" s).
Proof.
  unfold PyText.sub. induction s as [|c s IH]; [apply chars_in_nil|].
  cbn [PyText.sub_from]. unfold Re.match_here. cbn [Re.rmatch Re.one xorb].
  destruct (Re.items_match false items c) eqn:Hc.
  - cbn [String.length].
    replace (S (String.length s) - String.length s) with 1 by lia.
    cbn [Nat.eqb Nat.sub]. by rewrite app_empty.
  - apply chars_in_cons. by split.
Qed.

Lemma lstrip_by_chars Q p s : chars_in Q s -> chars_in Q (PyText.lstrip_by p s).
Proof.
  induction s as [|c s IH]; [done|]. intros Hs. cbn [PyText.lstrip_by].
  destruct (p c); [|done]. apply IH. by apply chars_in_cons in Hs as [_ ?].
Qed.

Lemma rstrip_by_chars Q p s : chars_in Q s -> chars_in Q (PyText.rstrip_by p s).
Proof.
  induction s as [|c s IH]; [done|]. intros [Hc Hs]%chars_in_cons.
  cbn [PyText.rstrip_by]. specialize (IH Hs).
  destruct (PyText.rstrip_by p s).
  - destruct (p c); [apply chars_in_nil|]. apply chars_in_cons. by split.
  - apply chars_in_cons. by split.
Qed.

Lemma lstrip_chars Q s : chars_in Q s -> chars_in Q (PyStr.lstrip s).
Proof.
  induction s as [|c s IH]; [done|]. intros Hs. cbn [PyStr.lstrip].
  destruct (PyStr.isspace c); [|done]. apply IH. by apply chars_in_cons in Hs as [_ ?].
Qed.

Lemma rstrip_chars Q s : chars_in Q s -> chars_in Q (PyStr.rstrip s).
Proof.
  induction s as [|c s IH]; [done|]. intros [Hc Hs]%chars_in_cons.
  cbn [PyStr.rstrip]. specialize (IH Hs).
  destruct (PyStr.rstrip s).
  - destruct (PyStr.isspace c); [apply chars_in_nil|]. apply chars_in_cons. by split.
  - apply chars_in_cons. by split.
Qed.

Lemma take_chars Q n s : chars_in Q s -> chars_in Q (PyStr.take n s).
Proof.
  revert n. induction s as [|c s IH]; intros [|n]; try (intros; apply chars_in_nil).
  intros [Hc Hs]%chars_in_cons. cbn [PyStr.take]. apply chars_in_cons.
  split; [done|by apply IH].
Qed.

Lemma before_last_chars Q sep s h :
  PyText.before_last sep s = Some h -> chars_in Q s -> chars_in Q h.
Proof.
  revert h. induction s as [|c s IH]; intros h; [done|].
  cbn [PyText.before_last]. intros Hh [Hc Hs]%chars_in_cons.
  destruct (PyText.before_last sep s) as [h'|].
  - injection Hh as <-. apply chars_in_cons. split; [done|by apply IH].
  - destruct (Ascii.eqb c sep); [|done]. injection Hh as <-. apply chars_in_nil.
Qed.

Lemma before_last_length sep s h :
  PyText.before_last sep s = Some h -> String.length h <= String.length s.
Proof.
  revert h. induction s as [|c s IH]; intros h; [done|].
  cbn [PyText.before_last].
  destruct (PyText.before_last sep s) as [h'|].
  - intros [= <-]. specialize (IH h' eq_refl). simpl. lia.
  - destruct (Ascii.eqb c sep); [|done]. intros [= <-]. simpl. lia.
Qed.

Lemma take_length n s : String.length (PyStr.take n s) <= n.
Proof.
  revert n. induction s as [|c s IH]; intros [|n]; simpl; try lia.
  specialize (IH n). lia.
Qed.

(** The name that [sanitize_filename] returns is never empty and never
    longer than 200 characters. *)
Theorem sanitize_filename_bounded (filename : string) :
  Util.sanitize_filename filename <> ""
  /\ String.length (Util.sanitize_filename filename) <= 200.
Proof.
  cbv beta zeta delta [Util.sanitize_filename].
  match goal with
  | |- context [if (200 <? String.length ?s)%nat then _ else _] => set (stripped := s)
  end.
  destruct (200 <? String.length stripped)%nat eqn:Hlen.
  - set (cut := PyText.rsplit1_head Util.underscore (PyStr.take 200 stripped)).
    assert (Hcut : String.length cut <= 200).
    { subst cut. unfold PyText.rsplit1_head.
      pose proof (take_length 200 stripped) as Ht.
      destruct (PyText.before_last _ _) as [h|] eqn:Hh; cbn [default from_option id];
        [apply before_last_length in Hh; lia|exact Ht]. }
    destruct (String.eqb_spec cut ""); [split; [done|simpl; lia]|by split].
  - apply Nat.ltb_ge in Hlen.
    destruct (String.eqb_spec stripped ""); [split; [done|simpl; lia]|by split].
Qed.

(** The name that [sanitize_filename] returns has none of the characters
    that are invalid in a file name (the ones of [invalid_chars]) and no
    control character. *)
Theorem sanitize_filename_safe (filename : string) :
  chars_in (fun c => Util.safe_char c = true) (Util.sanitize_filename filename).
Proof.
  set (Q := fun c => Util.safe_char c = true).
  assert (Hspace : chars_in Q " ") by by_evaluation.
  assert (Hunder : chars_in Q "_") by by_evaluation.
  assert (Hname : chars_in Q "unnamed") by by_evaluation.
  cbv beta zeta delta [Util.sanitize_filename].
  set (replaced := foldl _ filename Util.invalid_chars).
  set (cleaned := PyText.sub (Re.Cls false Util.control_items) "" replaced).
  assert (Hvalid : chars_in (fun c => ~ c ∈ Util.invalid_chars) replaced).
  { assert (Hall : Forall (fun d => chars_in (fun x => x <> d) replaced)
                     Util.invalid_chars).
    { apply Forall_forall. intros d Hd. apply replace_chars_remove; [|by left].
      intros ->. revert Hd. apply (bool_decide_unpack _). vm_compute. exact I. }
    clearbody replaced. clear -Hall.
    induction replaced as [|x s IH]; [apply chars_in_nil|].
    apply chars_in_cons. split.
    - intros Hx. rewrite Forall_forall in Hall.
      specialize (Hall x Hx). by apply chars_in_cons in Hall as [? _].
    - apply IH. eapply Forall_impl; [exact Hall|].
      intros d Hd. by apply chars_in_cons in Hd as [_ ?]. }
  assert (Hclean : chars_in Q cleaned).
  { eapply chars_in_impl;
      [|apply chars_in_and;
         [apply (sub_chars _ _ "" 0 replaced (chars_in_nil _) Hvalid)
         |apply (sub_class_removes Util.control_items replaced)]].
    intros c [H1 H2]. unfold Q, Util.safe_char. rewrite H2.
    by rewrite bool_decide_eq_false_2. }
  clearbody cleaned. clear -Hclean Hspace Hunder Hname.
  match goal with
  | |- context [if (200 <? String.length ?s)%nat then _ else _] => set (stripped := s)
  end.
  assert (Hstripped : chars_in Q stripped).
  { subst stripped. unfold PyStr.strip, PyText.strip_by.
    apply rstrip_chars, lstrip_chars, rstrip_by_chars, lstrip_by_chars.
    unfold PyText.sub. by do 2 (apply sub_chars; [done|]). }
  clearbody stripped.
  assert (Hcut : chars_in Q (PyText.rsplit1_head Util.underscore (PyStr.take 200 stripped))).
  { unfold PyText.rsplit1_head.
    destruct (PyText.before_last _ _) as [h|] eqn:Hh; cbn [default from_option id].
    - eapply before_last_chars; [exact Hh|]. by apply take_chars.
    - by apply take_chars. }
  destruct (200 <? String.length stripped)%nat;
    match goal with |- context [String.eqb ?s ""] => destruct (String.eqb s "") end;
    done.
Qed.

(** ** The choice of the media player *)

Section PlayerPath.
Import ConfigManager.

Lemma try_player_sound cfg ov n other r :
  try_player cfg ov n other = Ok (Some r) ->
  (ov = Ok r.1 /\ r.2 = n /\ usable cfg r.1 = Ok true) \/ other = Ok (Some r).
Proof.
  unfold try_player. destruct ov as [p|e]; cbn; [|done].
  destruct (usable cfg p) as [[|]|e] eqn:Hu; cbn; [|by right|done].
  intros [= <-]. left. by cbn.
Qed.

Lemma preferred_path_sound cfg r : preferred_path cfg = Ok (Some r) -> chosen cfg r.
Proof.
  unfold preferred_path, chosen. destruct (preferred_player cfg) as [pref|e]; cbn; [|done].
  destruct (String.eqb _ _); intros H;
    apply try_player_sound in H as [(? & ? & ?)|H]; try (split; [done|]; by eauto);
    apply try_player_sound in H as [(? & ? & ?)|H]; try (split; [done|]; by eauto);
    done.
Qed.

Lemma try_player_all cfg p n other found :
  usable cfg p = Ok found ->
  try_player cfg (Ok p) n other = if found then Ok (Some (p, n)) else other.
Proof. intros H. unfold try_player. cbn. rewrite H. reflexivity. Qed.

End PlayerPath.

(** A player that [get_player_path] returns is one of the two configured
    ones under its own name, and its path is not empty and exists. *)
Theorem player_path_is_usable (cfg : ConfigManager.player_config)
    (force_player : option string) (path player_name : string) :
  ConfigManager.get_player_path cfg force_player = Ok (Some (path, player_name)) ->
  path <> "" /\ ConfigManager.path_exists cfg path = Ok true
  /\ ((player_name = "VLC" /\ ConfigManager.vlc_path cfg = Ok path)
      \/ (player_name = "MPV" /\ ConfigManager.mpv_path cfg = Ok path)).
Proof.
  intros H.
  assert (Hc : chosen cfg (path, player_name)).
  { unfold ConfigManager.get_player_path in H.
    destruct force_player as [fp|]; [|by apply preferred_path_sound].
    destruct (String.eqb fp ""); [by apply preferred_path_sound|].
    destruct (String.eqb (PyText.lower fp) "vlc").
    { apply try_player_sound in H as [(? & ? & ?)|H];
        [split; [done|]; by left|by apply preferred_path_sound]. }
    destruct (String.eqb (PyText.lower fp) "mpv").
    { apply try_player_sound in H as [(? & ? & ?)|H];
        [split; [done|]; by right|by apply preferred_path_sound]. }
    by apply preferred_path_sound. }
  destruct Hc as [Hu Hn]. unfold ConfigManager.usable in Hu. cbn [fst snd] in *.
  destruct (String.eqb path "") eqn:Hne; [discriminate Hu|].
  apply String.eqb_neq in Hne. done.
Qed.

(** When the three options can be read and [exists] returns for the two
    configured paths, [get_player_path] returns normally, and it returns
    no player exactly when neither configured path is usable: whichever
    player is forced or preferred, an available one is found. *)
Theorem player_found_when_available (cfg : ConfigManager.player_config)
    (force_player : option string) (vlc mpv preferred : string)
    (vlc_found mpv_found : bool) :
  ConfigManager.vlc_path cfg = Ok vlc ->
  ConfigManager.mpv_path cfg = Ok mpv ->
  ConfigManager.preferred_player cfg = Ok preferred ->
  ConfigManager.usable cfg vlc = Ok vlc_found ->
  ConfigManager.usable cfg mpv = Ok mpv_found ->
  exists r,
    ConfigManager.get_player_path cfg force_player = Ok r
    /\ (r = None <-> vlc_found = false /\ mpv_found = false).
Proof.
  intros Hv Hm Hp Huv Hum.
  unfold ConfigManager.get_player_path, ConfigManager.preferred_path.
  rewrite Hv, Hm, Hp. cbn [mbind result_bind].
  rewrite !(try_player_all cfg vlc _ _ vlc_found Huv),
    !(try_player_all cfg mpv _ _ mpv_found Hum).
  destruct vlc_found, mpv_found;
    destruct force_player as [fp|];
    repeat match goal with
      | |- context [String.eqb ?a ?b] => destruct (String.eqb a b)
      end;
    eexists; (split; [reflexivity|]); split; intros H; try done; by destruct H.
Qed.

(** When [exists] raises for the path of the player that is tried first,
    [get_player_path] raises too: nothing in it catches the exception. *)
Lemma player_path_raises (cfg : ConfigManager.player_config)
    (mpv : string) (e : pyexc) :
  ConfigManager.preferred_player cfg = Ok "mpv" ->
  ConfigManager.mpv_path cfg = Ok mpv ->
  ConfigManager.usable cfg mpv = Raise e ->
  ConfigManager.get_player_path cfg None = Raise e.
Proof.
  intros Hp Hm Hu. unfold ConfigManager.get_player_path, ConfigManager.preferred_path.
  rewrite Hp, Hm. cbn. unfold ConfigManager.try_player. cbn. rewrite Hu. reflexivity.
Qed.

Lemma player_path_is_usable_witness :
  ConfigManager.get_player_path PlayerScenario.only_vlc None
    = Ok (Some ("/usr/bin/vlc", "VLC"))
  /\ "/usr/bin/vlc" <> ""
  /\ ConfigManager.path_exists PlayerScenario.only_vlc "/usr/bin/vlc" = Ok true.
Proof.
  split; [reflexivity|].
  destruct (player_path_is_usable PlayerScenario.only_vlc None "/usr/bin/vlc" "VLC"
              eq_refl) as (H1 & H2 & _).
  split; assumption.
Defined.

Lemma player_found_when_available_witness :
  ConfigManager.vlc_path PlayerScenario.only_vlc = Ok "/usr/bin/vlc"
  /\ ConfigManager.mpv_path PlayerScenario.only_vlc = Ok ""
  /\ ConfigManager.preferred_player PlayerScenario.only_vlc = Ok "mpv"
  /\ ConfigManager.usable PlayerScenario.only_vlc "/usr/bin/vlc" = Ok true
  /\ ConfigManager.usable PlayerScenario.only_vlc "" = Ok false
  /\ exists r,
       ConfigManager.get_player_path PlayerScenario.only_vlc (Some "MPV") = Ok r
       /\ (r = None <-> true = false /\ false = false).
Proof.
  split; [reflexivity|]. split; [reflexivity|]. split; [reflexivity|].
  split; [reflexivity|]. split; [reflexivity|].
  exact (player_found_when_available PlayerScenario.only_vlc (Some "MPV")
           "/usr/bin/vlc" "" "mpv" true false eq_refl eq_refl eq_refl eq_refl eq_refl).
Defined.

(** ** The download records *)

(** An element that no other element is later than goes first when it is
    at the front before the sort. *)
Lemma insert_by_front {A K : Type} (lt : K -> K -> bool) (kf : A -> K)
    (x : A) (l : list A) :
  Forall (fun y => lt (kf y) (kf x) = false) l ->
  PyList.insert_by lt kf x l = x :: l.
Proof.
  intros H. destruct H as [|y r Hy Hr]; [reflexivity|].
  cbn [PyList.insert_by]. by rewrite Hy.
Qed.

(** When the call is valid and saved and no stored record has a later date
    than the call, [add_download] puts the new record first, also before
    records of the same date, keeps the others newest first behind it, and
    keeps at most 200 records. *)
Theorem add_download_puts_record_first
    (now : string) (downloads : list JSONDownloads.download_entry)
    (anime_name episode : string) (quality provider : option string)
    (file_path : string) (file_size : Z) (download_speed : float) :
  anime_name <> "" -> episode <> "" ->
  Forall (fun d => String.ltb now (JSONDownloads.download_date d) = false) downloads ->
  exists record rest,
    JSONDownloads.add_download now true downloads anime_name episode quality provider
      file_path file_size download_speed = record :: rest
    /\ JSONDownloads.anime_name record = anime_name
    /\ JSONDownloads.episode record = episode
    /\ JSONDownloads.file_path record = file_path
    /\ JSONDownloads.download_date record = now
    /\ rest `sublist_of`
         PyList.sort_by_reverse String.ltb JSONDownloads.download_date downloads
    /\ StronglySorted JSONDownloads.newest_first (record :: rest)
    /\ length (record :: rest) <= 200.
Proof.
  intros Hname Hep Hnow.
  unfold JSONDownloads.add_download.
  apply String.eqb_neq in Hname, Hep. rewrite Hname, Hep. cbn [orb].
  set (record := JSONDownloads.Build_download_entry _ _ _ _ _ _ _ _ _ _ _).
  set (sorted := PyList.sort_by_reverse String.ltb JSONDownloads.download_date downloads).
  assert (Hsorted : StronglySorted JSONDownloads.newest_first sorted).
  { apply (sort_by_sorted (fun a b => String.ltb b a) JSONDownloads.download_date).
    - intros a b. apply string_ltb_asym.
    - intros a b c H1 H2. by eapply string_ge_trans. }
  assert (Hfront : PyList.sort_by_reverse String.ltb JSONDownloads.download_date
                     (record :: downloads) = record :: sorted).
  { unfold PyList.sort_by_reverse. cbn [PyList.sort_by]. apply insert_by_front.
    fold (PyList.sort_by_reverse String.ltb JSONDownloads.download_date downloads).
    fold sorted.
    assert (Hp : sorted ≡ₚ downloads) by apply sort_by_perm.
    rewrite Hp. exact Hnow. }
  rewrite Hfront. cbn [take]. exists record, (take 199 sorted).
  repeat split; try reflexivity.
  - apply sublist_take.
  - apply (sorted_take _ 200 (record :: sorted)). constructor; [exact Hsorted|].
    assert (Hp : sorted ≡ₚ downloads) by apply sort_by_perm.
    rewrite Hp. exact Hnow.
  - cbn [length]. rewrite length_take. lia.
Qed.

Lemma add_download_puts_record_first_witness :
  "Naruto" <> "" /\ "4" <> ""
  /\ Forall (fun d => String.ltb "2024-01-03T08:00:00.000000"
                        (JSONDownloads.download_date d) = false)
       [DownloadScenario.earlier]
  /\ exists record rest,
       JSONDownloads.add_download "2024-01-03T08:00:00.000000" true
         [DownloadScenario.earlier] "Naruto" "4" (Some "1080p") (Some "Wixmp")
         "downloads/Naruto_EP4_1080p.mp4" 2000 20 = record :: rest
       /\ JSONDownloads.anime_name record = "Naruto".
Proof.
  assert (H : Forall (fun d => String.ltb "2024-01-03T08:00:00.000000"
                                 (JSONDownloads.download_date d) = false)
                [DownloadScenario.earlier]) by (repeat constructor).
  split; [discriminate|]. split; [discriminate|]. split; [exact H|].
  destruct (add_download_puts_record_first "2024-01-03T08:00:00.000000"
              [DownloadScenario.earlier] "Naruto" "4" (Some "1080p") (Some "Wixmp")
              "downloads/Naruto_EP4_1080p.mp4" 2000 20
              ltac:(discriminate) ltac:(discriminate) H)
    as (record & rest & Heq & Hname & _).
  exists record, rest. split; assumption.
Defined.

(** ** The matcher against what a pattern matches *)

Lemma app_assoc_string a b c : (a +:+ b) +:+ c = a +:+ (b +:+ c).
Proof. induction a as [|x a IH]; [done|]. by rewrite !app_cons, IH. Qed.

Lemma take_app_length m s :
  PyStr.take (String.length (m +:+ s) - String.length s) (m +:+ s) = m.
Proof.
  rewrite string_length_app.
  replace (String.length m + String.length s - String.length s) with (String.length m)
    by lia.
  induction m as [|x m IH]; [by destruct s|].
  rewrite app_cons. cbn [String.length PyStr.take]. by rewrite IH.
Qed.

(** Whatever the matcher finds is a match of the pattern: the text it
    consumed and the groups it recorded are as [ReSpec.matches] says. *)
Lemma rmatch_sound ic r :
  forall s cs k res,
    Re.rmatch ic r s cs k = Some res ->
    exists m s' cs',
      s = m +:+ s' /\ ReSpec.matches ic r m cs cs' /\ k s' cs' = Some res.
Proof.
  induction r as [|c| |neg items|r1 IH1 r2 IH2|r1 IH1|i r1 IH1];
    intros s cs k res; cbn [Re.rmatch].
  - intros H. exists "", s, cs. split; [done|]. split; [constructor|done].
  - destruct s as [|x s]; cbn [Re.one]; [done|].
    destruct (Re.chr_matches ic c x) eqn:Hx; [|done].
    intros H. exists (String x ""), s, cs. split; [done|]. split; [by constructor|done].
  - destruct s as [|x s]; cbn [Re.one]; [done|].
    destruct (Ascii.eqb x Re.newline) eqn:Hx; [done|].
    intros H. exists (String x ""), s, cs. split; [done|]. split; [by constructor|done].
  - destruct s as [|x s]; cbn [Re.one]; [done|].
    destruct (xorb neg (Re.items_match ic items x)) eqn:Hx; [|done].
    intros H. exists (String x ""), s, cs. split; [done|]. split; [by constructor|done].
  - intros H. apply IH1 in H as (m1 & s1 & cs1 & -> & Hm1 & H).
    apply IH2 in H as (m2 & s2 & cs2 & -> & Hm2 & H).
    exists (m1 +:+ m2), s2, cs2. split; [by rewrite app_assoc_string|].
    split; [by econstructor|done].
  - generalize (String.length s) as n. intros n. revert s cs.
    induction n as [|n IHn]; intros s cs H.
    + exists "", s, cs. split; [done|]. split; [constructor|done].
    + destruct (Re.rmatch ic r1 s cs _) as [res'|] eqn:Hstep.
      * injection H as ->.
        apply IH1 in Hstep as (m1 & s1 & cs1 & -> & Hm1 & Hstep).
        destruct (_ <? _)%nat; [|done].
        apply IHn in Hstep as (m2 & s2 & cs2 & -> & Hm2 & Hk).
        exists (m1 +:+ m2), s2, cs2. split; [by rewrite app_assoc_string|].
        split; [by econstructor|done].
      * exists "", s, cs. split; [done|]. split; [constructor|done].
  - intros H. apply IH1 in H as (m & s' & cs' & -> & Hm & H).
    rewrite take_app_length in H.
    exists m, s', ((i, m) :: cs'). split; [done|]. split; [by constructor|done].
Qed.

Lemma match_here_sound ic r s rest cs :
  Re.match_here ic r s = Some (rest, cs) ->
  exists m, s = m +:+ rest /\ ReSpec.matches ic r m [] cs.
Proof.
  unfold Re.match_here. intros H.
  apply rmatch_sound in H as (m & s' & cs' & -> & Hm & [= <- <-]). by exists m.
Qed.

Lemma search_sound ic r s cs :
  Re.search ic r s = Some cs -> exists m, ReSpec.matches ic r m [] cs.
Proof.
  induction s as [|x s IH]; cbn [Re.search].
  - destruct (Re.match_here ic r "") as [[rest cs']|] eqn:Hm; [|done].
    intros [= <-]. apply match_here_sound in Hm as (m & _ & Hm). by exists m.
  - destruct (Re.match_here ic r (String x s)) as [[rest cs']|] eqn:Hm; [|exact IH].
    intros [= <-]. apply match_here_sound in Hm as (m & _ & Hm). by exists m.
Qed.

Lemma finditer_sound ic r skip s t cs :
  (t, cs) ∈ Re.finditer_from ic r skip s -> ReSpec.matches ic r t [] cs.
Proof.
  revert skip. induction s as [|x s IH]; intros skip; destruct skip as [|k];
    cbn [Re.finditer_from]; try (by intros ?%elem_of_nil); [|apply IH].
  destruct (Re.match_here ic r (String x s)) as [[rest cs']|] eqn:Hm; [|apply IH].
  intros [[= -> ->]|H]%elem_of_cons; [|by eapply IH].
  apply match_here_sound in Hm as (m & Hs & Hm).
  change (S (String.length s)) with (String.length (String x s)).
  rewrite Hs, take_app_length. exact Hm.
Qed.

Lemma matches_no_groups ic r m cs cs' :
  ReSpec.matches ic r m cs cs' -> ReSpec.no_groups r = true -> cs' = cs.
Proof.
  induction 1 as [ | | | |r1 r2 m1 m2 cs cs1 cs2 _ IH1 _ IH2| |r m1 m2 cs cs1 cs2 _ IH1 _ IH2| ];
    cbn [ReSpec.no_groups]; intros Hr; try done.
  - apply andb_prop in Hr as [H1 H2]. by rewrite (IH2 H2), (IH1 H1).
  - by rewrite (IH2 Hr), (IH1 Hr).
Qed.

Lemma matches_chars ic Q r m cs cs' :
  ReSpec.matches ic r m cs cs' -> ReSpec.accepts_only ic Q r -> chars_in Q m.
Proof.
  induction 1 as [ |c x cs Hx|x cs Hx|neg items x cs Hx
                  |r1 r2 m1 m2 cs cs1 cs2 _ IH1 _ IH2|
                  |r m1 m2 cs cs1 cs2 _ IH1 _ IH2|i r m cs cs1 _ IH];
    cbn [ReSpec.accepts_only]; intros Hr.
  - apply chars_in_nil.
  - apply chars_in_cons. split; [by apply Hr|apply chars_in_nil].
  - apply chars_in_cons. split; [by apply Hr|apply chars_in_nil].
  - apply chars_in_cons. split; [by apply Hr|apply chars_in_nil].
  - destruct Hr as [H1 H2]. apply chars_in_app; [by apply IH1|by apply IH2].
  - apply chars_in_nil.
  - apply chars_in_app; [by apply IH1|by apply IH2].
  - by apply IH.
Qed.

Lemma matches_seq_inv ic r1 r2 m cs cs2 :
  ReSpec.matches ic (Re.Seq r1 r2) m cs cs2 ->
  exists m1 m2 cs1,
    m = m1 +:+ m2 /\ ReSpec.matches ic r1 m1 cs cs1 /\ ReSpec.matches ic r2 m2 cs1 cs2.
Proof. inversion 1; subst. by eexists _, _, _. Qed.

Lemma matches_grp_inv ic i r m cs cs' :
  ReSpec.matches ic (Re.Grp i r) m cs cs' ->
  exists cs1, cs' = (i, m) :: cs1 /\ ReSpec.matches ic r m cs cs1.
Proof. inversion 1; subst. by eexists. Qed.

Lemma matches_lit p m cs cs' :
  ReSpec.matches false (Re.Lit p) m cs cs' -> m = p /\ cs' = cs.
Proof.
  revert m cs cs'. induction p as [|c p IH]; intros m cs cs'; cbn [Re.Lit].
  - by inversion 1.
  - intros (m1 & m2 & cs1 & -> & H1 & H2)%matches_seq_inv.
    apply IH in H2 as [-> ->]. inversion H1 as [ |c' x cs0 Hx| | | | | | ]; subst.
    cbn [Re.chr_matches] in Hx. apply Ascii.eqb_eq in Hx as ->. done.
Qed.

Lemma matches_plus_nonempty ic neg items m cs cs' :
  ReSpec.matches ic (Re.Plus (Re.Cls neg items)) m cs cs' -> m <> "".
Proof.
  unfold Re.Plus. intros (m1 & m2 & cs1 & -> & H1 & _)%matches_seq_inv.
  by inversion H1.
Qed.

Lemma contains_here p s : String.prefix p s = true -> PyStr.contains p s = true.
Proof. intros H. destruct s; cbn [PyStr.contains]; by rewrite H. Qed.

Lemma contains_app p a b : PyStr.contains p (a +:+ p +:+ b) = true.
Proof.
  induction a as [|c a IH].
  - rewrite app_empty. apply contains_here, prefix_app.
  - rewrite app_cons. cbn [PyStr.contains]. rewrite IH. apply orb_true_r.
Qed.

Lemma split_chars Q sep s :
  chars_in Q s -> Forall (chars_in (fun x => Q x /\ x <> sep)) (PyStr.split sep s).
Proof.
  induction s as [|c s IH]; cbn [PyStr.split].
  - intros _. constructor; [apply chars_in_nil|constructor].
  - intros [Hc Hs]%chars_in_cons. specialize (IH Hs).
    destruct (Ascii.eqb c sep) eqn:Hsep.
    + constructor; [apply chars_in_nil|done].
    + apply Ascii.eqb_neq in Hsep.
      destruct (PyStr.split sep s) as [|w ws].
      * constructor; [|constructor]. apply chars_in_cons. split; [done|apply chars_in_nil].
      * inversion IH; subst. constructor; [|done]. apply chars_in_cons. by split.
Qed.

Lemma strip_chars Q s : chars_in Q s -> chars_in Q (PyStr.strip s).
Proof. intros H. unfold PyStr.strip. by apply rstrip_chars, lstrip_chars. Qed.

(** ** The links of the extractors *)

Lemma wixmp_groups m cs :
  ReSpec.matches false ProviderManager.wixmp_pattern m [] cs ->
  exists id qs,
    Re.group 1 cs = "video.wixstatic.com/video/" +:+ id
    /\ Re.group 2 cs = qs
    /\ id <> "" /\ chars_in (fun x => x <> "/"%char) id
    /\ chars_in (fun x => x <> "/"%char) qs.
Proof.
  unfold ProviderManager.wixmp_pattern. cbn [Re.seqs].
  intros (m0 & ma & cs0 & -> & H0 & H)%matches_seq_inv.
  apply matches_lit in H0 as [-> ->].
  apply matches_seq_inv in H as (m1 & mb & cs1 & -> & H1 & H).
  apply matches_grp_inv in H1 as (cs1' & -> & H1).
  apply matches_seq_inv in H1 as (v & id & cs1'' & -> & Hv & Hid).
  apply matches_lit in Hv as [-> ->].
  apply matches_seq_inv in H as (m2 & mc & cs2 & -> & H2 & H).
  apply matches_lit in H2 as [-> ->].
  apply matches_seq_inv in H as (qs & md & cs3 & -> & H3 & H).
  apply matches_grp_inv in H3 as (cs3' & -> & H3).
  apply matches_lit in H as [-> ->].
  pose proof (matches_no_groups _ _ _ _ _ Hid eq_refl) as ->.
  pose proof (matches_no_groups _ _ _ _ _ H3 eq_refl) as ->.
  exists id, qs. split; [reflexivity|]. split; [reflexivity|].
  split; [by eapply matches_plus_nonempty|].
  split.
  - eapply matches_chars; [exact Hid|].
    cbn. split; intros x Hx ->; discriminate.
  - eapply matches_chars; [exact H3|].
    cbn. repeat split; intros x Hx; intros ->; discriminate.
Qed.

(** Every link [extract_wixmp_links] returns is an mp4 link on the
    fixed media host: its address is the host and the path [video/], a
    non-empty video id without a slash, a slash, the quality, and
    [/mp4/file.mp4]; the quality is its label, is not empty and has
    neither a slash nor a comma.  Nothing else of the repackager
    address reaches the result. *)
Theorem wixmp_links_shape (repackager_url : string) (l : ProviderManager.link3) :
  l ∈ ProviderManager.extract_wixmp_links repackager_url ->
  exists id quality,
    l = ("mp4", PStr quality,
         PStr ("https://video.wixstatic.com/video/" +:+ id +:+ "/" +:+ quality
               +:+ "/mp4/file.mp4"))
    /\ id <> "" /\ chars_in (fun x => x <> "/"%char) id
    /\ quality <> ""
    /\ chars_in (fun x => x <> "/"%char /\ x <> ","%char) quality.
Proof.
  unfold ProviderManager.extract_wixmp_links.
  destruct (Re.search false ProviderManager.wixmp_pattern repackager_url) as [cs|] eqn:Hs;
    [|by intros ?%elem_of_nil].
  apply search_sound in Hs as (m & Hm).
  apply wixmp_groups in Hm as (id & qs & -> & -> & Hid & Hidc & Hqs).
  cbv zeta. intros (q & -> & Hq)%list_elem_of_fmap.
  apply list_elem_of_filter in Hq as [Hne (w & -> & Hw)%list_elem_of_fmap].
  exists id, (PyStr.strip w). split.
  - reflexivity.
  - split; [done|]. split; [done|]. split; [done|].
    apply strip_chars.
    pose proof (split_chars _ ","%char _ Hqs) as Hall.
    rewrite Forall_forall in Hall. by apply Hall.
Qed.

Lemma matches_star_not_quote m cs cs' :
  ReSpec.matches false (Re.Star ProviderManager.not_quote) m cs cs' ->
  cs' = cs /\ chars_in (fun x => x <> dq) m.
Proof.
  intros H. split; [by eapply matches_no_groups|].
  eapply matches_chars; [exact H|]. cbn. intros x Hx ->. discriminate.
Qed.

Lemma findall1_sound r s g :
  g ∈ Re.findall1 r s ->
  exists m cs, ReSpec.matches false r m [] cs /\ g = Re.group 1 cs.
Proof.
  unfold Re.findall1. intros ([m cs] & -> & H)%list_elem_of_fmap.
  apply finditer_sound in H. by exists m, cs.
Qed.

(** the value of a quoted field that must contain one text *)
Lemma quoted_field_one field w m cs :
  ReSpec.matches false (ProviderManager.quoted_field_pattern field [w]) m [] cs ->
  exists a b,
    Re.group 1 cs = a +:+ w +:+ b
    /\ chars_in (fun x => x <> dq) a /\ chars_in (fun x => x <> dq) b.
Proof.
  unfold ProviderManager.quoted_field_pattern. cbn [Re.seqs map].
  intros (m0 & ma & cs0 & -> & H0 & H)%matches_seq_inv.
  apply matches_lit in H0 as [-> ->].
  apply matches_seq_inv in H as (g & mb & cs1 & -> & Hg & H).
  apply matches_lit in H as [-> ->].
  apply matches_grp_inv in Hg as (cs2 & -> & Hg).
  apply matches_seq_inv in Hg as (a & mc & cs3 & -> & Ha & Hg).
  apply matches_seq_inv in Hg as (w' & b & cs4 & -> & Hw & Hb).
  apply matches_lit in Hw as [-> ->].
  apply matches_star_not_quote in Ha as [-> Ha].
  apply matches_star_not_quote in Hb as [-> Hb].
  by exists a, b.
Qed.

(** the value of a quoted field that must contain two texts in order *)
Lemma quoted_field_two field w1 w2 m cs :
  ReSpec.matches false (ProviderManager.quoted_field_pattern field [w1; w2]) m [] cs ->
  exists a b c,
    Re.group 1 cs = a +:+ w1 +:+ b +:+ w2 +:+ c
    /\ chars_in (fun x => x <> dq) a /\ chars_in (fun x => x <> dq) b
    /\ chars_in (fun x => x <> dq) c.
Proof.
  unfold ProviderManager.quoted_field_pattern. cbn [Re.seqs map].
  intros (m0 & ma & cs0 & -> & H0 & H)%matches_seq_inv.
  apply matches_lit in H0 as [-> ->].
  apply matches_seq_inv in H as (g & mb & cs1 & -> & Hg & H).
  apply matches_lit in H as [-> ->].
  apply matches_grp_inv in Hg as (cs2 & -> & Hg).
  apply matches_seq_inv in Hg as (a & mc & cs3 & -> & Ha & Hg).
  apply matches_seq_inv in Hg as (md & me & cs4 & -> & H1 & H2).
  apply matches_seq_inv in H1 as (w1' & b & cs5 & -> & Hw1 & Hb).
  apply matches_seq_inv in H2 as (w2' & c & cs6 & -> & Hw2 & Hc).
  apply matches_lit in Hw1 as [-> ->]. apply matches_lit in Hw2 as [-> ->].
  apply matches_star_not_quote in Ha as [-> Ha].
  apply matches_star_not_quote in Hb as [-> Hb].
  apply matches_star_not_quote in Hc as [-> Hc].
  exists a, b, c. split; [|done].
  cbn [Re.group List.find fst snd Nat.eqb]. by rewrite !app_assoc_string.
Qed.

Lemma hianime_matches (response_text url : string) :
  In url (flat_map (fun pattern => Re.findall1 pattern response_text) ProviderManager.hianime_patterns) ->
  PyStr.contains ".m3u8" url = true /\ chars_in (fun x => x <> dq) url.
Proof.
  unfold ProviderManager.hianime_patterns. cbn [flat_map]. rewrite app_nil_r.
  intros [H|H]%in_app_or; apply list_elem_of_In, findall1_sound in H as (m & cs & Hm & ->).
  - apply quoted_field_one in Hm as (a & b & -> & Ha & Hb). split.
    + apply contains_app.
    + apply chars_in_app; [done|]. apply chars_in_app; [|done].
      unfold chars_in. cbn. repeat constructor; discriminate.
  - apply matches_grp_inv in Hm as (cs1 & -> & Hm).
    cbn [Re.group List.find fst snd Nat.eqb]. split.
    + cbn [Re.seqs] in Hm.
      apply matches_seq_inv in Hm as (m0 & ma & cs0 & -> & H0 & H).
      apply matches_seq_inv in H as (m1 & mb & cs2 & -> & H1 & H).
      apply matches_seq_inv in H as (m2 & mc & cs3 & -> & H2 & H).
      apply matches_lit in H2 as [-> _].
      rewrite <- app_assoc_string. apply contains_app.
    + eapply matches_chars; [exact Hm|].
      cbn. repeat split; intros x Hx ->; discriminate.
Qed.

(** Every link [extract_hianime_links] returns is an m3u8 link whose
    address contains [.m3u8] and no double quote; it is labelled
    [HLS Master] exactly when the address contains [master.m3u8], and
    [HLS Stream] otherwise. *)
Theorem hianime_links_are_playlists (response_text : string) (l : ProviderManager.link3) :
  l ∈ ProviderManager.extract_hianime_links response_text ->
  exists url,
    (l = ("m3u8", PStr "HLS Master", PStr url)
       /\ PyStr.contains "master.m3u8" url = true
     \/ l = ("m3u8", PStr "HLS Stream", PStr url)
       /\ PyStr.contains "master.m3u8" url = false)
    /\ PyStr.contains ".m3u8" url = true
    /\ chars_in (fun x => x <> dq) url.
Proof.
  unfold ProviderManager.extract_hianime_links.
  intros (pattern & Hp & (url & Hl & Hu)%in_map_iff)%list_elem_of_In%in_flat_map.
  exists url. split.
  - destruct (PyStr.contains "master.m3u8" url); [left|right]; by split.
  - apply (hianime_matches response_text). apply in_flat_map. by exists pattern.
Qed.

(** The scan of the raw text gives SharePoint mp4 links only: the
    address has [sharepoint] and later [download] in it, contains
    [sharepoint.com], and has no double quote. *)
Lemma sharepoint_regex_links_shape (response_text : string) (l : ProviderManager.link3) :
  l ∈ ProviderManager.sharepoint_regex_links response_text ->
  exists a b c,
    let url := a +:+ "sharepoint" +:+ b +:+ "download" +:+ c in
    l = ("mp4", PStr "SharePoint", PStr url)
    /\ PyStr.contains "sharepoint.com" url = true
    /\ chars_in (fun x => x <> dq) url.
Proof.
  unfold ProviderManager.sharepoint_regex_links, ProviderManager.sharepoint_patterns.
  intros (pattern & Hp & (g & Hg & Hl)%in_flat_map)%list_elem_of_In%in_flat_map.
  destruct (PyStr.contains "sharepoint.com" g) eqn:Hcom; [|done].
  destruct (PyStr.contains "download" g); [|done].
  destruct Hl as [<-|[]].
  assert (exists m cs field,
             ReSpec.matches false (ProviderManager.quoted_field_pattern field ["sharepoint"; "download"])
               m [] cs /\ g = Re.group 1 cs) as (m & cs & field & Hm & ->).
  { apply list_elem_of_In in Hg.
    destruct Hp as [<-|[<-|[]]]; apply findall1_sound in Hg as (m & cs & Hm & ->);
      by eexists m, cs, _. }
  apply quoted_field_two in Hm as (a & b & c & Heq & Ha & Hb & Hc).
  rewrite Heq in *. exists a, b, c. cbv zeta. split; [done|]. split; [done|].
  repeat (apply chars_in_app; [try done|]); try done;
    unfold chars_in; cbn; repeat constructor; discriminate.
Qed.

(** On a body that does not start with an opening brace, every link
    [extract_sharepoint_links] returns is a SharePoint mp4 link taken
    from a quoted [link] or [src] field: its address has [sharepoint]
    and later [download] in it, contains [sharepoint.com], and has no
    double quote. *)
Theorem sharepoint_scan_links
    (json_loads : string -> option (list (string * pyval)))
    (response_text : string) (l : ProviderManager.link3) :
  PyStr.startswith (PyStr.strip response_text) "{" = false ->
  l ∈ ProviderManager.extract_sharepoint_links json_loads response_text ->
  exists a b c,
    let url := a +:+ "sharepoint" +:+ b +:+ "download" +:+ c in
    l = ("mp4", PStr "SharePoint", PStr url)
    /\ PyStr.contains "sharepoint.com" url = true
    /\ chars_in (fun x => x <> dq) url.
Proof.
  intros Hb. rewrite (sharepoint_fallback_reached json_loads response_text (or_introl Hb)).
  apply sharepoint_regex_links_shape.
Qed.

Lemma wixmp_links_shape_witness :
  let l := ("mp4", PStr "720p",
            PStr "https://video.wixstatic.com/video/abc/720p/mp4/file.mp4") in
  l ∈ ProviderManager.extract_wixmp_links Scenario.wixmp_body
  /\ exists id quality,
       l = ("mp4", PStr quality,
            PStr ("https://video.wixstatic.com/video/" +:+ id +:+ "/" +:+ quality
                  +:+ "/mp4/file.mp4"))
       /\ id <> "".
Proof.
  cbv zeta.
  assert (H : ("mp4", PStr "720p",
               PStr "https://video.wixstatic.com/video/abc/720p/mp4/file.mp4")
              ∈ ProviderManager.extract_wixmp_links Scenario.wixmp_body)
    by (vm_compute; apply list_elem_of_here).
  split; [exact H|].
  destruct (wixmp_links_shape Scenario.wixmp_body _ H) as (id & quality & Heq & Hid & _).
  exists id, quality. split; assumption.
Defined.

Lemma hianime_links_are_playlists_witness :
  let l := ("m3u8", PStr "HLS Stream", PStr Scenario.stream_url) in
  l ∈ ProviderManager.extract_hianime_links Scenario.hianime_body
  /\ exists url,
       (l = ("m3u8", PStr "HLS Master", PStr url)
        \/ l = ("m3u8", PStr "HLS Stream", PStr url))
       /\ PyStr.contains ".m3u8" url = true.
Proof.
  cbv zeta.
  assert (H : ("m3u8", PStr "HLS Stream", PStr Scenario.stream_url)
              ∈ ProviderManager.extract_hianime_links Scenario.hianime_body)
    by (vm_compute; apply list_elem_of_here).
  split; [exact H|].
  destruct (hianime_links_are_playlists Scenario.hianime_body _ H)
    as (url & [[Heq _]|[Heq _]] & Hc & _);
    exists url; (split; [|exact Hc]); [left|right]; exact Heq.
Defined.

Lemma sharepoint_scan_links_witness :
  let l := ("mp4", PStr "SharePoint", PStr ScanScenario.share_url) in
  PyStr.startswith (PyStr.strip ScanScenario.fragment) "{" = false
  /\ l ∈ ProviderManager.extract_sharepoint_links Scenario.json_loads ScanScenario.fragment
  /\ exists a b c,
       l = ("mp4", PStr "SharePoint",
            PStr (a +:+ "sharepoint" +:+ b +:+ "download" +:+ c)).
Proof.
  cbv zeta.
  assert (Hb : PyStr.startswith (PyStr.strip ScanScenario.fragment) "{" = false)
    by (vm_compute; reflexivity).
  assert (H : ("mp4", PStr "SharePoint", PStr ScanScenario.share_url)
              ∈ ProviderManager.extract_sharepoint_links Scenario.json_loads
                  ScanScenario.fragment)
    by (vm_compute; apply list_elem_of_here).
  split; [exact Hb|]. split; [exact H|].
  destruct (sharepoint_scan_links Scenario.json_loads ScanScenario.fragment _ Hb H)
    as (a & b & c & Heq & _).
  exists a, b, c. exact Heq.
Defined.

(** ** The menus of links *)

Section MenuFacts.
Import UserInterface.

Lemma keys_append_to p r g :
  group_keys (append_to p r g) = if decide (p ∈ group_keys g) then group_keys g else (group_keys g ++ [p])%list.
Proof.
  induction g as [|[k rows] g IH]; cbn [append_to group_keys map fst].
  - rewrite decide_False by apply not_elem_of_nil. reflexivity.
  - destruct (String.eqb k p) eqn:Hk.
    + apply String.eqb_eq in Hk as ->. rewrite decide_True by apply list_elem_of_here.
      reflexivity.
    + apply String.eqb_neq in Hk. cbn [map fst]. fold (group_keys (append_to p r g)).
      rewrite IH. fold (group_keys g). destruct (decide (p ∈ group_keys g)) as [Hin|Hin].
      * rewrite decide_True by (by apply list_elem_of_further). reflexivity.
      * rewrite decide_False; [reflexivity|].
        intros [Heq|H]%elem_of_cons; [by apply Hk|by apply Hin].
Qed.

Lemma flatten_append_new p r g :
  p ∉ group_keys g -> menu_of (append_to p r g) = (menu_of g ++ [(p, r)])%list.
Proof.
  induction g as [|[k rows] g IH]; cbn [append_to]; [done|].
  intros Hp. destruct (String.eqb k p) eqn:Hk.
  - apply String.eqb_eq in Hk as ->. destruct Hp. apply list_elem_of_here.
  - unfold menu_of in *. cbn [flat_map]. rewrite IH, app_assoc; [done|].
    intros H. apply Hp. by apply list_elem_of_further.
Qed.

Lemma flatten_append_last p r g :
  NoDup (group_keys g) -> last (group_keys g) = Some p ->
  menu_of (append_to p r g) = (menu_of g ++ [(p, r)])%list.
Proof.
  induction g as [|[k rows] g IH]; cbn [append_to group_keys map fst]; [done|].
  fold (group_keys g). intros [Hk Hnd]%NoDup_cons Hlast.
  destruct g as [|g0 g].
  - cbn in Hlast. injection Hlast as ->. rewrite String.eqb_refl.
    unfold menu_of. cbn [flat_map]. rewrite !app_nil_r, map_app. reflexivity.
  - assert (Hl : last (group_keys (g0 :: g)) = Some p) by (by destruct g0).
    assert (Hin : p ∈ group_keys (g0 :: g)).
    { apply last_Some in Hl as (l' & ->). apply elem_of_app. right. apply list_elem_of_here. }
    destruct (String.eqb k p) eqn:Hkp.
    { apply String.eqb_eq in Hkp as ->. by destruct Hk. }
    unfold menu_of in *. cbn [flat_map] in *. rewrite (IH Hnd Hl). by rewrite !app_assoc.
Qed.

Lemma group_from_snoc i l x g :
  group_from i (l ++ [x]) g =
  (let '(fmt, quality, url, provider) := x in
   append_to provider (i + length l, fmt, quality, url) (group_from i l g)).
Proof.
  revert i g. induction l as [|[[[f q] u] p] l IH]; intros i g.
  - destruct x as [[[f q] u] p]. cbn. by rewrite Nat.add_0_r.
  - cbn [app group_from length]. rewrite IH. destruct x as [[[f' q'] u'] p'].
    by rewrite Nat.add_succ_comm.
Qed.

Lemma quality_menu_grouped l :
  grouped l ->
  menu_of (group_from 0 l []) = imap option_at l
  /\ NoDup (group_keys (group_from 0 l []))
  /\ (forall k, k ∈ group_keys (group_from 0 l []) <-> k ∈ map snd l)
  /\ last (group_keys (group_from 0 l [])) = last (map snd l).
Proof.
  induction l as [|x l IH] using rev_ind; intros Hg.
  - cbn. split; [done|]. split; [constructor|]. split; [done|done].
  - destruct IH as (Hflat & Hnd & Hkeys & Hlast).
    { intros l1 y l2 Heq. apply (Hg l1 y (l2 ++ [x])%list).
      by rewrite Heq, <- app_assoc. }
    specialize (Hg l x [] eq_refl).
    rewrite group_from_snoc. destruct x as [[[f q] u] p]. cbn [snd] in Hg.
    rewrite imap_app, map_app. cbn [imap map snd]. rewrite Nat.add_0_r, Nat.add_0_l.
    change (option_at (length l) (f, q, u, p)) with (p, (length l, f, q, u)).
    rewrite keys_append_to.
    destruct (decide (p ∈ group_keys (group_from 0 l []))) as [Hin|Hin].
    + assert (Hp : last (group_keys (group_from 0 l [])) = Some p).
      { rewrite Hlast. apply Hg. by apply Hkeys. }
      rewrite flatten_append_last by done. rewrite Hflat.
      split; [done|]. split; [done|]. split.
      * intros k. rewrite Hkeys, elem_of_app, list_elem_of_singleton.
        split; [by left|]. intros [?| ->]; [done|by apply Hkeys].
      * by rewrite Hp, last_snoc.
    + rewrite flatten_append_new by done. rewrite Hflat.
      split; [done|]. split.
      * apply NoDup_app. split; [done|]. split; [|apply NoDup_singleton].
        intros k Hk ->%list_elem_of_singleton. by apply Hin.
      * split; [|by rewrite !last_snoc].
        intros k. rewrite !elem_of_app, Hkeys. done.
Qed.

Lemma get_all_links_ranked
    (json_loads : string -> option (list (string * pyval))) (str_of : pyval -> string)
    (w : ProviderManager.world)
    (order : list ProviderManager.future -> list ProviderManager.future)
    (show_id episode mode : string) :
  (forall fs, order fs ≡ₚ fs) ->
  ranked (ProviderManager.get_all_links json_loads str_of w order show_id episode mode).
Proof.
  intros Hperm. unfold ranked.
  unfold ProviderManager.get_all_links, ProviderManager.get_all_links_run.
  destruct (ProviderManager.fetch_source_response _ _ _ _ _) as [[sr|]|e];
    cbn [snd try_except]; [|split; constructor..].
  rewrite sort_links_spec. destruct (forallb _ _); [|split; constructor].
  cbn [try_except]. split; [apply stable_sort_sorted|].
  rewrite stable_sort_perm. apply Forall_forall. intros x Hx.
  apply list_elem_of_In, in_flat_map in Hx as (f & Hf & Hx).
  apply list_elem_of_In in Hf, Hx. rewrite Hperm in Hf.
  apply (collected_formats json_loads f x); [|exact Hx].
  apply list_elem_of_In, in_map_iff in Hf as ([[k info] url] & <- & Ht).
  cbn [fst snd]. apply list_elem_of_In in Ht.
  exact (submitted_in_registry sr _ Ht).
Qed.

Lemma sorted_app_cross {A} (R : A -> A -> Prop) l1 l2 :
  StronglySorted R (l1 ++ l2) -> forall a b, a ∈ l1 -> b ∈ l2 -> R a b.
Proof.
  induction l1 as [|x l1 IH]; [by intros _ a b ?%elem_of_nil|].
  cbn [app]. intros [Hs Hx]%StronglySorted_inv a b Ha Hb.
  apply elem_of_cons in Ha as [->|Ha]; [|by apply IH].
  rewrite Forall_forall in Hx. apply Hx, elem_of_app. by right.
Qed.

Lemma key_le_priority (a b : ProviderManager.link4) :
  PySort.key_le ProviderManager.key_of a b ->
  (ProviderManager.provider_priority a.2 <= ProviderManager.provider_priority b.2)%Z.
Proof.
  unfold PySort.key_le, PySort.key_lt.
  destruct a as [[[fa qa] ua] pa], b as [[[fb qb] ub] pb]. cbn [ProviderManager.key_of snd].
  intros H. apply orb_false_elim in H as [H _]. by apply Z.ltb_ge in H.
Qed.

Lemma formats_name (x : ProviderManager.link4) :
  (x.2, x.1.1.1) ∈ provider_formats -> x.2 ∈ registry_names.
Proof.
  unfold provider_formats, registry_names. intros H.
  repeat (apply elem_of_cons in H as [[= -> _]|H]; [by_evaluation|]).
  by apply elem_of_nil in H.
Qed.

Lemma priority_identifies p q :
  p ∈ registry_names -> q ∈ registry_names ->
  ProviderManager.provider_priority p = ProviderManager.provider_priority q -> p = q.
Proof.
  unfold registry_names. intros Hp Hq.
  repeat (apply elem_of_cons in Hp as [->|Hp]);
    try (by apply elem_of_nil in Hp);
    repeat (apply elem_of_cons in Hq as [->|Hq]);
    try (by apply elem_of_nil in Hq); vm_compute; congruence.
Qed.

Lemma ranked_grouped l : ranked l -> grouped l.
Proof.
  intros [Hs Hf] l1 x l2 -> Hin. rewrite Forall_forall in Hf.
  apply list_elem_of_fmap in Hin as (y & Hy & Hin).
  destruct l1 as [|z0 l0 _] using rev_ind; [by apply elem_of_nil in Hin|].
  rename z0 into z. rewrite map_app. cbn [map]. rewrite last_snoc. f_equal.
  assert (Hzx : PySort.key_le ProviderManager.key_of z x).
  { apply (sorted_app_cross _ _ _ Hs); [|apply list_elem_of_here].
    apply elem_of_app. right. apply list_elem_of_here. }
  apply key_le_priority in Hzx.
  apply elem_of_app in Hin as [Hin|Hin]; [|by apply list_elem_of_singleton in Hin as ->].
  assert (Hyz : PySort.key_le ProviderManager.key_of y z).
  { rewrite <- app_assoc in Hs. apply (sorted_app_cross _ _ _ Hs); [done|].
    apply list_elem_of_here. }
  apply key_le_priority in Hyz. rewrite <- Hy in Hyz.
  apply priority_identifies; [apply formats_name, Hf|apply formats_name, Hf|lia].
  - rewrite !elem_of_app. left. right. apply list_elem_of_here.
  - rewrite !elem_of_app. right. apply list_elem_of_here.
Qed.

Lemma link_of_option_at i x : link_of (option_at i x) = x.
Proof. by destruct x as [[[f q] u] p]. Qed.

Lemma imap_option_at_lookup l n :
  link_of <$> imap option_at l !! n = l !! n.
Proof.
  rewrite list_lookup_imap. destruct (l !! n) as [x|]; [|done].
  cbn. by rewrite link_of_option_at.
Qed.

Lemma provider_rows_append p p' (r : row) g :
  provider_rows p (append_to p' r g) =
  (provider_rows p g ++
   if decide (p' = p) then [let '(_, fmt, quality, url) := r in (fmt, quality, url, p)]
   else [])%list.
Proof.
  unfold provider_rows, rows_of.
  induction g as [|[k rows] g IH]; cbn [append_to List.find fst snd].
  - destruct (decide (p' = p)) as [->|Hne].
    + rewrite String.eqb_refl. reflexivity.
    + apply String.eqb_neq in Hne. rewrite Hne. reflexivity.
  - destruct (String.eqb k p') eqn:Hk.
    + apply String.eqb_eq in Hk as ->. cbn [List.find fst snd].
      destruct (String.eqb p' p) eqn:Hp.
      * apply String.eqb_eq in Hp as ->. rewrite decide_True by done.
        cbn. by rewrite map_app.
      * apply String.eqb_neq in Hp. rewrite decide_False by done. by rewrite app_nil_r.
    + cbn [List.find fst snd]. destruct (String.eqb k p) eqn:Hp; [|exact IH].
      apply String.eqb_eq in Hp as ->. apply String.eqb_neq in Hk.
      rewrite decide_False by (intros ->; by apply Hk). by rewrite app_nil_r.
Qed.

Lemma provider_rows_group_from p i l g :
  provider_rows p (group_from i l g) = (provider_rows p g ++ of_provider p l)%list.
Proof.
  revert i g. induction l as [|[[[f q] u] p'] l IH]; intros i g; cbn [group_from].
  - by rewrite app_nil_r.
  - rewrite IH, provider_rows_append, <- app_assoc. f_equal.
    unfold of_provider. destruct (decide (p' = p)) as [->|Hne].
    + by rewrite filter_cons_True.
    + by rewrite filter_cons_False.
Qed.

Lemma download_options_spec l :
  download_options l =
  (of_provider "Wixmp" l ++ of_provider "SharePoint" l ++ of_provider "YouTube" l)%list.
Proof.
  change (download_options l) with
    (flat_map (fun provider => provider_rows provider (group_from 0 l []))
              ["Wixmp"; "SharePoint"; "YouTube"]).
  cbn [flat_map]. rewrite !provider_rows_group_from. cbn. by rewrite app_nil_r.
Qed.

Lemma of_provider_below p (x : ProviderManager.link4) r :
  (ProviderManager.provider_priority p < ProviderManager.provider_priority x.2)%Z ->
  Forall (PySort.key_le ProviderManager.key_of x) r ->
  of_provider p r = [].
Proof.
  intros Hp Hx. unfold of_provider. induction Hx as [|y r Hy _ IH]; [done|].
  rewrite filter_cons_False; [exact IH|].
  intros Heq. apply key_le_priority in Hy. rewrite Heq in Hy. lia.
Qed.

Lemma of_provider_cons p (x : ProviderManager.link4) r :
  of_provider p (x :: r) =
  if decide (x.2 = p) then x :: of_provider p r else of_provider p r.
Proof.
  unfold of_provider. destruct (decide (x.2 = p)).
  - by rewrite filter_cons_True.
  - by rewrite filter_cons_False.
Qed.

Lemma ranked_blocks l :
  ranked l ->
  (of_provider "Wixmp" l ++ of_provider "SharePoint" l ++ of_provider "YouTube" l
   ++ of_provider "HiAnime" l)%list = l.
Proof.
  intros [Hs Hf]. induction Hs as [|x r Hr IH Hx]; [done|].
  apply Forall_cons in Hf as [Hn Hf]. specialize (IH Hf).
  apply formats_name in Hn. unfold registry_names in Hn.
  rewrite !of_provider_cons.
  repeat (apply elem_of_cons in Hn as [Hn|Hn]); [| | | |by apply elem_of_nil in Hn];
    rewrite ?(of_provider_below "Wixmp" x r), ?(of_provider_below "SharePoint" x r),
      ?(of_provider_below "YouTube" x r) in IH |- * by (by rewrite ?Hn);
    rewrite Hn;
    repeat first [rewrite decide_True by done | rewrite decide_False by discriminate];
    cbn [app]; f_equal; exact IH.
Qed.

Lemma provider_formats_functional p f1 f2 :
  (p, f1) ∈ provider_formats -> (p, f2) ∈ provider_formats -> f1 = f2.
Proof.
  unfold provider_formats. intros H1 H2.
  repeat (apply elem_of_cons in H1 as [H1|H1]; [injection H1 as -> ->|]);
    [| | | |by apply elem_of_nil in H1];
    repeat (apply elem_of_cons in H2 as [H2|H2];
            [try discriminate H2; try (injection H2 as ->; reflexivity)|]);
    by apply elem_of_nil in H2.
Qed.

Lemma mp4_only_of_provider p fmt l :
  (p, fmt) ∈ provider_formats ->
  Forall (fun x : ProviderManager.link4 => (x.2, x.1.1.1) ∈ provider_formats) l ->
  mp4_only (of_provider p l) = if decide (fmt = "mp4") then of_provider p l else [].
Proof.
  intros Hp Hf. unfold mp4_only, of_provider.
  induction Hf as [|x l Hx _ IH]; [destruct (decide (fmt = "mp4")); reflexivity|].
  destruct (decide (x.2 = p)) as [Heq|Hne].
  - rewrite (filter_cons_True (fun x : ProviderManager.link4 => x.2 = p)) by done.
    assert (Hfmt : x.1.1.1 = fmt).
    { rewrite Heq in Hx. exact (provider_formats_functional _ _ _ Hx Hp). }
    destruct (decide (fmt = "mp4")) as [Hm|Hm].
    + rewrite filter_cons_True by (by rewrite Hfmt). by rewrite IH.
    + rewrite filter_cons_False by (by rewrite Hfmt). exact IH.
  - rewrite (filter_cons_False (fun x : ProviderManager.link4 => x.2 = p)) by done.
    exact IH.
Qed.

Lemma of_provider_mp4_only p l :
  of_provider p (mp4_only l) = mp4_only (of_provider p l).
Proof.
  unfold of_provider, mp4_only. induction l as [|x l IH]; [done|].
  destruct (decide (x.2 = p)) as [Hp|Hp], (decide (x.1.1.1 = "mp4")) as [Hm|Hm];
    repeat first [rewrite (filter_cons_True (fun x : ProviderManager.link4 => x.2 = p)) by done
                 |rewrite (filter_cons_False (fun x : ProviderManager.link4 => x.2 = p)) by done
                 |rewrite (filter_cons_True (fun x : ProviderManager.link4 => x.1.1.1 = "mp4")) by done
                 |rewrite (filter_cons_False (fun x : ProviderManager.link4 => x.1.1.1 = "mp4")) by done];
    by rewrite ?IH.
Qed.

Lemma mp4_only_app l1 l2 : mp4_only (l1 ++ l2) = (mp4_only l1 ++ mp4_only l2)%list.
Proof. apply filter_app. Qed.

End MenuFacts.

(** In the quality menu the number typed picks the option printed with
    that number: on the list [get_all_links] returns, the options, which
    are printed provider by provider, come in the order of the list, which
    [show_quality_selection] indexes with the number. *)
Theorem quality_choice_is_the_option_shown
    (json_loads : string -> option (list (string * pyval))) (str_of : pyval -> string)
    (w : ProviderManager.world)
    (order : list ProviderManager.future -> list ProviderManager.future)
    (show_id episode mode : string) (c : Z) :
  (forall fs, order fs ≡ₚ fs) -> (1 <= c)%Z ->
  let links := ProviderManager.get_all_links json_loads str_of w order show_id episode mode in
  UserInterface.show_quality_selection links (Some c) = UserInterface.link_of <$> UserInterface.quality_menu links !! Z.to_nat (c - 1).
Proof.
  intros Hperm Hc links.
  pose proof (get_all_links_ranked json_loads str_of w order show_id episode mode Hperm)
    as Hr. fold links in Hr.
  apply ranked_grouped, quality_menu_grouped in Hr as [Hflat _].
  unfold UserInterface.quality_menu, UserInterface.group_by_provider. fold (menu_of (UserInterface.group_from 0 links [])).
  rewrite Hflat, imap_option_at_lookup.
  unfold UserInterface.show_quality_selection. destruct links as [|x l]; [done|].
  destruct (Z.leb_spec 1 c) as [_|?]; [|lia]. cbn [andb].
  destruct (Z.leb_spec c (Z.of_nat (length (x :: l)))) as [Hle|Hgt]; [done|].
  symmetry. apply lookup_ge_None. lia.
Qed.

Lemma quality_choice_is_the_option_shown_witness :
  (forall fs : list ProviderManager.future, rev fs ≡ₚ fs) /\ (1 <= 2)%Z
  /\ UserInterface.show_quality_selection
       (ProviderManager.get_all_links Scenario.json_loads Scenario.str_of
          Scenario.two_providers (@rev _) "show" "1" "sub") (Some 2%Z)
     = UserInterface.link_of <$>
       UserInterface.quality_menu
         (ProviderManager.get_all_links Scenario.json_loads Scenario.str_of
            Scenario.two_providers (@rev _) "show" "1" "sub") !! 1.
Proof.
  split; [intros fs; symmetry; apply Permutation_rev|]. split; [lia|].
  apply (quality_choice_is_the_option_shown Scenario.json_loads Scenario.str_of
           Scenario.two_providers (@rev _) "show" "1" "sub" 2).
  - intros fs. symmetry. apply Permutation_rev.
  - lia.
Defined.

(** On a list that is not in ranking order the numbers of the menu and
    the indexes of the list part: the second option printed is the third
    link, the second link is what the number 2 returns. *)
Lemma quality_menu_relies_on_ranking :
  UserInterface.show_quality_selection unranked_links (Some 2%Z)
  <> UserInterface.link_of <$> UserInterface.quality_menu unranked_links !! 1.
Proof. vm_compute. discriminate. Qed.

(** The download menu offers every mp4 link of [get_all_links], in
    ranking order, and nothing else: leaving HiAnime out drops no mp4
    link, since no mp4 link is a HiAnime link. *)
Theorem download_menu_offers_every_mp4_link
    (json_loads : string -> option (list (string * pyval))) (str_of : pyval -> string)
    (w : ProviderManager.world)
    (order : list ProviderManager.future -> list ProviderManager.future)
    (show_id episode mode : string) :
  (forall fs, order fs ≡ₚ fs) ->
  let links := ProviderManager.get_all_links json_loads str_of w order show_id episode mode in
  UserInterface.download_options (UserInterface.mp4_only links) = UserInterface.mp4_only links
  /\ Forall (fun x : ProviderManager.link4 => x.2 <> "HiAnime") (UserInterface.mp4_only links).
Proof.
  intros Hperm links.
  pose proof (get_all_links_ranked json_loads str_of w order show_id episode mode Hperm)
    as Hr. fold links in Hr.
  assert (Hf := proj2 Hr).
  assert (Heq : UserInterface.mp4_only links =
                (of_provider "Wixmp" links ++ of_provider "SharePoint" links
                 ++ of_provider "YouTube" links)%list).
  { rewrite <- (ranked_blocks links Hr) at 1. rewrite !mp4_only_app.
    rewrite (mp4_only_of_provider "Wixmp" "mp4"), (mp4_only_of_provider "SharePoint" "mp4"),
      (mp4_only_of_provider "YouTube" "mp4"), (mp4_only_of_provider "HiAnime" "m3u8")
      by (done || by_evaluation).
    cbn. by rewrite app_nil_r. }
  split.
  - rewrite download_options_spec, !of_provider_mp4_only.
    rewrite (mp4_only_of_provider "Wixmp" "mp4"), (mp4_only_of_provider "SharePoint" "mp4"),
      (mp4_only_of_provider "YouTube" "mp4") by (done || by_evaluation).
    cbn. by rewrite Heq.
  - rewrite Heq. rewrite !Forall_app. unfold of_provider.
    repeat split; apply Forall_forall; intros x [Hx _]%list_elem_of_filter;
      rewrite Hx; discriminate.
Qed.

Lemma download_menu_offers_every_mp4_link_witness :
  (forall fs : list ProviderManager.future, rev fs ≡ₚ fs)
  /\ UserInterface.download_options
       (UserInterface.mp4_only
          (ProviderManager.get_all_links Scenario.json_loads Scenario.str_of
             Scenario.two_providers (@rev _) "show" "1" "sub"))
     = UserInterface.mp4_only
         (ProviderManager.get_all_links Scenario.json_loads Scenario.str_of
            Scenario.two_providers (@rev _) "show" "1" "sub").
Proof.
  split; [intros fs; symmetry; apply Permutation_rev|].
  apply (download_menu_offers_every_mp4_link Scenario.json_loads Scenario.str_of
           Scenario.two_providers (@rev _) "show" "1" "sub").
  intros fs. symmetry. apply Permutation_rev.
Defined.

(** ** All links or none *)

(** When the metadata query gave source lines, [get_all_links] returns
    either everything the finished fetches gave, rearranged, or nothing:
    nothing is lost or added when every quality label can be a dict key,
    and one label that cannot (a list or an object in the JSON of a
    SharePoint reply) makes the sort raise and the call return the empty
    list, the links of the other providers included. *)
Theorem get_all_links_all_or_nothing
    (json_loads : string -> option (list (string * pyval))) (str_of : pyval -> string)
    (w : ProviderManager.world)
    (order : list ProviderManager.future -> list ProviderManager.future)
    (show_id episode mode source_response : string) :
  ProviderManager.fetch_source_response str_of w show_id episode mode
    = Ok (Some source_response) ->
  let all_links := gathered json_loads w order source_response in
  let links := ProviderManager.get_all_links json_loads str_of w order show_id episode mode in
  (forallb ProviderManager.hashable_link all_links = true -> links ≡ₚ all_links)
  /\ (forallb ProviderManager.hashable_link all_links = false -> links = []).
Proof.
  intros Hsr all_links links. subst links.
  unfold ProviderManager.get_all_links, ProviderManager.get_all_links_run.
  rewrite Hsr. cbn [snd]. fold (gathered json_loads w order source_response).
  fold all_links. rewrite sort_links_spec.
  split; intros ->; cbn [try_except]; [apply stable_sort_perm|reflexivity].
Qed.

Lemma get_all_links_all_or_nothing_witness :
  ProviderManager.fetch_source_response Scenario.str_of LabelScenario.list_label
    "show" "1" "sub" = Ok (Some LabelScenario.source_response)
  /\ length (gathered LabelScenario.json_loads LabelScenario.list_label (@rev _)
               LabelScenario.source_response) = 3
  /\ ProviderManager.get_all_links LabelScenario.json_loads Scenario.str_of
       LabelScenario.list_label (@rev _) "show" "1" "sub" = [].
Proof.
  assert (Hsr : ProviderManager.fetch_source_response Scenario.str_of
                  LabelScenario.list_label "show" "1" "sub"
                = Ok (Some LabelScenario.source_response))
    by (vm_compute; reflexivity).
  split; [exact Hsr|]. split; [vm_compute; reflexivity|].
  apply (proj2 (get_all_links_all_or_nothing LabelScenario.json_loads Scenario.str_of
                  LabelScenario.list_label (@rev _) "show" "1" "sub"
                  LabelScenario.source_response Hsr)).
  vm_compute. reflexivity.
Defined.

(** ** The command of the player *)

Lemma get_player_path_name cfg force_player r :
  ConfigManager.get_player_path cfg force_player = Ok (Some r) -> chosen cfg r.
Proof.
  intros H. unfold ConfigManager.get_player_path in H.
  destruct force_player as [fp|]; [|by apply preferred_path_sound].
  destruct (String.eqb fp ""); [by apply preferred_path_sound|].
  destruct (String.eqb (PyText.lower fp) "vlc").
  { apply try_player_sound in H as [(? & ? & ?)|H];
      [split; [done|]; by left|by apply preferred_path_sound]. }
  destruct (String.eqb (PyText.lower fp) "mpv").
  { apply try_player_sound in H as [(? & ? & ?)|H];
      [split; [done|]; by right|by apply preferred_path_sound]. }
  by apply preferred_path_sound.
Qed.

(** For a player that [get_player_path] returned, the command of a
    watching session is never the bare fallback of path and url: it
    carries the configured arguments, the referrer and the title, the url
    second for VLC and last for mpv; and whatever the mode of the session,
    the options that switch subtitles off are not added, since the
    session passes no mode to [launch_player]. *)
Theorem session_command_of_configured_player
    (cfg : ConfigManager.player_config) (args : MediaPlayer.player_args)
    (force_player : option string) (path player_name : string)
    (mode url anime_name episode : string) :
  ConfigManager.get_player_path cfg force_player = Ok (Some (path, player_name)) ->
  let title := anime_name +:+ " - Episode " +:+ episode in
  let cmd := MediaPlayer.session_command args mode url anime_name episode path player_name in
  (player_name = "VLC"
   /\ cmd = ([path; url] ++ MediaPlayer.player_args_vlc args
            ++ ["--http-referrer"; "https://allmanga.to"; "--meta-title"; title])%list)
  \/ (player_name = "MPV"
      /\ cmd = ([path] ++ MediaPlayer.player_args_mpv args
               ++ ["--http-header-fields=Referer: https://allmanga.to";
                   "--title=" +:+ title; url])%list).
Proof.
  intros H title cmd. apply get_player_path_name in H as [_ [[Hn _]|[Hn _]]];
    cbn [fst snd] in Hn; subst player_name; [left|right]; (split; [reflexivity|]).
  - reflexivity.
  - subst cmd. unfold MediaPlayer.session_command, MediaPlayer.launch_player_command,
      MediaPlayer.get_player_command.
    change (MediaPlayer.upper_is "MPV" "VLC") with false.
    change (MediaPlayer.upper_is "MPV" "MPV") with true.
    cbn [default from_option id String.eqb Ascii.eqb]. cbn. by rewrite <- !app_assoc.
Qed.

Lemma session_command_of_configured_player_witness :
  ConfigManager.get_player_path PlayerScenario.only_vlc (Some "mpv")
    = Ok (Some ("/usr/bin/vlc", "VLC"))
  /\ MediaPlayer.session_command CommandScenario.default_args "dub"
       "https://host/stream.m3u8" "Bleach" "12" "/usr/bin/vlc" "VLC"
     = ["/usr/bin/vlc"; "https://host/stream.m3u8"; "--play-and-exit"; "--no-video-deco";
        "--vout"; "directx"; "--avcodec-hw"; "none"; "--http-referrer";
        "https://allmanga.to"; "--meta-title"; "Bleach - Episode 12"].
Proof.
  assert (H : ConfigManager.get_player_path PlayerScenario.only_vlc (Some "mpv")
              = Ok (Some ("/usr/bin/vlc", "VLC"))) by (vm_compute; reflexivity).
  split; [exact H|].
  destruct (session_command_of_configured_player PlayerScenario.only_vlc
              CommandScenario.default_args (Some "mpv") "/usr/bin/vlc" "VLC" "dub"
              "https://host/stream.m3u8" "Bleach" "12" H) as [[_ Hc]|[Hn _]].
  - exact Hc.
  - discriminate Hn.
Defined.
